(** * Py2UML: class-model extraction and diagram description

    A shallow embedding of the three Python modules of the project:

    - [code_read_parser.py]  : [CodeReadParser], which walks parsed syntax
      trees and fills the registry [classes_info];
    - [UML_and_json_creator.py] : [JSONSaver] and [UMLCreator], which validate
      a registry, write it as JSON, and turn it into a Graphviz description;
    - [main.py] : the driver, which chains the calls.

    Python objects that are mutated in place are threaded as explicit state
    through a state-and-exception monad; Python dictionaries are association
    lists that keep insertion order and hold each key once. *)

From Stdlib Require Import String Ascii List Bool Arith ZArith Lia.
Import ListNotations.
Set Warnings "-register-all".
Open Scope string_scope.
Open Scope list_scope.

(* ================================================================== *)
(** ** Python runtime: exceptions, results, dictionaries *)
(* ================================================================== *)

Module Py.

(** The exception classes the two modules raise or let escape.  The
    argument is the message.  [JSONDecodeError] is the class [json.load]
    raises; [LookupError] is what [open] raises for an encoding that names
    no codec. *)
Inductive exn : Type :=
| ValueError (msg : string)
| TypeError (msg : string)
| KeyError (msg : string)
| AttributeError (msg : string)
| FileNotFoundError (msg : string)
| IndexError (msg : string)
| SyntaxError (msg : string)
| CalledProcessError (msg : string)
| LookupError (msg : string)
| UnicodeDecodeError (msg : string)
| JSONDecodeError (msg : string).

(** Outcome of evaluating an expression or running a statement. *)
Inductive result (A : Type) : Type :=
| Ok (a : A)
| Raise (e : exn).
Arguments Ok {A} a.
Arguments Raise {A} e.

Definition bindR {A B} (m : result A) (k : A -> result B) : result B :=
  match m with
  | Ok a => k a
  | Raise e => Raise e
  end.

(** A [for] loop whose body may raise and that collects one value per
    element: list comprehensions and generator expressions that are
    consumed whole. *)
Fixpoint mapR {A B} (f : A -> result B) (xs : list A) : result (list B) :=
  match xs with
  | [] => Ok []
  | x :: rest =>
      bindR (f x) (fun y => bindR (mapR f rest) (fun ys => Ok (y :: ys)))
  end.

(** A [for] loop whose body may raise and yields nothing. *)
Fixpoint iterR {A} (f : A -> result unit) (xs : list A) : result unit :=
  match xs with
  | [] => Ok tt
  | x :: rest => bindR (f x) (fun _ => iterR f rest)
  end.

(** Statements that mutate an object of type [S] and may raise: the state
    reached when the exception leaves is kept, as [try]/[except] sees it. *)
Definition M (S A : Type) : Type := S -> result A * S.

Definition ret {S A} (a : A) : M S A := fun s => (Ok a, s).

Definition bind {S A B} (m : M S A) (k : A -> M S B) : M S B :=
  fun s =>
    match m s with
    | (Ok a, s') => k a s'
    | (Raise e, s') => (Raise e, s')
    end.

Definition raise {S A} (e : exn) : M S A := fun s => (Raise e, s).

Definition get {S} : M S S := fun s => (Ok s, s).

Definition lift {S A} (r : result A) : M S A := fun s => (r, s).

(** [try: m except Exception as e: handler e] *)
Definition try_except {S A} (m : M S A) (handler : exn -> M S A) : M S A :=
  fun s =>
    match m s with
    | (Ok a, s') => (Ok a, s')
    | (Raise e, s') => handler e s'
    end.

(** [for x in xs: body x] *)
Fixpoint for_each {S A} (xs : list A) (body : A -> M S unit) : M S unit :=
  match xs with
  | [] => ret tt
  | x :: rest => bind (body x) (fun _ => for_each rest body)
  end.

(** Python [dict] with string keys: insertion-ordered, one entry per key.
    Assigning to a key that is present replaces the value where it stands;
    assigning to a new key appends the entry. *)
Definition dict (V : Type) : Type := list (string * V).

Fixpoint dict_get {V} (k : string) (d : dict V) : option V :=
  match d with
  | [] => None
  | (k', v) :: rest => if String.eqb k' k then Some v else dict_get k rest
  end.

Fixpoint dict_set {V} (k : string) (v : V) (d : dict V) : dict V :=
  match d with
  | [] => [(k, v)]
  | (k', v') :: rest =>
      if String.eqb k' k then (k, v) :: rest else (k', v') :: dict_set k v rest
  end.

Definition dict_keys {V} (d : dict V) : list string := map fst d.

Definition dict_items {V} (d : dict V) : list (string * V) := d.

Definition dict_contains {V} (k : string) (d : dict V) : bool :=
  match dict_get k d with
  | Some _ => true
  | None => false
  end.

(** [s.endswith(suffix)] *)
Fixpoint endswith (s suffix : string) : bool :=
  if String.eqb s suffix then true
  else
    match s with
    | EmptyString => false
    | String _ rest => endswith rest suffix
    end.

(** [sep.join(parts)] *)
Definition join (sep : string) (parts : list string) : string :=
  String.concat sep parts.

(** The encodings the parser chooses from.  Their codecs are part of every
    Python installation. *)
Definition standard_encodings : list string := ["utf-8"; "gbk"; "latin-1"].

(** Whether [open(..., encoding=enc)] finds a text codec of that name.  The
    three standard names are found and the empty name never is; for every
    other name the answer is the installation's, [codec_installed]. *)
Definition known_encoding (codec_installed : string -> bool) (enc : string)
  : bool :=
  existsb (String.eqb enc) standard_encodings
  || (negb (String.eqb enc "") && codec_installed enc).

End Py.

Import Py.

Declare Scope py_scope.
Delimit Scope py_scope with py.
Notation "x <- m ;; k" := (bind m (fun x => k))
  (at level 61, m at next level, right associativity) : py_scope.
Notation "m ;; k" := (bind m (fun _ => k))
  (at level 61, right associativity) : py_scope.
Notation "'let?' x := m 'in' k" := (bindR m (fun x => k))
  (at level 10, x name, m at level 100, k at level 200) : py_scope.
Open Scope py_scope.

(* ================================================================== *)
(** ** The syntax trees of Python's [ast] module *)
(* ================================================================== *)

Module Ast.

(** The value of an [ast.Constant] node, by the Python type it has. *)
Inductive constant : Type :=
| CStr (s : string)
| CInt (n : nat)
| CFloat (literal : string)
| CComplex (literal : string)
| CBytes (s : string)
| CBool (b : bool)
| CNone
| CEllipsis.

(** [type(value).__name__] *)
Definition type_name (c : constant) : string :=
  match c with
  | CStr _ => "str"
  | CInt _ => "int"
  | CFloat _ => "float"
  | CComplex _ => "complex"
  | CBytes _ => "bytes"
  | CBool _ => "bool"
  | CNone => "NoneType"
  | CEllipsis => "ellipsis"
  end.

(** Expressions.  The extractor tells [Name], [Attribute] and [Constant]
    apart from everything else; [Call] and [Subscript] are the usual shapes
    of a base class or an annotation that is none of the three, and
    [OtherExpr] stands for every remaining expression kind. *)
Inductive expr : Type :=
| Name (id : string)
| Attribute (value : expr) (attr : string)
| Constant (value : constant)
| Call (func : expr) (args : list expr)
| Subscript (value : expr) (slice : expr)
| OtherExpr (kind : string) (children : list expr).

(** [ast.arg]: one formal parameter. *)
Record arg_node : Type := mk_arg {
  arg : string;
  annotation : option expr
}.

(** [ast.arguments]: the formal parameters of a function, by kind. *)
Record arguments : Type := mk_arguments {
  posonlyargs : list arg_node;
  args : list arg_node;
  vararg : option arg_node;
  kwonlyargs : list arg_node;
  kwarg : option arg_node
}.

Definition no_arguments : arguments :=
  mk_arguments [] [] None [] None.

(** Statements, and with them every other node kind below which a statement
    can stand.  [OtherStmt] is any node that is none of the four kinds the
    extractor looks at ([If], [For], [While], [With], [Try] and its
    handlers, [Match] and its cases, [AsyncFunctionDef], [Pass], ...); its
    [children] are its child nodes that are or hold statements, in field
    order. *)
Inductive stmt : Type :=
| FunctionDef (name : string) (args : arguments) (body : list stmt)
    (decorator_list : list expr) (returns : option expr)
| ClassDef (name : string) (bases : list expr) (body : list stmt)
    (decorator_list : list expr)
| Assign (targets : list expr) (value : expr)
| AnnAssign (target : expr) (annotation : expr) (value : option expr)
| OtherStmt (kind : string) (children : list stmt).

(** [ast.Module] *)
Inductive module_node : Type :=
| Module (body : list stmt).

(** Attribute access on a node: [node.name], [node.args], [node.body], ...
    Each is read in the source only behind the [isinstance] test that
    makes it present; elsewhere the accessor returns an empty value. *)
Definition node_name (node : stmt) : string :=
  match node with
  | FunctionDef name _ _ _ _ => name
  | ClassDef name _ _ _ => name
  | _ => ""
  end.

Definition node_args (node : stmt) : arguments :=
  match node with
  | FunctionDef _ a _ _ _ => a
  | _ => no_arguments
  end.

Definition node_body (node : stmt) : list stmt :=
  match node with
  | FunctionDef _ _ body _ _ => body
  | ClassDef _ _ body _ => body
  | _ => []
  end.

Definition node_bases (node : stmt) : list expr :=
  match node with
  | ClassDef _ bases _ _ => bases
  | _ => []
  end.

Definition node_decorator_list (node : stmt) : list expr :=
  match node with
  | FunctionDef _ _ _ d _ => d
  | ClassDef _ _ _ d => d
  | _ => []
  end.

Definition node_returns (node : stmt) : option expr :=
  match node with
  | FunctionDef _ _ _ _ r => r
  | _ => None
  end.

(** [hasattr(node, 'annotation')] together with the attribute's value:
    among statements only [AnnAssign] has the field. *)
Definition node_annotation (node : stmt) : option expr :=
  match node with
  | AnnAssign _ a _ => Some a
  | _ => None
  end.

(** [isinstance(node, ast.ClassDef)] *)
Definition is_ClassDef (node : stmt) : bool :=
  match node with
  | ClassDef _ _ _ _ => true
  | _ => false
  end.

(** [ast.iter_child_nodes], restricted to the children that are or hold
    statements (expressions hold none). *)
Definition iter_child_nodes (node : stmt) : list stmt :=
  match node with
  | FunctionDef _ _ body _ _ => body
  | ClassDef _ _ body _ => body
  | Assign _ _ => []
  | AnnAssign _ _ _ => []
  | OtherStmt _ children => children
  end.

(** Number of statement nodes in a subtree. *)
Fixpoint node_count (node : stmt) : nat :=
  match node with
  | FunctionDef _ _ body _ _ => S (list_sum (map node_count body))
  | ClassDef _ _ body _ => S (list_sum (map node_count body))
  | Assign _ _ => 1
  | AnnAssign _ _ _ => 1
  | OtherStmt _ children => S (list_sum (map node_count children))
  end.

Definition nodes_count (nodes : list stmt) : nat :=
  list_sum (map node_count nodes).

(** The loop of [ast.walk]: pop the first node of the queue, push its
    children at the end, yield the node.  [fuel] bounds the number of
    iterations. *)
Fixpoint walk_queue (fuel : nat) (todo : list stmt) : list stmt :=
  match fuel with
  | O => []
  | S fuel' =>
      match todo with
      | [] => []
      | node :: rest => node :: walk_queue fuel' (rest ++ iter_child_nodes node)
      end
  end.

(** [ast.walk(tree)]: the statement nodes of the tree in breadth-first
    order (the module node and expression nodes, which the callers skip,
    are left out).  One iteration per node is enough fuel. *)
Definition walk (tree : module_node) : list stmt :=
  match tree with
  | Module body => walk_queue (nodes_count body) body
  end.

End Ast.

Import Ast.

(* ================================================================== *)
(** ** [code_read_parser.py]: class [CodeReadParser] *)
(* ================================================================== *)

Module CodeReadParser.

(** One entry of a class's ["methods"] list. *)
Record method_info : Type := mk_method_info {
  name : string;
  args : list string;
  decorators : list string;
  return_type : string
}.

(** One value of [classes_info]: the dictionary with the three keys
    ["attributes"], ["methods"] and ["parent_classes"]. *)
Record class_info : Type := mk_class_info {
  attributes : dict string;
  methods : list method_info;
  parent_classes : list string
}.

(** The instance attributes set by [__init__]. *)
Record t : Type := mk {
  project_path : string;
  classes_path : dict string;
  VALID_ENCODING : string;
  classes_info : dict class_info
}.

Section WithEnvironment.

(** What the extraction takes from the standard library: [ast.unparse],
    [os.path.abspath] and [os.path.relpath]. *)
Variable unparse : expr -> string.
Variable abspath : string -> string.
Variable relpath : string -> string -> string.

Definition __init__ (project_path : string) : t :=
  {| project_path := abspath project_path;
     classes_path := [];
     VALID_ENCODING := "";
     classes_info := [] |}.

(** [self.classes_info[class_name] = info] *)
Definition set_class (class_name : string) (info : class_info) : M t unit :=
  fun self =>
    (Ok tt,
     {| project_path := project_path self;
        classes_path := classes_path self;
        VALID_ENCODING := VALID_ENCODING self;
        classes_info := dict_set class_name info (classes_info self) |}).

(** [self.classes_path[class_name] = relative_path] *)
Definition set_class_path (class_name relative_path : string) : M t unit :=
  fun self =>
    (Ok tt,
     {| project_path := project_path self;
        classes_path := dict_set class_name relative_path (classes_path self);
        VALID_ENCODING := VALID_ENCODING self;
        classes_info := classes_info self |}).

(** [self.classes_info[class_name]]: a [KeyError] when the class is not
    registered. *)
Definition get_class (class_name : string) : M t class_info :=
  fun self =>
    match dict_get class_name (classes_info self) with
    | Some info => (Ok info, self)
    | None => (Raise (KeyError class_name), self)
    end.

(** [self.classes_info[class_name]["attributes"][attr_name] = attr_type]:
    the inner dictionary is changed in place, so the class keeps its place
    in the registry. *)
Definition set_attribute (class_name attr_name attr_type : string)
  : M t unit :=
  info <- get_class class_name ;;
  set_class class_name
    {| attributes := dict_set attr_name attr_type (attributes info);
       methods := methods info;
       parent_classes := parent_classes info |}.

(** [self.classes_info[class_name]["methods"].append(method_info)] *)
Definition append_method (class_name : string) (m : method_info)
  : M t unit :=
  info <- get_class class_name ;;
  set_class class_name
    {| attributes := attributes info;
       methods := methods info ++ [m];
       parent_classes := parent_classes info |}.

Definition _file_path_to_relative_path (file_path : string) : M t string :=
  self <- get ;;
  ret (relpath file_path (project_path self)).

(** The loop appends ["name: type"] for every [arg] of [arguments.args]
    whose name is not ['self']. *)
Definition _extract_arguments (arguments : Ast.arguments) : list string :=
  fold_left
    (fun args a =>
       if negb (String.eqb (arg a) "self") then
         let arg_type :=
           match annotation a with
           | Some ann => unparse ann
           | None => "Any"
           end in
         args ++ [(arg a ++ ": " ++ arg_type)%string]
       else args)
    (Ast.args arguments) [].

Definition _extract_return_type (method_node : stmt) : string :=
  match node_returns method_node with
  | Some r => unparse r
  | None => "None"
  end.

Definition _process_init_method (class_name : string) (init_node : stmt)
  : M t unit :=
  for_each (node_body init_node) (fun stmt =>
    match stmt with
    | Assign targets _ =>
        for_each targets (fun target =>
          match target with
          | Attribute (Name id) attr =>
              if String.eqb id "self" then
                let attr_name := attr in
                let attr_type :=
                  match node_annotation stmt with
                  | Some ann => unparse ann
                  | None => "Any"
                  end in
                set_attribute class_name attr_name attr_type
              else ret tt
          | _ => ret tt
          end)
    | _ => ret tt
    end).

Definition _process_method (class_name : string) (method_node : stmt)
  : M t unit :=
  let method_info :=
    {| name := node_name method_node;
       args := _extract_arguments (node_args method_node);
       decorators :=
         flat_map (fun d => match d with Name id => [id] | _ => [] end)
                  (node_decorator_list method_node);
       return_type := _extract_return_type method_node |} in
  if String.eqb (node_name method_node) "__init__" then
    _process_init_method class_name method_node
  else
    append_method class_name method_info.

Definition _process_class_attribute (class_name : string)
  (assign_node : stmt) : M t unit :=
  match assign_node with
  | Assign targets value =>
      for_each targets (fun target =>
        match target with
        | Name id =>
            let attr_name := id in
            let attr_type :=
              match value with
              | Constant c => type_name c
              | _ => "Any"
              end in
            set_attribute class_name attr_name attr_type
        | _ => ret tt
        end)
  | _ => ret tt
  end.

Definition _process_annotated_attribute (class_name : string)
  (ann_assign_node : stmt) : M t unit :=
  match ann_assign_node with
  | AnnAssign (Name id) ann _ =>
      let attr_name := id in
      let attr_type := unparse ann in
      set_attribute class_name attr_name attr_type
  | _ => ret tt
  end.

Definition _extract_class_details (class_name : string) (class_node : stmt)
  : M t unit :=
  for_each (node_body class_node) (fun body_item =>
    match body_item with
    | FunctionDef _ _ _ _ _ => _process_method class_name body_item
    | Assign _ _ => _process_class_attribute class_name body_item
    | AnnAssign _ _ _ => _process_annotated_attribute class_name body_item
    | _ => ret tt
    end).

(** The body of the loop of [_register_classes] for one node of the walk. *)
Definition register_node (file_path : string) (node : stmt) : M t unit :=
  if is_ClassDef node then
    let class_name := node_name node in
    set_class class_name
      {| attributes := [];
         methods := [];
         parent_classes :=
           flat_map (fun base => match base with Name id => [id] | _ => [] end)
                    (node_bases node) |} ;;
    relative_path <- _file_path_to_relative_path file_path ;;
    set_class_path class_name relative_path ;;
    _extract_class_details class_name node
  else ret tt.

Definition _register_classes (file_path : string) (tree : module_node)
  : M t unit :=
  for_each (walk tree) (register_node file_path).

End WithEnvironment.

(** How reading a file with an encoding ends: the text is read, a
    [UnicodeDecodeError] is raised, or another exception is. *)
Inductive read_outcome : Type :=
| ReadOk
| DecodeError
| ReadFails (e : exn).

Section WithFileSystem.

(** What finding and reading the files takes from the operating system
    and the Python installation: the codecs installed beside the standard
    ones (see [known_encoding]), [os.walk] (the triples
    [(root, dirs, files)] it yields for a directory, none when the
    directory cannot be listed), [os.path.join], the error, if any, that
    the operating system gives when a file is opened for reading, and
    whether the bytes of a file decode as UTF-8 or GBK.  Latin-1 gives
    every byte a character, so a file that can be opened always decodes as
    Latin-1. *)
Variable codec_installed : string -> bool.
Variable os_walk : string -> list (string * list string * list string).
Variable path_join : string -> string -> string.
Variable open_error : string -> option exn.
Variable decodes : string -> string -> bool.

(** [with open(file_path, "r", encoding=enc) as f: f.read()] for [enc] one
    of the three standard encodings, whose codecs are always found. *)
Definition read_with (file_path enc : string) : read_outcome :=
  match open_error file_path with
  | Some e => ReadFails e
  | None =>
      if String.eqb enc "latin-1" then ReadOk
      else if decodes file_path enc then ReadOk
      else DecodeError
  end.

Definition _get_py_files (self : t) : result (list string) :=
  let py_files :=
    fold_left
      (fun py_files triple =>
         let root := fst (fst triple) in
         let files := snd triple in
         fold_left
           (fun py_files file =>
              if endswith file ".py" then py_files ++ [path_join root file]
              else py_files)
           files py_files)
      (os_walk (project_path self)) [] in
  if Nat.eqb (length py_files) 0 then
    Raise (IndexError "No python files found")
  else Ok py_files.

(** [self.VALID_ENCODING = enc] *)
Definition set_encoding (enc : string) : M t unit :=
  fun self =>
    (Ok tt,
     {| project_path := project_path self;
        classes_path := classes_path self;
        VALID_ENCODING := enc;
        classes_info := classes_info self |}).

(** The loop of [_get_encoding] over the encodings still to try: the first
    one that reads the file is kept and ends the loop; a
    [UnicodeDecodeError] is caught (its message is printed) and the next
    encoding is tried; any other exception leaves the method. *)
Fixpoint try_encodings (file_path : string) (encodings : list string)
  : M t unit :=
  match encodings with
  | [] => ret tt
  | enc :: rest =>
      match read_with file_path enc with
      | ReadOk => set_encoding enc
      | DecodeError => try_encodings file_path rest
      | ReadFails e => raise e
      end
  end.

Definition _get_encoding (file_path : string) : M t unit :=
  let encodings := ["utf-8"; "gbk"; "latin-1"] in
  try_encodings file_path encodings.

Variable unparse : expr -> string.
Variable relpath : string -> string -> string.

(** The outcome of [ast.parse(f.read())] on a file read with the encoding
    the parser has selected. *)
Variable parse_file : string -> result module_node.

(** [py_files[0]] *)
Definition first_file (py_files : list string) : result string :=
  match py_files with
  | file_path :: _ => Ok file_path
  | [] => Raise (IndexError "list index out of range")
  end.

(** [open(file_path, "r", encoding=self.VALID_ENCODING)]: the file is
    opened first, then the codec is looked up. *)
Definition open_for_reading (file_path : string) : M t unit :=
  self <- get ;;
  match open_error file_path with
  | Some e => raise e
  | None =>
      if known_encoding codec_installed (VALID_ENCODING self) then ret tt
      else raise (LookupError ("unknown encoding: " ++ VALID_ENCODING self))
  end.

(** The [with open(...)] line stands before the [try]: an error of [open]
    leaves the loop and the method, while an error of reading or parsing
    the file is caught and the loop goes on.  The message printed for a
    file that fails is not modelled. *)
Definition _parse_all_files (py_files : list string) : M t unit :=
  for_each py_files (fun file_path =>
    open_for_reading file_path ;;
    try_except
      (tree <- lift (parse_file file_path) ;;
       _register_classes unparse relpath file_path tree)
      (fun e => ret tt)).

Definition __call__ : M t unit :=
  self <- get ;;
  py_files <- lift (_get_py_files self) ;;
  first <- lift (first_file py_files) ;;
  _get_encoding first ;;
  _parse_all_files py_files.

End WithFileSystem.

End CodeReadParser.

(* ================================================================== *)
(** ** Dynamically typed values: what a registry read from JSON can be *)
(* ================================================================== *)

Module Value.

(** The values [json.load] builds, which are also the values the extractor
    puts in [classes_info] (strings, lists and string-keyed dictionaries).
    Floating-point numbers are left out. *)
Inductive pyval : Type :=
| PNone
| PBool (b : bool)
| PInt (z : Z)
| PStr (s : string)
| PList (items : list pyval)
| PDict (entries : list (string * pyval)).

(** [type(v).__name__] *)
Definition type_name (v : pyval) : string :=
  match v with
  | PNone => "NoneType"
  | PBool _ => "bool"
  | PInt _ => "int"
  | PStr _ => "str"
  | PList _ => "list"
  | PDict _ => "dict"
  end.

(** Truth value: [if v], [not v], [a and b], [a or b]. *)
Definition truthy (v : pyval) : bool :=
  match v with
  | PNone => false
  | PBool b => b
  | PInt z => negb (Z.eqb z 0)
  | PStr s => negb (String.eqb s "")
  | PList items => match items with [] => false | _ => true end
  | PDict entries => match entries with [] => false | _ => true end
  end.

Definition py_or (a b : pyval) : pyval := if truthy a then a else b.

(** [isinstance(v, dict)] *)
Definition is_dict (v : pyval) : bool :=
  match v with
  | PDict _ => true
  | _ => false
  end.

(** [v.items()].  The texts of the built-in errors follow CPython 3.11. *)
Definition py_items (v : pyval) : result (list (string * pyval)) :=
  match v with
  | PDict entries => Ok (dict_items entries)
  | _ => Raise (AttributeError
                  ("'" ++ type_name v ++ "' object has no attribute 'items'"))
  end.

(** [v.keys()] *)
Definition py_keys (v : pyval) : result (list string) :=
  match v with
  | PDict entries => Ok (dict_keys entries)
  | _ => Raise (AttributeError
                  ("'" ++ type_name v ++ "' object has no attribute 'keys'"))
  end.

(** [v[key]] for a string [key] *)
Definition py_getitem (v : pyval) (key : string) : result pyval :=
  match v with
  | PDict entries =>
      match dict_get key entries with
      | Some x => Ok x
      | None => Raise (KeyError key)
      end
  | PList _ =>
      Raise (TypeError "list indices must be integers or slices, not str")
  | PStr _ => Raise (TypeError "string indices must be integers, not 'str'")
  | _ => Raise (TypeError ("'" ++ type_name v ++ "' object is not subscriptable"))
  end.

(** The characters of a string, each as a string of length one. *)
Fixpoint chars (s : string) : list string :=
  match s with
  | EmptyString => []
  | String c rest => String c EmptyString :: chars rest
  end.

(** [for x in v]: the elements of a list, the keys of a dictionary, the
    characters of a string. *)
Definition py_iter (v : pyval) : result (list pyval) :=
  match v with
  | PList items => Ok items
  | PDict entries => Ok (map PStr (dict_keys entries))
  | PStr s => Ok (map PStr (chars s))
  | _ => Raise (TypeError ("'" ++ type_name v ++ "' object is not iterable"))
  end.

(** The registry as the extractor builds it, seen as a dynamic value: the
    same dictionaries, with the keys in the order the source writes them. *)
Definition of_method (m : CodeReadParser.method_info) : pyval :=
  PDict [("name", PStr (CodeReadParser.name m));
         ("args", PList (map PStr (CodeReadParser.args m)));
         ("decorators", PList (map PStr (CodeReadParser.decorators m)));
         ("return_type", PStr (CodeReadParser.return_type m))].

Definition of_class (info : CodeReadParser.class_info) : pyval :=
  PDict [("attributes",
          PDict (map (fun kv => (fst kv, PStr (snd kv)))
                     (CodeReadParser.attributes info)));
         ("methods", PList (map of_method (CodeReadParser.methods info)));
         ("parent_classes",
          PList (map PStr (CodeReadParser.parent_classes info)))].

Definition of_registry (r : dict CodeReadParser.class_info) : pyval :=
  PDict (map (fun kv => (fst kv, of_class (snd kv))) r).

End Value.

Import Value.

(* ================================================================== *)
(** ** Files *)
(* ================================================================== *)

Module Files.

(** What a file holds.  A text file carries the encoding it was written
    under and is told apart by what [json.load] makes of its text: the
    JSON document of a value, as [json.dump] writes it, or text that is no
    JSON document. *)
Inductive content : Type :=
| JsonText (encoding : string) (v : pyval)
| PlainText (encoding : string) (text : string)
| Image (data : string)      (* what the renderer wrote *)
| EmptyFile.                 (* a file of no bytes *)

(** The files by path: a flat store in which every non-empty path names a
    file that can be created and written. *)
Definition filesystem : Type := dict content.

Section WithCodecs.

Variable codec_installed : string -> bool.

(** [with open(path, "w", encoding=encoding) as f:] followed by the write
    that leaves [c] in the file.  [open] creates or empties the file before
    it looks the codec up, so an unknown encoding leaves an empty file
    behind; the empty path names no file.  The text is taken to be
    encodable under the encoding: UTF-8 encodes every text, what
    [json.dump] writes is ASCII, and a description made from files that
    were read under an encoding holds the characters of those files. *)
Definition write_file (path encoding : string) (c : content)
  : M filesystem unit :=
  fun fs =>
    if String.eqb path "" then
      (Raise (FileNotFoundError "[Errno 2] No such file or directory: ''"), fs)
    else if negb (known_encoding codec_installed encoding) then
      (Raise (LookupError ("unknown encoding: " ++ encoding)),
       dict_set path EmptyFile fs)
    else (Ok tt, dict_set path c fs).

End WithCodecs.

(** The renderer leaves its output in a file of its own making. *)
Definition renderer_writes (path : string) (c : content)
  : M filesystem unit :=
  fun fs => (Ok tt, dict_set path c fs).

End Files.

Import Files.

(* ================================================================== *)
(** ** [UML_and_json_creator.py]: class [JSONSaver] *)
(* ================================================================== *)

Module JSONSaver.

Record t : Type := mk {
  classes_info : pyval;
  json_path : string;
  VALID_ENCODING : string
}.

(** Defaults: [classes_info=None], [json_path="classes_info.json"],
    [encoding="utf-8"]. *)
Definition __init__ (classes_info : pyval) (json_path encoding : string) : t :=
  {| classes_info := classes_info;
     json_path := json_path;
     VALID_ENCODING := encoding |}.

Definition required_keys : list string :=
  ["attributes"; "methods"; "parent_classes"].

(** [a.issubset(b)] and [a - b] on sets of strings held as lists. *)
Definition issubset (a b : list string) : bool :=
  forallb (fun k => existsb (String.eqb k) b) a.

Definition difference (a b : list string) : list string :=
  filter (fun k => negb (existsb (String.eqb k) b)) a.

(** The rendering of a set of strings in a message.  Python leaves the
    order of the elements open (it changes with the hash seed); here they
    stand in the order of [required_keys].  No property below depends on
    the text of a message built with it. *)
Definition set_repr (ks : list string) : string :=
  ("{" ++ join ", " (map (fun k => "'" ++ k ++ "'") ks) ++ "}")%string.

Definition _validate_classes_info (self : t) : result bool :=
  if negb (truthy (classes_info self)) then
    Raise (ValueError "classes_info is empty.")
  else if negb (is_dict (classes_info self)) then
    Raise (TypeError "classes_info must be a dict.")
  else
    let? items := py_items (classes_info self) in
    let? _ :=
      iterR (fun cls_info =>
        let cls := fst cls_info in
        let info := snd cls_info in
        let? keys := py_keys info in
        if negb (issubset required_keys keys) then
          let missing_keys := difference required_keys keys in
          Raise (KeyError (cls ++ " missing keys: " ++ set_repr missing_keys))
        else
          let? attributes := py_getitem info "attributes" in
          if negb (is_dict attributes) then
            Raise (TypeError (cls ++ " attributes must be a dict."))
          else
            let? methods := py_getitem info "methods" in
            let? elements := py_iter methods in
            if negb (forallb is_dict elements) then
              Raise (TypeError (cls ++ " methods must be a list of dict."))
            else Ok tt)
        items in
    Ok true.

Section WithCodecs.

Variable codec_installed : string -> bool.

(** [json.dump] writes the JSON document of the value dumped.  The printed
    message is not modelled. *)
Definition save_to_json (self : t) : M filesystem unit :=
  valid <- lift (_validate_classes_info self) ;;
  if negb valid then raise (ValueError "classes_info is not valid.")
  else
    write_file codec_installed (json_path self) (VALID_ENCODING self)
      (JsonText (VALID_ENCODING self) (classes_info self)).

End WithCodecs.

End JSONSaver.

(* ================================================================== *)
(** ** [UML_and_json_creator.py]: class [UMLCreator] *)
(* ================================================================== *)

Module UMLCreator.

(** The line feed and the double quote. *)
Definition nl : string := String "010"%char EmptyString.
Definition dq : string := String "034"%char EmptyString.

(** The instance attributes.  [classes_info] is [None] while the attribute
    has not been assigned: the class does not call [JSONSaver.__init__]. *)
Record t : Type := mk {
  VALID_ENCODING : string;
  uml_path : string;
  class_template : string;
  classes_info : option pyval
}.

(** The DOT template of a class node, as the string literal of the source. *)
Definition template : string :=
  (nl ++
   "        {class_name} [" ++ nl ++
   "            shape=plaintext" ++ nl ++
   "            label=<" ++ nl ++
   "                <table border=" ++ dq ++ "0" ++ dq ++
     " cellborder=" ++ dq ++ "1" ++ dq ++
     " cellspacing=" ++ dq ++ "0" ++ dq ++ ">" ++ nl ++
   "                    <tr><td><b>{class_name}</b></td></tr>" ++ nl ++
   "                    {attributes}" ++ nl ++
   "                    {methods}" ++ nl ++
   "                </table>" ++ nl ++
   "            >" ++ nl ++
   "        ];" ++ nl ++
   "        ")%string.

(** [template.format(name=value, ...)] for templates whose replacement fields are
    plain names: text is copied, [{field}] is replaced by the keyword
    argument of that name.  [field] is [Some name] while the scan is inside
    the braces of a field. *)
Fixpoint format_from (field : option string) (template : string)
  (kwargs : dict string) : result string :=
  match template with
  | EmptyString =>
      match field with
      | None => Ok EmptyString
      | Some _ => Raise (ValueError "expected '}' before end of string")
      end
  | String c rest =>
      match field with
      | None =>
          if Ascii.eqb c "{"%char then format_from (Some EmptyString) rest kwargs
          else if Ascii.eqb c "}"%char then
            Raise (ValueError "Single '}' encountered in format string")
          else
            let? out := format_from None rest kwargs in
            Ok (String c out)
      | Some name =>
          if Ascii.eqb c "}"%char then
            match dict_get name kwargs with
            | Some v =>
                let? out := format_from None rest kwargs in
                Ok (v ++ out)%string
            | None => Raise (KeyError name)
            end
          else format_from (Some (name ++ String c EmptyString)%string) rest kwargs
      end
  end.

Definition format (template : string) (kwargs : dict string) : result string :=
  format_from None template kwargs.

(** [self.classes_info] *)
Definition get_classes_info (self : t) : result pyval :=
  match classes_info self with
  | Some v => Ok v
  | None =>
      Raise (AttributeError
               "'UMLCreator' object has no attribute 'classes_info'")
  end.

Definition required_keys : list string :=
  ["attributes"; "methods"; "parent_classes"].

(** The override of [JSONSaver._validate_classes_info]; it returns [None]. *)
Definition _validate_classes_info (self : t) : result unit :=
  let? classes_info := get_classes_info self in
  if negb (is_dict classes_info) then
    Raise (TypeError "classes_info must be a dict.")
  else
    let? items := py_items classes_info in
    iterR (fun cls_info =>
      let cls := fst cls_info in
      let info := snd cls_info in
      let? keys := py_keys info in
      if negb (JSONSaver.issubset required_keys keys) then
        let missing_keys := JSONSaver.difference required_keys keys in
        Raise (KeyError
                 (cls ++ " missing keys: " ++ JSONSaver.set_repr missing_keys))
      else Ok tt)
      items.

Section WithFiles.

(** The codecs installed beside the standard ones, and what [json.load]
    makes of a file whose bytes were not written as text under the
    encoding it is read with (an image, or text written under another
    encoding): a value, a [JSONDecodeError] or a [UnicodeDecodeError]. *)
Variable codec_installed : string -> bool.
Variable json_load_other : string -> content -> result pyval.

(** [json.load(f)] on a file opened with [encoding]. *)
Definition json_load (encoding : string) (c : content) : result pyval :=
  match c with
  | JsonText written data =>
      if String.eqb written encoding then Ok data
      else json_load_other encoding c
  | PlainText written _ =>
      if String.eqb written encoding then
        Raise (JSONDecodeError "Expecting value: line 1 column 1 (char 0)")
      else json_load_other encoding c
  | Image _ => json_load_other encoding c
  | EmptyFile =>
      Raise (JSONDecodeError "Expecting value: line 1 column 1 (char 0)")
  end.

(** [open(json_path, "r", encoding=self.VALID_ENCODING)]: the file is
    opened first, then the codec is looked up. *)
Definition open_for_reading (self : t) (json_path : string)
  (fs : filesystem) : result content :=
  match (if String.eqb json_path "" then None else dict_get json_path fs) with
  | None => Raise (FileNotFoundError "[Errno 2] No such file or directory")
  | Some c =>
      if known_encoding codec_installed (VALID_ENCODING self) then Ok c
      else Raise (LookupError ("unknown encoding: " ++ VALID_ENCODING self))
  end.

(** The [try] block and its two [except] clauses; the [TypeError] raised
    inside the [try] is caught by neither, and neither are a
    [LookupError] or a [UnicodeDecodeError]. *)
Definition load_from_json (self : t) (json_path : string) (fs : filesystem)
  : result pyval :=
  let attempt :=
    let? f := open_for_reading self json_path fs in
    let? data := json_load (VALID_ENCODING self) f in
    if negb (is_dict data) then Raise (TypeError "json file must be a dict.")
    else Ok data in
  match attempt with
  | Raise (JSONDecodeError _) =>
      Raise (ValueError "json file is not a valid json.")
  | Raise (FileNotFoundError _) =>
      Raise (FileNotFoundError "json file not found.")
  | outcome => outcome
  end.

(** Truth value of the [json_path] argument ([Optional[str]]). *)
Definition path_given (json_path : option string) : bool :=
  match json_path with
  | Some p => negb (String.eqb p "")
  | None => false
  end.

Definition with_classes_info (self : t) (v : pyval) : t :=
  {| VALID_ENCODING := VALID_ENCODING self;
     uml_path := uml_path self;
     class_template := class_template self;
     classes_info := Some v |}.

(** Defaults: [classes_info=None], [json_path=None], [encoding="utf-8"],
    [uml_path="UML_test.png"].  The constructor reads files and writes
    none. *)
Definition __init__ (classes_info : pyval) (json_path : option string)
  (encoding uml_path : string) (fs : filesystem) : result t :=
  let self :=
    {| VALID_ENCODING := encoding;
       uml_path := uml_path;
       class_template := template;
       classes_info := None |} in
  if truthy classes_info && path_given json_path then
    Raise (ValueError
             "Only to choose one data source, classes_info or json_path.")
  else if path_given json_path then
    let? data :=
      load_from_json self (match json_path with Some p => p | None => "" end)
                     fs in
    Ok (with_classes_info self data)
  else if truthy classes_info then
    let self := with_classes_info self (py_or classes_info (PDict [])) in
    let? _ := _validate_classes_info self in
    Ok self
  else Ok self.

End WithFiles.

Section WithEnvironment.

(** The codecs installed beside the standard ones; [repr] of a value that
    is not a string (f-strings render a string as it is and any other value
    as [repr] does); and the external [dot] program: from the description
    to the image it leaves in the output file, or the exception
    [subprocess.run] raises, in which case it is taken to have written
    nothing. *)
Variable codec_installed : string -> bool.
Variable py_repr : pyval -> string.
Variable run_dot : string -> result string.

(** [f"{v}"] *)
Definition py_str (v : pyval) : string :=
  match v with
  | PStr s => s
  | _ => py_repr v
  end.

Definition attribute_row (name : string) (type_ : pyval) : string :=
  ("<tr><td align=" ++ dq ++ "left" ++ dq ++ ">- " ++ name ++ ": "
   ++ py_str type_ ++ "</td></tr>")%string.

Definition method_row (m : pyval) : result string :=
  let? m_name := py_getitem m "name" in
  let? m_return_type := py_getitem m "return_type" in
  Ok ("<tr><td align=" ++ dq ++ "left" ++ dq ++ ">+ " ++ py_str m_name
      ++ "(): " ++ py_str m_return_type ++ "</td></tr>")%string.

(** The body of the first loop of [generate_dot]: the node block of one
    class. *)
Definition class_node (self : t) (cls : string) (info : pyval)
  : result string :=
  let? info_attributes := py_getitem info "attributes" in
  let? attribute_items := py_items info_attributes in
  let attrs :=
    join nl (map (fun nt => attribute_row (fst nt) (snd nt)) attribute_items) in
  let? info_methods := py_getitem info "methods" in
  let? method_list := py_iter info_methods in
  let? method_rows := mapR method_row method_list in
  let methods := join nl method_rows in
  format (class_template self)
         [("class_name", cls); ("attributes", attrs); ("methods", methods)].

(** The body of the second loop: the edges that end at one class. *)
Definition class_edges (cls : string) (info : pyval) : result (list string) :=
  let? parents := py_getitem info "parent_classes" in
  let? parent_list := py_iter parents in
  Ok (map (fun parent =>
             (py_str parent ++ " -> " ++ cls ++ " [arrowhead=onormal];")%string)
          parent_list).

Definition generate_dot (self : t) : result string :=
  let dot := ["digraph G {"] in
  let? classes_info := get_classes_info self in
  let? items := py_items classes_info in
  let? nodes := mapR (fun ci => class_node self (fst ci) (snd ci)) items in
  let dot := dot ++ nodes in
  let? edges := mapR (fun ci => class_edges (fst ci) (snd ci)) items in
  let dot := dot ++ concat edges in
  let dot := dot ++ ["}"] in
  Ok (join nl dot).

(** [temp.dot] is written before the renderer runs; the renderer writes
    [output_file] when it succeeds.  The printed message is not modelled. *)
Definition render_dot (self : t) (dot_code output_file : string)
  : M filesystem unit :=
  write_file codec_installed "temp.dot" (VALID_ENCODING self)
    (PlainText (VALID_ENCODING self) dot_code) ;;
  image <- lift (run_dot dot_code) ;;
  renderer_writes output_file (Image image).

Definition create_uml (self : t) : M filesystem unit :=
  classes_info <- lift (get_classes_info self) ;;
  if negb (truthy classes_info) then
    raise (ValueError "classes_info is empty.")
  else
    dot_code <- lift (generate_dot self) ;;
    render_dot self dot_code (uml_path self).

End WithEnvironment.

(** [save_to_json] as [UMLCreator] inherits it from [JSONSaver]: the call
    [self._validate_classes_info()] runs the override above, whose value is
    [None]; [self.json_path] is read only after the test, and
    [UMLCreator.__init__] never assigns it. *)
Definition save_to_json (self : t) : M filesystem unit :=
  valid <- lift (let? _ := _validate_classes_info self in Ok PNone) ;;
  if negb (truthy valid) then raise (ValueError "classes_info is not valid.")
  else
    raise (AttributeError "'UMLCreator' object has no attribute 'json_path'").

End UMLCreator.

(* ================================================================== *)
(** ** [main.py] *)
(* ================================================================== *)

Module Main.

Section WithEnvironment.

Variable codec_installed : string -> bool.
Variable json_load_other : string -> content -> result pyval.
Variable unparse : expr -> string.
Variable abspath : string -> string.
Variable relpath : string -> string -> string.
Variable parse_file : string -> result module_node.
Variable os_walk : string -> list (string * list string * list string).
Variable path_join : string -> string -> string.
Variable open_error : string -> option exn.
Variable decodes : string -> string -> bool.
Variable py_repr : pyval -> string.
Variable run_dot : string -> result string.

(** The constructor of [UMLCreator] as a step that reads the files. *)
Definition new_creator (classes_info : pyval) (json_path : option string)
  (encoding uml_path : string) : M filesystem UMLCreator.t :=
  fun fs =>
    (UMLCreator.__init__ codec_installed json_load_other classes_info
       json_path encoding uml_path fs,
     fs).

(** [main()]: parse the project, save the registry as JSON, draw one
    diagram from the JSON file and one from the registry in memory.  The
    source files are read before anything is written; what
    [print_classes_info] prints is not modelled. *)
Definition main : M filesystem unit :=
  let cparser := CodeReadParser.__init__ abspath "E:\BaiduSyncdisk\Py2UML" in
  match CodeReadParser.__call__ codec_installed os_walk path_join open_error
          decodes unparse relpath parse_file cparser with
  | (Raise e, _) => raise e
  | (Ok _, cparser) =>
      let classes_info := of_registry (CodeReadParser.classes_info cparser) in
      let encoding := CodeReadParser.VALID_ENCODING cparser in
      JSONSaver.save_to_json codec_installed
        (JSONSaver.__init__ classes_info "classes_info.json" encoding) ;;
      creator1 <- new_creator PNone (Some "classes_info.json") encoding
                              "UML_Diagram1.png" ;;
      UMLCreator.create_uml codec_installed py_repr run_dot creator1 ;;
      creator2 <- new_creator classes_info None encoding "UML_Diagram2.png" ;;
      UMLCreator.create_uml codec_installed py_repr run_dot creator2
  end.

End WithEnvironment.

End Main.

(* ================================================================== *)
(** ** Reference definitions: what the specification describes *)
(* ================================================================== *)

Module Reference.

Import CodeReadParser.

(** [isinstance(node, ast.FunctionDef)] *)
Definition is_FunctionDef (node : stmt) : bool :=
  match node with FunctionDef _ _ _ _ _ => true | _ => false end.

(** A function definition of the body that is not the initializer. *)
Definition is_plain_method (node : stmt) : bool :=
  is_FunctionDef node && negb (String.eqb (node_name node) "__init__").

(** [self.attr] as the target of an assignment. *)
Definition receiver_attribute (target : expr) : option string :=
  match target with
  | Attribute (Name id) attr => if String.eqb id "self" then Some attr else None
  | _ => None
  end.

(** The statement is no annotated assignment to the attribute
    [attr_name] of the receiver ([self.attr_name: T = ...]). *)
Definition unannotated (attr_name : string) (statement : stmt) : bool :=
  match statement with
  | AnnAssign target _ _ =>
      match receiver_attribute target with
      | Some attr => negb (String.eqb attr attr_name)
      | None => true
      end
  | _ => true
  end.

(** No statement of an initializer in the body is an annotated assignment
    to the attribute [attr_name] of the receiver. *)
Definition initializer_unannotated (body : list stmt) (attr_name : string)
  : bool :=
  forallb
    (fun body_item =>
       match body_item with
       | FunctionDef name _ statements _ _ =>
           negb (String.eqb name "__init__")
           || forallb (unannotated attr_name) statements
       | _ => true
       end)
    body.

(** The label of the last pair that names [attr_name]. *)
Fixpoint last_label (attr_name : string) (pairs : list (string * string))
  : option string :=
  match pairs with
  | [] => None
  | (k, v) :: rest =>
      match last_label attr_name rest with
      | Some label => Some label
      | None => if String.eqb k attr_name then Some v else None
      end
  end.

(** Whether a pair names [attr_name]. *)
Definition names (attr_name : string) (pairs : list (string * string))
  : bool :=
  existsb (fun kv => String.eqb (fst kv) attr_name) pairs.

Section WithEnvironment.

Variable unparse : expr -> string.

(** The three attribute sources of the specification, as the (name, label)
    pairs a body item contributes to each.

    1. Class-body simple assignment [name = value]: the label is the kind
       of a literal value and ["Any"] for any other value. *)
Definition plain_pairs (body_item : stmt) : list (string * string) :=
  match body_item with
  | Assign targets value =>
      flat_map
        (fun target =>
           match target with
           | Name id =>
               [(id, match value with
                     | Constant c => Ast.type_name c
                     | _ => "Any"
                     end)]
           | _ => []
           end)
        targets
  | _ => []
  end.

(** 2. Class-body annotated assignment [name: T] or [name: T = value]: the
       label is the rendering of the annotation. *)
Definition annotated_pairs (body_item : stmt) : list (string * string) :=
  match body_item with
  | AnnAssign (Name id) ann _ => [(id, unparse ann)]
  | _ => []
  end.

(** 3. Initializer-scanned assignment: every statement of the initializer
       that assigns to an attribute of the receiver contributes the
       attribute, with the label ["Any"], or with the rendering of the
       annotation when the statement carries one. *)
Definition initializer_statement_pairs (statement : stmt)
  : list (string * string) :=
  match statement with
  | Assign targets _ =>
      flat_map
        (fun target =>
           match receiver_attribute target with
           | Some attr => [(attr, "Any")]
           | None => []
           end)
        targets
  | AnnAssign target ann _ =>
      match receiver_attribute target with
      | Some attr => [(attr, unparse ann)]
      | None => []
      end
  | _ => []
  end.

Definition initializer_pairs (body_item : stmt) : list (string * string) :=
  match body_item with
  | FunctionDef name _ statements _ _ =>
      if String.eqb name "__init__" then
        flat_map initializer_statement_pairs statements
      else []
  | _ => []
  end.

Definition plain_source (body : list stmt) : list (string * string) :=
  flat_map plain_pairs body.

Definition annotated_source (body : list stmt) : list (string * string) :=
  flat_map annotated_pairs body.

Definition initializer_source (body : list stmt) : list (string * string) :=
  flat_map initializer_pairs body.

(** The three-source merge as the specification words it: three passes
    writing into the one mapping, the plain assignments first, the
    annotated assignments second, the initializer-scanned assignments
    last, each write replacing what the mapping holds under the name.  The
    label of a name is the one written last. *)
Definition layered_label (body : list stmt) (attr_name : string)
  : option string :=
  last_label attr_name
    (plain_source body ++ annotated_source body ++ initializer_source body).

(** The source (0 plain, 1 annotated, 2 initializer) through which a body
    item assigns [attr_name], if it does. *)
Definition pairs_of (source : nat) (body_item : stmt)
  : list (string * string) :=
  match source with
  | 0 => plain_pairs body_item
  | 1 => annotated_pairs body_item
  | 2 => initializer_pairs body_item
  | _ => []
  end.

Definition source_of (body_item : stmt) (attr_name : string) : option nat :=
  if names attr_name (plain_pairs body_item) then Some 0
  else if names attr_name (annotated_pairs body_item) then Some 1
  else if names attr_name (initializer_pairs body_item) then Some 2
  else None.

(** The sources of the body items that assign [attr_name], in body order. *)
Definition assigning_sources (body : list stmt) (attr_name : string)
  : list nat :=
  flat_map
    (fun body_item =>
       match source_of body_item attr_name with
       | Some source => [source]
       | None => []
       end)
    body.

(** The body item that assigns [attr_name] last does so through the
    highest source that assigns the name at all. *)
Definition top_source_last (body : list stmt) (attr_name : string) : bool :=
  let sources := assigning_sources body attr_name in
  forallb (fun source => (source <=? last sources 0)%nat) sources.

(** ["name: type-label"] of one parameter. *)
Definition parameter_entry (a : arg_node) : string :=
  (arg a ++ ": " ++
   match annotation a with
   | Some ann => unparse ann
   | None => "Any"
   end)%string.

(** The positional parameters of a function, in order. *)
Definition positional_parameters (a : arguments) : list arg_node :=
  posonlyargs a ++ Ast.args a.

(** The parameter list with the first positional parameter left out. *)
Definition parameters_after_receiver (a : arguments) : list string :=
  map parameter_entry (tl (positional_parameters a)).

End WithEnvironment.

(** The entry of a class extracted on its own into an empty registry. *)
Definition extracted_alone (unparse : expr -> string) (node : stmt)
  : option class_info :=
  dict_get (node_name node)
    (classes_info
       (snd (register_node unparse (fun path _ => path) "" node
               (CodeReadParser.mk "" [] "" [])))).

(** The attribute names the initializer assigns through a plain assignment
    [self.name = ...], in statement order. *)
Definition init_assigned_names (init_node : stmt) : list string :=
  flat_map
    (fun stmt =>
       match stmt with
       | Assign targets _ =>
           flat_map
             (fun target =>
                match target with
                | Attribute (Name id) attr =>
                    if String.eqb id "self" then [attr] else []
                | _ => []
                end)
             targets
       | _ => []
       end)
    (node_body init_node).

(** A class entry with a defect of shape: it is no dictionary, or lacks a
    required key, or its ["attributes"] value is no dictionary, or its
    ["methods"] value cannot be iterated or holds an element that is no
    dictionary. *)
Definition shape_defect (info : pyval) : bool :=
  match info with
  | PDict entries =>
      negb (JSONSaver.issubset JSONSaver.required_keys (dict_keys entries))
      || match dict_get "attributes" entries with
         | Some a => negb (is_dict a)
         | None => false
         end
      || match dict_get "methods" entries with
         | Some m =>
             match py_iter m with
             | Ok elements => negb (forallb is_dict elements)
             | Raise _ => true
             end
         | None => false
         end
  | _ => true
  end.

(** The attributes of a class in a parser, [[]] when it is not registered. *)
Definition attributes_of (class_name : string) (self : t) : dict string :=
  match dict_get class_name (classes_info self) with
  | Some info => attributes info
  | None => []
  end.

(** The names in the [methods] list of a class in a parser. *)
Definition method_names_of (class_name : string) (self : t) : list string :=
  match dict_get class_name (classes_info self) with
  | Some info => map name (methods info)
  | None => []
  end.

(** Number of entries of a registry under a key. *)
Definition entries_under {V} (k : string) (d : dict V) : nat :=
  length (filter (String.eqb k) (dict_keys d)).

(** The class definitions of a given name among the nodes of a walk. *)
Definition classes_named (class_name : string) (nodes : list stmt)
  : list stmt :=
  filter (fun node => is_ClassDef node && String.eqb (node_name node) class_name)
         nodes.

(** The rows and the node block of one class of a typed registry, and an
    inheritance edge, as the diagram description shows them. *)
Definition attribute_line (name type_label : string) : string :=
  ("<tr><td align=" ++ UMLCreator.dq ++ "left" ++ UMLCreator.dq ++ ">- "
   ++ name ++ ": " ++ type_label ++ "</td></tr>")%string.

Definition method_line (m : method_info) : string :=
  ("<tr><td align=" ++ UMLCreator.dq ++ "left" ++ UMLCreator.dq ++ ">+ "
   ++ name m ++ "(): " ++ return_type m ++ "</td></tr>")%string.

(** The node block of a class: the heading with the class name, then the
    attribute rows, then the method rows, inside the table of the label. *)
Definition block_text (cls attrs methods : string) : string :=
  let nl := UMLCreator.nl in
  let dq := UMLCreator.dq in
  (nl ++
   "        " ++ cls ++ " [" ++ nl ++
   "            shape=plaintext" ++ nl ++
   "            label=<" ++ nl ++
   "                <table border=" ++ dq ++ "0" ++ dq ++
     " cellborder=" ++ dq ++ "1" ++ dq ++
     " cellspacing=" ++ dq ++ "0" ++ dq ++ ">" ++ nl ++
   "                    <tr><td><b>" ++ cls ++ "</b></td></tr>" ++ nl ++
   "                    " ++ attrs ++ nl ++
   "                    " ++ methods ++ nl ++
   "                </table>" ++ nl ++
   "            >" ++ nl ++
   "        ];" ++ nl ++
   "        ")%string.

Definition node_block (cls : string) (info : class_info) : string :=
  block_text cls
    (join UMLCreator.nl
          (map (fun kv => attribute_line (fst kv) (snd kv)) (attributes info)))
    (join UMLCreator.nl (map method_line (methods info))).

Definition edge_statement (parent child : string) : string :=
  (parent ++ " -> " ++ child ++ " [arrowhead=onormal];")%string.

Definition edges_into (cls : string) (info : class_info) : list string :=
  map (fun parent => edge_statement parent cls) (parent_classes info).

(** The description of a typed registry: the opening line, one node block
    per class, one edge per class and parent, the closing brace. *)
Definition description_parts (registry : dict class_info) : list string :=
  ["digraph G {"]
  ++ map (fun ci => node_block (fst ci) (snd ci)) registry
  ++ flat_map (fun ci => edges_into (fst ci) (snd ci)) registry
  ++ ["}"].

(** [inner] is the node itself or stands anywhere below it. *)
Inductive within : stmt -> stmt -> Prop :=
| within_self (node : stmt) : within node node
| within_child (node child inner : stmt) :
    In child (iter_child_nodes node) -> within child inner ->
    within node inner.

(** The base-class expressions that are simple names, in order. *)
Fixpoint simple_names (bases : list expr) : list string :=
  match bases with
  | [] => []
  | Name id :: rest => id :: simple_names rest
  | _ :: rest => simple_names rest
  end.

(** The (name, label) pairs a body item assigns in the attributes of its
    class, in the order it assigns them. *)
Definition attribute_writes (unparse : expr -> string) (body_item : stmt)
  : list (string * string) :=
  match body_item with
  | Assign targets value =>
      flat_map
        (fun target =>
           match target with
           | Name id =>
               [(id, match value with
                     | Constant c => Ast.type_name c
                     | _ => "Any"
                     end)]
           | _ => []
           end)
        targets
  | AnnAssign (Name id) ann _ => [(id, unparse ann)]
  | FunctionDef name _ _ _ _ =>
      if String.eqb name "__init__" then
        map (fun attr => (attr, "Any")) (init_assigned_names body_item)
      else []
  | _ => []
  end.

(** The assignments of a list of pairs to a dictionary, in order. *)
Definition assign_all (writes : list (string * string)) (d : dict string)
  : dict string :=
  fold_left (fun d kv => dict_set (fst kv) (snd kv) d) writes d.

(** A class entry that is no dictionary or lacks one of the three required
    keys. *)
Definition lacks_required_keys (info : pyval) : bool :=
  match info with
  | PDict entries =>
      negb (JSONSaver.issubset UMLCreator.required_keys (dict_keys entries))
  | _ => true
  end.

End Reference.

(* ================================================================== *)
(** ** The effect of the extractor on one class entry *)
(* ================================================================== *)

(** The extraction of a class only ever touches the entry of that class.
    This module writes the change of the entry down as functions on
    [class_info]; the properties below show that the stateful definitions
    of [CodeReadParser] compute them. *)
Module Entry.

Import CodeReadParser.

Definition set_attr (attr_name attr_type : string) (info : class_info)
  : class_info :=
  {| attributes := dict_set attr_name attr_type (attributes info);
     methods := methods info;
     parent_classes := parent_classes info |}.

Definition add_method (m : method_info) (info : class_info) : class_info :=
  {| attributes := attributes info;
     methods := methods info ++ [m];
     parent_classes := parent_classes info |}.

(** The parser with the entry of a class replaced. *)
Definition with_entry (self : t) (class_name : string) (info : class_info)
  : t :=
  {| project_path := project_path self;
     classes_path := classes_path self;
     VALID_ENCODING := VALID_ENCODING self;
     classes_info := dict_set class_name info (classes_info self) |}.

(** A statement sequence changes the entry of [class_name] by [f] and
    nothing else, and does not raise, whenever the class is registered. *)
Definition acts_on_entry (class_name : string) (m : M t unit)
  (f : class_info -> class_info) : Prop :=
  forall self info,
    dict_get class_name (classes_info self) = Some info ->
    m self = (Ok tt, with_entry self class_name (f info)).

Section WithEnvironment.

Variable unparse : expr -> string.

Definition method_info_of (method_node : stmt) : method_info :=
  {| name := node_name method_node;
     args := _extract_arguments unparse (node_args method_node);
     decorators :=
       flat_map (fun d => match d with Name id => [id] | _ => [] end)
                (node_decorator_list method_node);
     return_type := _extract_return_type unparse method_node |}.

Definition init_target_effect (stmt : stmt) (target : expr)
  (info : class_info) : class_info :=
  match target with
  | Attribute (Name id) attr =>
      if String.eqb id "self" then
        set_attr attr
          match node_annotation stmt with
          | Some ann => unparse ann
          | None => "Any"
          end
          info
      else info
  | _ => info
  end.

Definition init_stmt_effect (stmt : stmt) (info : class_info) : class_info :=
  match stmt with
  | Assign targets _ =>
      fold_left (fun i target => init_target_effect stmt target i) targets info
  | _ => info
  end.

Definition init_effect (init_node : stmt) (info : class_info) : class_info :=
  fold_left (fun i stmt => init_stmt_effect stmt i) (node_body init_node) info.

Definition method_effect (method_node : stmt) (info : class_info)
  : class_info :=
  if String.eqb (node_name method_node) "__init__" then
    init_effect method_node info
  else add_method (method_info_of method_node) info.

Definition class_attribute_target_effect (value : expr) (target : expr)
  (info : class_info) : class_info :=
  match target with
  | Name id =>
      set_attr id
        match value with
        | Constant c => Ast.type_name c
        | _ => "Any"
        end
        info
  | _ => info
  end.

Definition class_attribute_effect (assign_node : stmt) (info : class_info)
  : class_info :=
  match assign_node with
  | Assign targets value =>
      fold_left (fun i target => class_attribute_target_effect value target i)
                targets info
  | _ => info
  end.

Definition annotated_effect (ann_assign_node : stmt) (info : class_info)
  : class_info :=
  match ann_assign_node with
  | AnnAssign (Name id) ann _ => set_attr id (unparse ann) info
  | _ => info
  end.

Definition item_effect (body_item : stmt) (info : class_info) : class_info :=
  match body_item with
  | FunctionDef _ _ _ _ _ => method_effect body_item info
  | Assign _ _ => class_attribute_effect body_item info
  | AnnAssign _ _ _ => annotated_effect body_item info
  | _ => info
  end.

Definition body_effect (body : list stmt) (info : class_info) : class_info :=
  fold_left (fun i item => item_effect item i) body info.

(** The entry a class definition ends up with. *)
Definition class_model (node : stmt) : class_info :=
  body_effect (node_body node)
    {| attributes := [];
       methods := [];
       parent_classes :=
         flat_map (fun base => match base with Name id => [id] | _ => [] end)
                  (node_bases node) |}.

(** What one node of a walk does to the registry. *)
Definition registered (registry : dict class_info) (node : stmt)
  : dict class_info :=
  if is_ClassDef node then
    dict_set (node_name node) (class_model node) registry
  else registry.

(** What one node of a walk does to the parser, and what a file does. *)
Variable relpath : string -> string -> string.
Variable parse_file : string -> result module_node.

Definition register_effect (file_path : string) (self : t) (node : stmt) : t :=
  if is_ClassDef node then
    {| project_path := project_path self;
       classes_path :=
         dict_set (node_name node) (relpath file_path (project_path self))
                  (classes_path self);
       VALID_ENCODING := VALID_ENCODING self;
       classes_info :=
         dict_set (node_name node) (class_model node) (classes_info self) |}
  else self.

(** The nodes a file contributes: none when it does not parse. *)
Definition nodes_of_file (file_path : string) : list stmt :=
  match parse_file file_path with
  | Ok tree => walk tree
  | Raise _ => []
  end.

Definition file_effect (self : t) (file_path : string) : t :=
  fold_left (register_effect file_path) (nodes_of_file file_path) self.

End WithEnvironment.

End Entry.

(* ================================================================== *)
(** ** Concrete inputs *)
(* ================================================================== *)

Module Examples.

Import CodeReadParser.

(** An environment for running the definitions on concrete inputs.  The
    rendering covers names, dotted names and subscripts, which is all the
    inputs below use. *)
Fixpoint render (e : expr) : string :=
  match e with
  | Name id => id
  | Attribute value attr => (render value ++ "." ++ attr)%string
  | Subscript value slice => (render value ++ "[" ++ render slice ++ "]")%string
  | _ => "..."
  end.

Definition same_path (path : string) : string := path.

Definition path_from (path start : string) : string := path.

Definition repr_of (v : pyval) : string :=
  match v with
  | PNone => "None"
  | PBool true => "True"
  | PBool false => "False"
  | _ => "..."
  end.

Definition dot_ok (dot_code : string) : result string :=
  Ok ("PNG of " ++ dot_code)%string.

Definition self_arg : arg_node := mk_arg "self" None.

Definition only_self : arguments := mk_arguments [self_arg] [] None [] None.

(** [class A:] with [x: int] followed by [x = 'a']. *)
Definition annotated_then_plain : stmt :=
  ClassDef "A" []
    [AnnAssign (Name "x") (Name "int") None;
     Assign [Name "x"] (Constant (CStr "a"))]
    [].

(** [class A:] with [x = 'a'], [x: int], and an initializer doing
    [self.x = 0]. *)
Definition in_layer_order : stmt :=
  ClassDef "A" []
    [Assign [Name "x"] (Constant (CStr "a"));
     AnnAssign (Name "x") (Name "int") None;
     FunctionDef "__init__" only_self
       [Assign [Attribute (Name "self") "x"] (Constant (CInt 0))] [] None]
    [].

(** A parser in which class [A] is registered and empty. *)
Definition parser_with_A : t :=
  {| project_path := "/p";
     classes_path := [("A", "a.py")];
     VALID_ENCODING := "utf-8";
     classes_info := [("A", mk_class_info [] [] [])] |}.

(** [class A:] whose initializer does [self.x: int = 0] and [self.y = 1]. *)
Definition annotated_in_init : stmt :=
  ClassDef "A" []
    [FunctionDef "__init__" only_self
       [AnnAssign (Attribute (Name "self") "x") (Name "int")
                  (Some (Constant (CInt 0)));
        Assign [Attribute (Name "self") "y"] (Constant (CInt 1))]
       [] None]
    [].

(** The parameters of [def create(cls, x: int)]. *)
Definition classmethod_arguments : arguments :=
  mk_arguments [] [mk_arg "cls" None; mk_arg "x" (Some (Name "int"))]
               None [] None.

(** The parameters of [def speak(self, times: int, loud)]. *)
Definition method_arguments : arguments :=
  mk_arguments [] [self_arg; mk_arg "times" (Some (Name "int"));
                   mk_arg "loud" None]
               None [] None.

(** [class A:] with two definitions of [f]. *)
Definition two_definitions_of_f : stmt :=
  ClassDef "A" []
    [FunctionDef "f" only_self [] [] None;
     FunctionDef "f" only_self [] [] (Some (Name "str"))]
    [].

(** Two units that both define [Shape]; the second one gives it a base and
    an attribute. *)
Definition shape_v1 : stmt :=
  ClassDef "Shape" [] [Assign [Name "sides"] (Constant (CInt 0))] [].

Definition shape_v2 : stmt :=
  ClassDef "Shape" [Name "Base"]
    [AnnAssign (Name "area") (Name "float") None;
     FunctionDef "draw" only_self [] [] None]
    [].

Definition units : dict module_node :=
  [("a.py", Module [shape_v1; ClassDef "Other" [] [] []]);
   ("b.py", Module [OtherStmt "If" [shape_v2]])].

Definition parse_units (path : string) : result module_node :=
  match dict_get path units with
  | Some tree => Ok tree
  | None => Raise (SyntaxError "invalid syntax")
  end.

(** A registry with a class and its subclass. *)
Definition animals : dict class_info :=
  [("Animal",
    mk_class_info [("name", "str")]
                  [mk_method_info "speak" [] [] "str"] []);
   ("Dog", mk_class_info [("breed", "Any")] [] ["Animal"])].

(** A registry in which ["methods"] is a dictionary, not a list. *)
Definition methods_not_a_list : pyval :=
  PDict [("A", PDict [("attributes", PDict []);
                      ("methods", PDict []);
                      ("parent_classes", PList [])])].

Definition empty_creator : UMLCreator.t :=
  UMLCreator.mk "utf-8" "UML_test.png" UMLCreator.template (Some (PDict [])).

(** A project directory with a package below it, as [os.walk] lists it;
    paths joined with a slash; every file readable, UTF-8 text. *)
Definition walk_project (top : string)
  : list (string * list string * list string) :=
  [("/p", ["pkg"], ["a.py"; "README.md"]);
   ("/p/pkg", [], ["b.py"; "notes.txt"])].

Definition walk_no_python (top : string)
  : list (string * list string * list string) :=
  [("/p", [], ["README.md"])].

Definition join_slash (root file : string) : string :=
  (root ++ "/" ++ file)%string.

Definition all_readable (file_path : string) : option exn := None.

Definition utf8_only (file_path enc : string) : bool :=
  String.eqb enc "utf-8".

Definition parse_project (path : string) : result module_node :=
  if String.eqb path "/p/a.py" then
    Ok (Module [shape_v1; ClassDef "Other" [] [] []])
  else if String.eqb path "/p/pkg/b.py" then
    Ok (Module [OtherStmt "If" [shape_v2]])
  else Raise (SyntaxError "invalid syntax").

(** The second file of the project cannot be opened. *)
Definition second_unopenable (file_path : string) : option exn :=
  if String.eqb file_path "/p/pkg/b.py" then
    Some (FileNotFoundError "No such file or directory")
  else None.

(** An installation with the standard codecs and no other, in which bytes
    that were not written as text under the encoding they are read with
    do not decode. *)
Definition standard_codecs (encoding : string) : bool := false.

Definition undecodable (encoding : string) (c : content) : result pyval :=
  Raise (UnicodeDecodeError "invalid start byte").

(** A renderer that fails. *)
Definition dot_fails (dot_code : string) : result string :=
  Raise (CalledProcessError "dot returned non-zero exit status 1").

(** A registry whose one class has no ["parent_classes"] key. *)
Definition missing_parents : list (string * pyval) :=
  [("A", PDict [("attributes", PDict []); ("methods", PList [])])].

End Examples.

(* ================================================================== *)
(** * Properties *)
(* ================================================================== *)

(** ** Dictionaries *)

Section DictFacts.

Context {V : Type}.
Implicit Types (d : dict V) (k : string) (v : V).

Lemma dict_get_set_same k v d : dict_get k (dict_set k v d) = Some v.
Proof.
  induction d as [|[k' v'] d IH]; simpl.
  - now rewrite String.eqb_refl.
  - destruct (String.eqb k' k) eqn:E; simpl.
    + now rewrite String.eqb_refl.
    + now rewrite E.
Qed.

Lemma dict_get_set_other k k' v d :
  k <> k' -> dict_get k' (dict_set k v d) = dict_get k' d.
Proof.
  intros Hne.
  induction d as [|[k0 v0] d IH]; simpl.
  - destruct (String.eqb k k') eqn:E; [|reflexivity].
    apply String.eqb_eq in E. contradiction.
  - destruct (String.eqb k0 k) eqn:E; simpl.
    + apply String.eqb_eq in E. subst k0.
      destruct (String.eqb k k') eqn:E'; [|reflexivity].
      apply String.eqb_eq in E'. contradiction.
    + now rewrite IH.
Qed.

Lemma dict_set_twice k v1 v2 d :
  dict_set k v2 (dict_set k v1 d) = dict_set k v2 d.
Proof.
  induction d as [|[k' v'] d IH]; simpl.
  - now rewrite String.eqb_refl.
  - destruct (String.eqb k' k) eqn:E; simpl.
    + now rewrite String.eqb_refl.
    + now rewrite E, IH.
Qed.

Lemma dict_set_present k v d :
  dict_get k d = Some v -> dict_set k v d = d.
Proof.
  induction d as [|[k' v'] d IH]; simpl; [discriminate|].
  destruct (String.eqb k' k) eqn:E.
  - apply String.eqb_eq in E. intros [= ->]. now subst.
  - intros H. now rewrite IH.
Qed.

Lemma dict_keys_set k v d :
  dict_keys (dict_set k v d) =
  if dict_contains k d then dict_keys d else dict_keys d ++ [k].
Proof.
  unfold dict_contains, dict_keys.
  induction d as [|[k' v'] d IH]; simpl; [reflexivity|].
  destruct (String.eqb k' k) eqn:E; simpl.
  - apply String.eqb_eq in E. now subst.
  - rewrite IH. now destruct (dict_get k d).
Qed.

Lemma dict_get_None_keys k d : dict_get k d = None -> ~ In k (dict_keys d).
Proof.
  unfold dict_keys.
  induction d as [|[k' v'] d IH]; simpl; [tauto|].
  destruct (String.eqb k' k) eqn:E; [discriminate|].
  apply String.eqb_neq in E. intros H [H'|H']; [contradiction|].
  now apply IH.
Qed.

Lemma dict_get_Some_keys k v d : dict_get k d = Some v -> In k (dict_keys d).
Proof.
  unfold dict_keys.
  induction d as [|[k' v'] d IH]; simpl; [discriminate|].
  destruct (String.eqb k' k) eqn:E.
  - apply String.eqb_eq in E. now left.
  - intros H. right. now apply IH.
Qed.

(** Assignment keeps the keys of a dictionary distinct. *)
Lemma dict_set_NoDup k v d :
  NoDup (dict_keys d) -> NoDup (dict_keys (dict_set k v d)).
Proof.
  intros Hnd. rewrite dict_keys_set. unfold dict_contains.
  destruct (dict_get k d) eqn:E; [assumption|].
  apply NoDup_app; [assumption|repeat constructor; simpl; tauto|].
  intros x Hx [<-|[]]. revert Hx. now apply dict_get_None_keys.
Qed.

Lemma entries_under_NoDup k d :
  NoDup (dict_keys d) -> In k (dict_keys d) ->
  Reference.entries_under k d = 1.
Proof.
  unfold Reference.entries_under.
  generalize (dict_keys d) as ks. clear d.
  induction ks as [|k' ks IH]; simpl; [tauto|].
  intros Hnd Hin. inversion Hnd as [|? ? Hnotin Hnd']; subst.
  destruct (String.eqb k k') eqn:E.
  - apply String.eqb_eq in E. subst k'. simpl. f_equal.
    clear IH Hnd Hnd' Hin.
    induction ks as [|k0 ks IH]; simpl; [reflexivity|].
    destruct (String.eqb k k0) eqn:E0.
    + apply String.eqb_eq in E0. subst. exfalso. apply Hnotin. now left.
    + apply IH. intros H. apply Hnotin. now right.
  - apply String.eqb_neq in E. destruct Hin as [->|Hin]; [contradiction|].
    now apply IH.
Qed.

End DictFacts.

(** ** Method parameters (C5) *)

Section Parameters.

Import CodeReadParser Reference.

Variable unparse : expr -> string.

Lemma extract_arguments_from (params : list arg_node) (acc : list string) :
  fold_left
    (fun args a =>
       if negb (String.eqb (arg a) "self") then
         args ++ [(arg a ++ ": " ++
                   match annotation a with
                   | Some ann => unparse ann
                   | None => "Any"
                   end)%string]
       else args)
    params acc
  = acc ++ map (parameter_entry unparse)
             (filter (fun a => negb (String.eqb (arg a) "self")) params).
Proof.
  revert acc. induction params as [|a params IH]; intros acc; simpl.
  - now rewrite app_nil_r.
  - rewrite IH. destruct (String.eqb (arg a) "self"); simpl.
    + reflexivity.
    + now rewrite <- app_assoc.
Qed.

(** C5, as amended.  The extracted parameter list has one entry
    ["name: type-label"] for every parameter of the regular positional
    list ([arguments.args]) whose name is not [self], in order; the label
    is the rendering of the annotation, or ["Any"] without one.  Parameters
    are left out by name, not by position, and positional-only parameters
    are not listed. *)
Theorem extract_arguments_drops_self (a : arguments) :
  _extract_arguments unparse a =
  map (parameter_entry unparse)
      (filter (fun p => negb (String.eqb (arg p) "self")) (Ast.args a)).
Proof.
  unfold _extract_arguments. now rewrite extract_arguments_from.
Qed.

(** Where the receiver is called [self], comes first, and is the only
    parameter of that name, the list is the one C5 describes. *)
Lemma extract_arguments_receiver_first (a : arguments) (receiver : arg_node)
  (others : list arg_node) :
  posonlyargs a = [] ->
  Ast.args a = receiver :: others ->
  arg receiver = "self" ->
  (forall p, In p others -> arg p <> "self") ->
  _extract_arguments unparse a = parameters_after_receiver unparse a.
Proof.
  intros Hpos Hargs Hself Hothers.
  unfold _extract_arguments. rewrite extract_arguments_from.
  unfold parameters_after_receiver, positional_parameters.
  rewrite Hpos, Hargs. simpl. rewrite Hself. simpl. f_equal.
  clear Hargs. induction others as [|p others IH]; simpl; [reflexivity|].
  destruct (String.eqb (arg p) "self") eqn:E.
  - apply String.eqb_eq in E. exfalso. apply (Hothers p); [now left|assumption].
  - simpl. f_equal. apply IH. intros q Hq. apply Hothers. now right.
Qed.

End Parameters.

(** C5 as stated fails: for [def create(cls, x: int)] the first positional
    parameter stays in the list. *)
Lemma extract_arguments_keeps_first_parameter :
  CodeReadParser._extract_arguments Examples.render
    Examples.classmethod_arguments
  = ["cls: Any"; "x: int"]
  /\ Reference.parameters_after_receiver Examples.render
       Examples.classmethod_arguments
     = ["x: int"]
  /\ CodeReadParser._extract_arguments Examples.render
       Examples.classmethod_arguments
     <> Reference.parameters_after_receiver Examples.render
          Examples.classmethod_arguments.
Proof.
  repeat split; try reflexivity. vm_compute. discriminate.
Qed.

(** ** The extractor changes one entry (used by C2, C4, C6) *)

Section EntryFacts.

Import CodeReadParser Reference Entry.

Variable unparse : expr -> string.

Lemma with_entry_same (self : t) (class_name : string) (info : class_info) :
  dict_get class_name (classes_info self) = Some info ->
  with_entry self class_name info = self.
Proof.
  intros H. unfold with_entry. rewrite (dict_set_present _ _ _ H).
  now destruct self.
Qed.

Lemma with_entry_twice (self : t) (class_name : string) (i j : class_info) :
  with_entry (with_entry self class_name i) class_name j =
  with_entry self class_name j.
Proof.
  unfold with_entry. simpl. now rewrite dict_set_twice.
Qed.

Lemma get_with_entry (self : t) (class_name : string) (info : class_info) :
  dict_get class_name (classes_info (with_entry self class_name info))
  = Some info.
Proof. apply dict_get_set_same. Qed.

Lemma acts_ret (class_name : string) :
  acts_on_entry class_name (ret tt) (fun info => info).
Proof.
  intros self info H. unfold ret. now rewrite with_entry_same.
Qed.

Lemma acts_for_each {X} (class_name : string) (xs : list X)
  (body : X -> M t unit) (F : X -> class_info -> class_info) :
  (forall x, In x xs -> acts_on_entry class_name (body x) (F x)) ->
  acts_on_entry class_name (for_each xs body)
    (fun info => fold_left (fun i x => F x i) xs info).
Proof.
  induction xs as [|x xs IH]; intros Hbody self info H; simpl.
  - unfold ret. now rewrite with_entry_same.
  - unfold bind. rewrite (Hbody x (or_introl eq_refl) self info H).
    rewrite (IH (fun y Hy => Hbody y (or_intror Hy)) _ (F x info))
      by apply get_with_entry.
    now rewrite with_entry_twice.
Qed.

Lemma acts_set_attribute (class_name attr_name attr_type : string) :
  acts_on_entry class_name (set_attribute class_name attr_name attr_type)
    (set_attr attr_name attr_type).
Proof.
  intros self info H. unfold set_attribute, bind, get_class. now rewrite H.
Qed.

Lemma acts_append_method (class_name : string) (m : method_info) :
  acts_on_entry class_name (append_method class_name m) (add_method m).
Proof.
  intros self info H. unfold append_method, bind, get_class. now rewrite H.
Qed.

Lemma acts_process_init_method (class_name : string) (init_node : stmt) :
  acts_on_entry class_name
    (_process_init_method unparse class_name init_node)
    (init_effect unparse init_node).
Proof.
  unfold _process_init_method, init_effect.
  apply acts_for_each. intros stmt _.
  destruct stmt; try apply acts_ret.
  unfold init_stmt_effect. apply acts_for_each. intros target _.
  unfold init_target_effect.
  destruct target as [| receiver attr | | | |]; try apply acts_ret.
  destruct receiver; try apply acts_ret.
  destruct (String.eqb id "self"); [apply acts_set_attribute|apply acts_ret].
Qed.

Lemma acts_process_method (class_name : string) (method_node : stmt) :
  acts_on_entry class_name (_process_method unparse class_name method_node)
    (method_effect unparse method_node).
Proof.
  unfold _process_method, method_effect.
  destruct (String.eqb (node_name method_node) "__init__").
  - apply acts_process_init_method.
  - apply acts_append_method.
Qed.

Lemma acts_process_class_attribute (class_name : string)
  (assign_node : stmt) :
  acts_on_entry class_name (_process_class_attribute class_name assign_node)
    (class_attribute_effect assign_node).
Proof.
  unfold _process_class_attribute, class_attribute_effect.
  destruct assign_node; try apply acts_ret.
  apply acts_for_each. intros target _.
  unfold class_attribute_target_effect.
  destruct target; try apply acts_ret. apply acts_set_attribute.
Qed.

Lemma acts_process_annotated_attribute (class_name : string)
  (ann_assign_node : stmt) :
  acts_on_entry class_name
    (_process_annotated_attribute unparse class_name ann_assign_node)
    (annotated_effect unparse ann_assign_node).
Proof.
  unfold _process_annotated_attribute, annotated_effect.
  destruct ann_assign_node as [| | | target ann value |]; try apply acts_ret.
  destruct target; try apply acts_ret. apply acts_set_attribute.
Qed.

Lemma acts_extract_class_details (class_name : string) (class_node : stmt) :
  acts_on_entry class_name
    (_extract_class_details unparse class_name class_node)
    (body_effect unparse (node_body class_node)).
Proof.
  unfold _extract_class_details, body_effect.
  apply acts_for_each. intros item _. unfold item_effect.
  destruct item; try apply acts_ret.
  - apply acts_process_method.
  - apply acts_process_class_attribute.
  - apply acts_process_annotated_attribute.
Qed.

End EntryFacts.

(** ** Registration (used by C4 and C6) *)

Section Registration.

Import CodeReadParser Reference Entry.

Variable unparse : expr -> string.
Variable relpath : string -> string -> string.

Lemma register_node_run (file_path : string) (node : stmt) (self : t) :
  register_node unparse relpath file_path node self =
  (Ok tt, register_effect unparse relpath file_path self node).
Proof.
  unfold register_node, register_effect.
  destruct (is_ClassDef node); [|reflexivity].
  cbv [bind set_class _file_path_to_relative_path get ret set_class_path].
  cbn [project_path classes_path VALID_ENCODING classes_info].
  erewrite acts_extract_class_details
    by (cbn [classes_info]; apply dict_get_set_same).
  unfold with_entry, class_model.
  cbn [project_path classes_path VALID_ENCODING classes_info].
  now rewrite dict_set_twice.
Qed.

Lemma register_classes_run (file_path : string) (tree : module_node)
  (self : t) :
  _register_classes unparse relpath file_path tree self =
  (Ok tt, fold_left (register_effect unparse relpath file_path) (walk tree) self).
Proof.
  unfold _register_classes. generalize (walk tree) as nodes.
  intros nodes. revert self.
  induction nodes as [|node nodes IH]; intros self; simpl.
  - reflexivity.
  - unfold bind. rewrite register_node_run. apply IH.
Qed.

Lemma classes_info_register_effect (file_path : string) (nodes : list stmt)
  (self : t) :
  classes_info (fold_left (register_effect unparse relpath file_path) nodes self)
  = fold_left (registered unparse) nodes (classes_info self).
Proof.
  revert self. induction nodes as [|node nodes IH]; intros self; simpl.
  - reflexivity.
  - rewrite IH. f_equal. unfold register_effect, registered.
    now destruct (is_ClassDef node).
Qed.

End Registration.

Section MethodsFacts.

Import CodeReadParser Reference Entry.

Variable unparse : expr -> string.

Lemma methods_fold_left {X} (G : X -> class_info -> class_info) (xs : list X)
  (info : class_info) :
  (forall x i, methods (G x i) = methods i) ->
  methods (fold_left (fun i x => G x i) xs info) = methods info.
Proof.
  intros HG. revert info.
  induction xs as [|x xs IH]; intros info; simpl; [reflexivity|].
  now rewrite IH, HG.
Qed.

Lemma methods_init_effect (init_node : stmt) (info : class_info) :
  methods (init_effect unparse init_node info) = methods info.
Proof.
  unfold init_effect. apply methods_fold_left. intros stmt i.
  destruct stmt; try reflexivity. simpl.
  apply methods_fold_left. intros target j. unfold init_target_effect.
  destruct target as [| receiver attr | | | |]; try reflexivity.
  destruct receiver; try reflexivity.
  now destruct (String.eqb id "self").
Qed.

Lemma methods_class_attribute_effect (assign_node : stmt)
  (info : class_info) :
  methods (class_attribute_effect assign_node info) = methods info.
Proof.
  destruct assign_node; try reflexivity. simpl.
  apply methods_fold_left. intros target j. now destruct target.
Qed.

Lemma methods_annotated_effect (node : stmt) (info : class_info) :
  methods (annotated_effect unparse node info) = methods info.
Proof.
  destruct node as [| | | target ann value |]; try reflexivity.
  now destruct target.
Qed.

(** The methods of an entry grow by one signature per function definition
    of the body that is not the initializer, in body order. *)
Lemma methods_body_effect (body : list stmt) (info : class_info) :
  methods (body_effect unparse body info) =
  methods info ++ map (method_info_of unparse) (filter is_plain_method body).
Proof.
  unfold body_effect. revert info.
  induction body as [|item body IH]; intros info; simpl.
  - now rewrite app_nil_r.
  - rewrite IH. destruct item as [fname ? ? ? ?| | | |]; cbn [item_effect].
    + unfold method_effect, is_plain_method. simpl.
      destruct (String.eqb fname "__init__"); simpl.
      * now rewrite methods_init_effect.
      * now rewrite <- app_assoc.
    + reflexivity.
    + now rewrite methods_class_attribute_effect.
    + now rewrite methods_annotated_effect.
    + reflexivity.
Qed.

Variable relpath : string -> string -> string.

(** C6, as amended.  After a class definition is registered, the names in
    its [methods] list are the names of the function definitions of the
    class body other than [__init__], one per definition and in body
    order: [methods] is a list that is appended to, so two definitions of
    one name give two entries. *)
Theorem methods_one_per_definition (file_path class_name : string)
  (bases decorator_list : list expr) (body : list stmt) (self : t) :
  method_names_of class_name
    (snd (register_node unparse relpath file_path
            (ClassDef class_name bases body decorator_list) self))
  = map node_name (filter is_plain_method body).
Proof.
  rewrite register_node_run. unfold method_names_of, register_effect.
  cbn [snd is_ClassDef node_name classes_info].
  rewrite dict_get_set_same. unfold class_model.
  rewrite methods_body_effect. cbn [methods app node_body].
  rewrite map_map. reflexivity.
Qed.

End MethodsFacts.

(** C6 as stated fails: a class body with two definitions of [f] leaves two
    entries named [f] in [methods]. *)
Lemma methods_keep_both_definitions :
  ~ NoDup
      (Reference.method_names_of "A"
         (snd (CodeReadParser.register_node Examples.render Examples.path_from
                 "a.py" Examples.two_definitions_of_f
                 (CodeReadParser.__init__ Examples.same_path "/p")))).
Proof.
  intros H. vm_compute in H.
  inversion H as [|x l Hnotin Hrest]; subst.
  apply Hnotin. now left.
Qed.

Section Overwrite.

Import CodeReadParser Reference Entry.

Variable unparse : expr -> string.

Lemma registered_untouched (class_name : string) (nodes : list stmt)
  (registry : dict class_info) :
  classes_named class_name nodes = [] ->
  dict_get class_name (fold_left (registered unparse) nodes registry)
  = dict_get class_name registry.
Proof.
  unfold classes_named. revert registry.
  induction nodes as [|node nodes IH]; intros registry H; simpl in *.
  - reflexivity.
  - unfold registered at 2.
    destruct (is_ClassDef node); simpl in H.
    + destruct (String.eqb (node_name node) class_name) eqn:E;
        [discriminate|].
      rewrite IH by assumption.
      apply dict_get_set_other. now apply String.eqb_neq.
    + now apply IH.
Qed.

Lemma registered_NoDup (nodes : list stmt) (registry : dict class_info) :
  NoDup (dict_keys registry) ->
  NoDup (dict_keys (fold_left (registered unparse) nodes registry)).
Proof.
  revert registry.
  induction nodes as [|node nodes IH]; intros registry H; simpl.
  - assumption.
  - apply IH. unfold registered.
    destruct (is_ClassDef node); [now apply dict_set_NoDup|assumption].
Qed.

Lemma filter_ends {X} (p : X -> bool) (l e : list X) (c : X) :
  filter p l = e ++ [c] ->
  exists l1 l3, l = l1 ++ c :: l3 /\ p c = true /\ filter p l3 = [].
Proof.
  revert e. induction l as [|a l IH]; intros e H; simpl in H.
  - now destruct e.
  - destruct (p a) eqn:Ea.
    + destruct e as [|a' e]; simpl in H.
      * injection H as -> H. now exists [], l.
      * injection H as -> H. destruct (IH e H) as (l1 & l3 & -> & Hc & H3).
        now exists (a' :: l1), l3.
    + destruct (IH e H) as (l1 & l3 & -> & Hc & H3).
      now exists (a :: l1), l3.
Qed.

Variable abspath : string -> string.
Variable relpath : string -> string -> string.
Variable parse_file : string -> result module_node.

Lemma classes_named_files (class_name : string) (files : list string) :
  (forall u t, In u files -> parse_file u = Ok t ->
               classes_named class_name (walk t) = []) ->
  classes_named class_name (flat_map (nodes_of_file parse_file) files) = [].
Proof.
  unfold classes_named.
  induction files as [|u files IH]; intros H; simpl; [reflexivity|].
  rewrite filter_app, IH by (intros; eapply H; [right|]; eassumption).
  rewrite app_nil_r. unfold nodes_of_file.
  destruct (parse_file u) as [t|e] eqn:E; [|reflexivity].
  apply (H u t); [now left|assumption].
Qed.

End Overwrite.

(** ** The initializer scan (C2) *)

(** C2 at [self.x: int = 0] followed by [self.y = 1] in the initializer:
    the annotated assignment is an [AnnAssign] node, which the scan of the
    initializer passes over, so [x] is not extracted at all; the plain
    assignment gives [y] the label ["Any"]. *)
Lemma init_annotated_assignment_not_extracted :
  Reference.attributes_of "A"
    (snd (CodeReadParser.register_node Examples.render Examples.path_from
            "a.py" Examples.annotated_in_init
            (CodeReadParser.__init__ Examples.same_path "/p")))
  = [("y", "Any")].
Proof. reflexivity. Qed.

(** ** The diagram description (C3, C10) *)

Section Description.

Import CodeReadParser Reference.

Variable py_repr : pyval -> string.

Lemma mapR_map_ok {X Y Z} (f : Y -> result Z) (h : X -> Y) (g : X -> Z)
  (xs : list X) :
  (forall x, f (h x) = Ok (g x)) ->
  mapR f (map h xs) = Ok (map g xs).
Proof.
  intros H. induction xs as [|x xs IH]; simpl; [reflexivity|].
  now rewrite H, IH.
Qed.

(** Filling the template of the source gives the node block. *)
Lemma format_class_template (cls attrs methods : string) :
  UMLCreator.format UMLCreator.template
    [("class_name", cls); ("attributes", attrs); ("methods", methods)]
  = Ok (block_text cls attrs methods).
Proof. reflexivity. Qed.

Lemma method_row_of_method (m : method_info) :
  UMLCreator.method_row py_repr (of_method m) = Ok (method_line m).
Proof. reflexivity. Qed.

Lemma class_node_of_class (encoding uml_path : string)
  (registry : option pyval) (cls : string) (info : class_info) :
  UMLCreator.class_node py_repr
    (UMLCreator.mk encoding uml_path UMLCreator.template registry)
    cls (of_class info)
  = Ok (node_block cls info).
Proof.
  unfold UMLCreator.class_node, of_class.
  cbn [py_getitem dict_get String.eqb Ascii.eqb Bool.eqb bindR py_items
       dict_items py_iter UMLCreator.class_template].
  rewrite (mapR_map_ok _ _ _ _ method_row_of_method). cbn [bindR].
  unfold dict_items. rewrite map_map.
  rewrite format_class_template. reflexivity.
Qed.

Lemma class_edges_of_class (cls : string) (info : class_info) :
  UMLCreator.class_edges py_repr cls (of_class info)
  = Ok (edges_into cls info).
Proof.
  unfold UMLCreator.class_edges, of_class, edges_into.
  cbn [py_getitem dict_get String.eqb Ascii.eqb Bool.eqb bindR py_iter].
  now rewrite map_map.
Qed.

(** The two loops of [generate_dot] on a registry of the extractor. *)
Ltac run_generate_dot :=
  unfold UMLCreator.generate_dot, UMLCreator.get_classes_info, of_registry,
    description_parts;
  cbn [UMLCreator.classes_info bindR py_items]; unfold dict_items;
  rewrite (mapR_map_ok _ _ (fun ci => node_block (fst ci) (snd ci)))
    by (intros ci; apply class_node_of_class);
  cbn [bindR];
  rewrite (mapR_map_ok _ _ (fun ci => edges_into (fst ci) (snd ci)))
    by (intros ci; apply class_edges_of_class);
  cbn [bindR]; rewrite <- flat_map_concat_map;
  now rewrite <- !app_assoc.

Lemma generate_dot_parts (self : UMLCreator.t) (registry : dict class_info) :
  UMLCreator.classes_info self = Some (of_registry registry) ->
  UMLCreator.class_template self = UMLCreator.template ->
  UMLCreator.generate_dot py_repr self
  = Ok (join UMLCreator.nl (description_parts registry)).
Proof.
  destruct self as [encoding uml_path template classes]. simpl.
  intros -> ->. run_generate_dot.
Qed.

(** The parts are the two lines of the wrapper, one block per class and
    one edge per class and parent. *)
Lemma description_parts_length (registry : dict class_info) :
  length (description_parts registry)
  = 2 + length registry
    + list_sum (map (fun ci => length (parent_classes (snd ci))) registry).
Proof.
  unfold description_parts. simpl. rewrite !length_app, length_map. simpl.
  assert (H : length (flat_map (fun ci => edges_into (fst ci) (snd ci)) registry)
              = list_sum (map (fun ci => length (parent_classes (snd ci)))
                              registry)).
  { induction registry as [|ci registry IH]; simpl; [reflexivity|].
    rewrite length_app, IH. unfold edges_into. now rewrite length_map. }
  rewrite H. lia.
Qed.

(** C3.  For every registry the extractor can build (the non-empty ones
    among them), [generate_dot] returns the lines [digraph G {], one node
    block per class in the order of the registry, then one edge statement
    [parent -> child [arrowhead=onormal];] per class and per name in its
    parent list, in the same order, then the closing brace, joined by line
    feeds. *)
Theorem generate_dot_of_registry (encoding uml_path : string)
  (registry : dict class_info) :
  UMLCreator.generate_dot py_repr
    (UMLCreator.mk encoding uml_path UMLCreator.template
                   (Some (of_registry registry)))
  = Ok (join UMLCreator.nl (description_parts registry)).
Proof. run_generate_dot. Qed.

End Description.

Section EmptyRegistry.

Variable codec_installed : string -> bool.
Variable py_repr : pyval -> string.
Variable run_dot : string -> result string.

(** C10.  On a registry with no class [generate_dot] does not raise: it
    returns the opening line and the closing brace and nothing between
    them.  The test for an empty registry is in [create_uml], which raises
    before it calls [generate_dot]. *)
Theorem generate_dot_empty_registry (encoding uml_path template : string)
  (fs : filesystem) :
  UMLCreator.generate_dot py_repr
    (UMLCreator.mk encoding uml_path template (Some (PDict [])))
  = Ok ("digraph G {" ++ UMLCreator.nl ++ "}")%string
  /\ UMLCreator.create_uml codec_installed py_repr run_dot
       (UMLCreator.mk encoding uml_path template (Some (PDict []))) fs
     = (Raise (ValueError "classes_info is empty."), fs).
Proof. split; reflexivity. Qed.

Lemma truthy_of_registry (registry : dict CodeReadParser.class_info) :
  registry <> [] -> truthy (of_registry registry) = true.
Proof. now destruct registry. Qed.

(** [create_uml] on a non-empty registry of the extractor, under an
    encoding whose codec is found: the description is written to
    [temp.dot], and the image follows when the renderer succeeds. *)
Lemma create_uml_of_registry (encoding uml_path : string)
  (registry : dict CodeReadParser.class_info) (fs : filesystem) :
  registry <> [] ->
  known_encoding codec_installed encoding = true ->
  UMLCreator.create_uml codec_installed py_repr run_dot
    (UMLCreator.mk encoding uml_path UMLCreator.template
                   (Some (of_registry registry))) fs
  = match run_dot (join UMLCreator.nl
                        (Reference.description_parts registry)) with
    | Ok image =>
        (Ok tt,
         dict_set uml_path (Image image)
           (dict_set "temp.dot"
              (PlainText encoding
                 (join UMLCreator.nl (Reference.description_parts registry)))
              fs))
    | Raise e =>
        (Raise e,
         dict_set "temp.dot"
           (PlainText encoding
              (join UMLCreator.nl (Reference.description_parts registry)))
           fs)
    end.
Proof.
  intros Hne Hknown. unfold UMLCreator.create_uml, bind, lift, raise.
  cbn [UMLCreator.get_classes_info UMLCreator.classes_info].
  rewrite truthy_of_registry by assumption. cbn [negb].
  rewrite (generate_dot_parts py_repr _ registry) by reflexivity.
  unfold UMLCreator.render_dot, bind, lift, write_file, renderer_writes.
  cbn [UMLCreator.uml_path UMLCreator.VALID_ENCODING String.eqb Ascii.eqb
       Bool.eqb].
  rewrite Hknown. cbn [negb].
  now destruct (run_dot _).
Qed.

(** With a class in the registry, the encoding UTF-8 and a renderer that
    succeeds, [create_uml] writes the description to [temp.dot] and the
    image to the output path, and raises nothing. *)
Lemma create_uml_writes_files (uml_path : string)
  (registry : dict CodeReadParser.class_info) (fs : filesystem)
  (image : string) :
  registry <> [] ->
  run_dot (join UMLCreator.nl (Reference.description_parts registry))
  = Ok image ->
  UMLCreator.create_uml codec_installed py_repr run_dot
    (UMLCreator.mk "utf-8" uml_path UMLCreator.template
                   (Some (of_registry registry))) fs
  = (Ok tt,
     dict_set uml_path (Image image)
       (dict_set "temp.dot"
          (PlainText "utf-8"
             (join UMLCreator.nl (Reference.description_parts registry)))
          fs)).
Proof.
  intros Hne Hrun.
  rewrite create_uml_of_registry by (assumption || reflexivity).
  now rewrite Hrun.
Qed.

End EmptyRegistry.

(** ** The constructor of [UMLCreator] (C9) *)

(** C9.  Given a non-empty mapping and a path, the constructor raises the
    [ValueError] about the two data sources, whatever the mapping holds
    and whatever the files are: nothing has been loaded or validated. *)
Theorem init_rejects_two_sources (codec_installed : string -> bool)
  (json_load_other : string -> content -> result pyval)
  (entries : list (string * pyval))
  (json_path encoding uml_path : string) (fs : filesystem) :
  entries <> [] ->
  json_path <> "" ->
  UMLCreator.__init__ codec_installed json_load_other (PDict entries)
    (Some json_path) encoding uml_path fs
  = Raise (ValueError
             "Only to choose one data source, classes_info or json_path.").
Proof.
  intros Hentries Hpath. unfold UMLCreator.__init__.
  destruct entries as [|entry entries]; [contradiction|].
  apply String.eqb_neq in Hpath. simpl. now rewrite Hpath.
Qed.

(** C9 with a mapping that would not pass validation and a path to a file
    that does not exist. *)
Lemma init_rejects_two_sources_witness :
  UMLCreator.__init__ Examples.standard_codecs Examples.undecodable
    (PDict [("A", PNone)]) (Some "missing.json") "utf-8" "UML_test.png" []
  = Raise (ValueError
             "Only to choose one data source, classes_info or json_path.").
Proof.
  apply init_rejects_two_sources.
  - discriminate.
  - discriminate.
Defined.

(** Each source alone is used: the mapping above fails validation, the
    missing file is reported. *)
Lemma init_single_source_examples :
  UMLCreator.__init__ Examples.standard_codecs Examples.undecodable
    (PDict [("A", PNone)]) None "utf-8" "UML_test.png" []
  = Raise (AttributeError "'NoneType' object has no attribute 'keys'")
  /\ UMLCreator.__init__ Examples.standard_codecs Examples.undecodable
       PNone (Some "missing.json") "utf-8" "UML_test.png" []
     = Raise (FileNotFoundError "json file not found.").
Proof. split; reflexivity. Qed.

(** ** Validation before serialization (C8) *)

(** Nothing is written when validation raises. *)
Lemma save_to_json_validates_first (codec_installed : string -> bool)
  (self : JSONSaver.t) (fs : filesystem) (e : exn) :
  JSONSaver._validate_classes_info self = Raise e ->
  JSONSaver.save_to_json codec_installed self fs = (Raise e, fs).
Proof.
  intros H. unfold JSONSaver.save_to_json, bind, lift. now rewrite H.
Qed.

(** C8 at a registry whose ["methods"] value is an empty dictionary:
    iterating it yields no element, so the test that every element is a
    dictionary passes, validation returns [True], and the file is
    written. *)
Lemma save_to_json_accepts_methods_dict
  (codec_installed : string -> bool) :
  JSONSaver._validate_classes_info
    (JSONSaver.__init__ Examples.methods_not_a_list "classes_info.json"
                        "utf-8")
  = Ok true
  /\ JSONSaver.save_to_json codec_installed
       (JSONSaver.__init__ Examples.methods_not_a_list "classes_info.json"
                           "utf-8") []
     = (Ok tt,
        [("classes_info.json",
          JsonText "utf-8" Examples.methods_not_a_list)]).
Proof. split; reflexivity. Qed.

Section DetectedDefects.

Lemma iterR_raises {X} (f : X -> result unit) (xs : list X) (x : X) :
  In x xs -> (exists e, f x = Raise e) -> exists e, iterR f xs = Raise e.
Proof.
  intros Hin [e He].
  induction xs as [|y xs IH]; simpl; [contradiction|].
  destruct (f y) as [[]|e'] eqn:Ey; simpl.
  - destruct Hin as [->|Hin]; [congruence|]. now apply IH.
  - now exists e'.
Qed.

(** The validator of [JSONSaver] raises on every registry that has an
    entry with a defect of shape, wherever the entry stands. *)
Lemma validate_rejects_defect (self : JSONSaver.t)
  (entries : list (string * pyval)) (cls : string) (info : pyval) :
  JSONSaver.classes_info self = PDict entries ->
  In (cls, info) entries ->
  Reference.shape_defect info = true ->
  exists e, JSONSaver._validate_classes_info self = Raise e.
Proof.
  intros Hci Hin Hdefect. unfold JSONSaver._validate_classes_info.
  rewrite Hci. destruct entries as [|entry entries]; [contradiction|].
  cbn [truthy negb is_dict py_items bindR]. unfold dict_items.
  match goal with
  | |- context [iterR ?f ?xs] =>
      destruct (iterR_raises f xs (cls, info) Hin) as [e He]
  end.
  - cbn [fst snd]. destruct info as [| | | | |info_entries];
      try (eexists; reflexivity).
    cbn [py_keys bindR]. unfold Reference.shape_defect in Hdefect.
    destruct (JSONSaver.issubset JSONSaver.required_keys
                (dict_keys info_entries)); [|eexists; reflexivity].
    cbn [negb orb py_getitem] in *.
    destruct (dict_get "attributes" info_entries) as [a|];
      [|eexists; reflexivity].
    cbn [bindR]. destruct (is_dict a); [|eexists; reflexivity].
    cbn [negb orb] in *.
    destruct (dict_get "methods" info_entries) as [m|];
      [|eexists; reflexivity].
    cbn [bindR]. destruct (py_iter m) as [elements|e'];
      [|eexists; reflexivity].
    cbn [bindR]. rewrite Hdefect. eexists; reflexivity.
  - exists e. now rewrite He.
Qed.

End DetectedDefects.

(** The part of C8 that holds: on a registry with an entry that is no
    dictionary, lacks a required key, has an ["attributes"] value that is
    no dictionary, or a ["methods"] value that cannot be iterated or holds
    an element that is no dictionary, [save_to_json] raises and writes
    nothing. *)
Theorem save_to_json_rejects_defect (codec_installed : string -> bool)
  (self : JSONSaver.t)
  (entries : list (string * pyval)) (cls : string) (info : pyval)
  (fs : filesystem) :
  JSONSaver.classes_info self = PDict entries ->
  In (cls, info) entries ->
  Reference.shape_defect info = true ->
  exists e, JSONSaver.save_to_json codec_installed self fs = (Raise e, fs).
Proof.
  intros Hci Hin Hdefect.
  destruct (validate_rejects_defect self entries cls info Hci Hin Hdefect)
    as [e He].
  exists e. now apply save_to_json_validates_first.
Qed.

(** A registry whose second class has a list for ["attributes"]. *)
Lemma save_to_json_rejects_defect_witness :
  exists e,
    JSONSaver.save_to_json Examples.standard_codecs
      (JSONSaver.__init__
         (PDict [("A", of_class (CodeReadParser.mk_class_info [] [] []));
                 ("B", PDict [("attributes", PList []);
                              ("methods", PList []);
                              ("parent_classes", PList [])])])
         "classes_info.json" "utf-8")
      [("classes_info.json", PlainText "utf-8" "old")]
    = (Raise e, [("classes_info.json", PlainText "utf-8" "old")]).
Proof.
  apply (save_to_json_rejects_defect Examples.standard_codecs _
           [("A", of_class (CodeReadParser.mk_class_info [] [] []));
            ("B", PDict [("attributes", PList []);
                         ("methods", PList []);
                         ("parent_classes", PList [])])]
           "B"
           (PDict [("attributes", PList []);
                   ("methods", PList []);
                   ("parent_classes", PList [])])).
  - reflexivity.
  - right. left. reflexivity.
  - reflexivity.
Defined.

(** ** The constructor called with an empty mapping *)

Section EmptyMapping.

Variable codec_installed : string -> bool.
Variable json_load_other : string -> content -> result pyval.
Variable py_repr : pyval -> string.
Variable run_dot : string -> result string.

(** [UMLCreator(classes_info={})] assigns no [classes_info] attribute: both
    tests of the constructor see a false value.  [create_uml] on that
    object raises [AttributeError], not the [ValueError] of the empty
    registry; no file is written either way. *)
Theorem init_empty_mapping_sets_no_registry (encoding uml_path : string)
  (fs : filesystem) :
  exists self,
    UMLCreator.__init__ codec_installed json_load_other (PDict []) None
      encoding uml_path fs
    = Ok self
    /\ UMLCreator.classes_info self = None
    /\ UMLCreator.create_uml codec_installed py_repr run_dot self fs
       = (Raise (AttributeError
                   "'UMLCreator' object has no attribute 'classes_info'"),
          fs).
Proof. eexists. repeat split. Qed.

End EmptyMapping.

(** C7 at [UMLCreator(classes_info={})], the registry with zero classes
    given in memory: the constructor takes the empty mapping for no
    mapping and assigns no [classes_info] attribute, and [create_uml] on
    the object raises [AttributeError], not the error of the empty model.
    No file is written. *)
Lemma create_uml_empty_mapping_attribute_error :
  exists self,
    UMLCreator.__init__ Examples.standard_codecs Examples.undecodable
      (PDict []) None "utf-8" "UML_test.png" []
    = Ok self
    /\ UMLCreator.create_uml Examples.standard_codecs Examples.repr_of
         Examples.dot_ok self []
       = (Raise (AttributeError
                   "'UMLCreator' object has no attribute 'classes_info'"),
          [])
    /\ fst (UMLCreator.create_uml Examples.standard_codecs Examples.repr_of
              Examples.dot_ok self [])
       <> Raise (ValueError "classes_info is empty.").
Proof. eexists. repeat split. discriminate. Qed.

(** A creator loaded from a JSON file that holds [{}] has the empty
    registry, and [create_uml] on it raises the error of the empty
    model. *)
Lemma init_from_empty_json :
  UMLCreator.__init__ Examples.standard_codecs Examples.undecodable PNone
    (Some "empty.json") "utf-8" "UML_test.png"
    [("empty.json", JsonText "utf-8" (PDict []))]
  = Ok Examples.empty_creator
  /\ UMLCreator.create_uml Examples.standard_codecs Examples.repr_of
       Examples.dot_ok Examples.empty_creator
       [("empty.json", JsonText "utf-8" (PDict []))]
     = (Raise (ValueError "classes_info is empty."),
        [("empty.json", JsonText "utf-8" (PDict []))]).
Proof. split; reflexivity. Qed.

(** ** The walk visits every node *)

Section WalkFacts.

Lemma node_count_children (node : stmt) :
  node_count node = S (nodes_count (iter_child_nodes node)).
Proof. destruct node; reflexivity. Qed.

Lemma nodes_count_app (xs ys : list stmt) :
  nodes_count (xs ++ ys) = nodes_count xs + nodes_count ys.
Proof. unfold nodes_count. now rewrite map_app, list_sum_app. Qed.

(** Once there is one unit of fuel per node in the queue, more fuel does
    not change the walk. *)
Lemma walk_queue_enough (fuel1 fuel2 : nat) (todo : list stmt) :
  nodes_count todo <= fuel1 -> nodes_count todo <= fuel2 ->
  walk_queue fuel1 todo = walk_queue fuel2 todo.
Proof.
  revert fuel2 todo.
  induction fuel1 as [|fuel1 IH]; intros fuel2 todo H1 H2.
  - destruct todo as [|node rest].
    + now destruct fuel2.
    + unfold nodes_count in H1. simpl in H1.
      rewrite node_count_children in H1. lia.
  - destruct todo as [|node rest]; [now destruct fuel2|].
    assert (Hcount : nodes_count (node :: rest)
                     = S (nodes_count (rest ++ iter_child_nodes node))).
    { rewrite nodes_count_app. unfold nodes_count at 1. simpl.
      rewrite node_count_children. unfold nodes_count. lia. }
    destruct fuel2 as [|fuel2]; [lia|].
    simpl. f_equal. apply IH; lia.
Qed.

Lemma walk_queue_length (fuel : nat) (todo : list stmt) :
  nodes_count todo <= fuel ->
  length (walk_queue fuel todo) = nodes_count todo.
Proof.
  revert todo. induction fuel as [|fuel IH]; intros todo H.
  - destruct todo as [|node rest]; [reflexivity|].
    unfold nodes_count in H. simpl in H.
    rewrite node_count_children in H. lia.
  - destruct todo as [|node rest]; [reflexivity|].
    assert (Hcount : nodes_count (node :: rest)
                     = S (nodes_count (rest ++ iter_child_nodes node))).
    { rewrite nodes_count_app. unfold nodes_count at 1. simpl.
      rewrite node_count_children. unfold nodes_count. lia. }
    simpl. rewrite IH by lia. now rewrite Hcount.
Qed.

(** The walk yields as many nodes as the tree has. *)
Lemma walk_length (body : list stmt) :
  length (walk (Module body)) = nodes_count body.
Proof. unfold walk. now apply walk_queue_length. Qed.

End WalkFacts.

(** ** The labels of the initializer scan *)

Section InitializerLabels.

Import CodeReadParser Reference Entry.

Variable unparse : expr -> string.

Lemma attributes_init_targets (stmt0 : stmt) (targets : list expr)
  (info : class_info) :
  node_annotation stmt0 = None ->
  attributes
    (fold_left (fun i target => init_target_effect unparse stmt0 target i)
               targets info)
  = fold_left (fun d a => dict_set a "Any" d)
      (flat_map
         (fun target =>
            match target with
            | Attribute (Name id) attr =>
                if String.eqb id "self" then [attr] else []
            | _ => []
            end)
         targets)
      (attributes info).
Proof.
  intros Hann. revert info.
  induction targets as [|target targets IH]; intros info; simpl.
  - reflexivity.
  - rewrite fold_left_app, IH. f_equal. unfold init_target_effect.
    destruct target as [| receiver attr | | | |]; try reflexivity.
    destruct receiver; try reflexivity.
    destruct (String.eqb id "self"); [|reflexivity].
    now rewrite Hann.
Qed.

(** The scan of the initializer writes the label ["Any"] and no other. *)
Lemma attributes_init_effect (init_node : stmt) (info : class_info) :
  attributes (init_effect unparse init_node info)
  = fold_left (fun d a => dict_set a "Any" d)
      (init_assigned_names init_node) (attributes info).
Proof.
  unfold init_effect, init_assigned_names.
  generalize (node_body init_node) as body. intros body. revert info.
  induction body as [|stmt body IH]; intros info; simpl.
  - reflexivity.
  - rewrite fold_left_app, IH. f_equal.
    destruct stmt; try reflexivity.
    unfold init_stmt_effect. now apply attributes_init_targets.
Qed.

Lemma dict_get_fold_set_kept (names : list string) (a v : string)
  (d : dict string) :
  dict_get a d = Some v ->
  dict_get a (fold_left (fun d x => dict_set x v d) names d) = Some v.
Proof.
  revert d. induction names as [|x names IH]; intros d H; simpl.
  - assumption.
  - apply IH. destruct (String.eqb x a) eqn:E.
    + apply String.eqb_eq in E. subst. apply dict_get_set_same.
    + apply String.eqb_neq in E. now rewrite dict_get_set_other.
Qed.

Lemma dict_get_fold_set (names : list string) (a v : string)
  (d : dict string) :
  In a names ->
  dict_get a (fold_left (fun d x => dict_set x v d) names d) = Some v.
Proof.
  revert d. induction names as [|x names IH]; intros d Hin; simpl.
  - contradiction.
  - destruct Hin as [->|Hin].
    + apply dict_get_fold_set_kept. apply dict_get_set_same.
    + now apply IH.
Qed.


End InitializerLabels.


(** ** Further concrete runs *)

(** [def speak(self, times: int, loud)]: the receiver is first and is the
    one parameter left out. *)
Lemma extract_arguments_receiver_first_witness :
  CodeReadParser._extract_arguments Examples.render Examples.method_arguments
  = Reference.parameters_after_receiver Examples.render
      Examples.method_arguments.
Proof.
  apply (extract_arguments_receiver_first Examples.render
           Examples.method_arguments Examples.self_arg
           [mk_arg "times" (Some (Name "int")); mk_arg "loud" None]).
  - reflexivity.
  - reflexivity.
  - reflexivity.
  - intros p [<-|[<-|[]]]; discriminate.
Defined.

(** The registry of [Animal] and [Dog] is rendered: the description goes to
    [temp.dot], the image to the output path. *)
Lemma create_uml_writes_files_witness :
  UMLCreator.create_uml Examples.standard_codecs Examples.repr_of
    Examples.dot_ok
    (UMLCreator.mk "utf-8" "UML_Diagram.png" UMLCreator.template
                   (Some (of_registry Examples.animals))) []
  = (Ok tt,
     dict_set "UML_Diagram.png"
       (Image ("PNG of " ++
               join UMLCreator.nl
                    (Reference.description_parts Examples.animals))%string)
       (dict_set "temp.dot"
          (PlainText "utf-8"
             (join UMLCreator.nl
                   (Reference.description_parts Examples.animals)))
          [])).
Proof.
  apply (create_uml_writes_files Examples.standard_codecs Examples.repr_of
           Examples.dot_ok "UML_Diagram.png" Examples.animals []).
  - discriminate.
  - reflexivity.
Defined.

(* ================================================================== *)
(** * Further properties of the two modules *)
(* ================================================================== *)

(** ** Registries of the extractor pass both validators *)

Section ValidRegistries.

Import CodeReadParser.

Lemma iterR_map_ok {X Y} (f : Y -> result unit) (h : X -> Y) (xs : list X) :
  (forall x, f (h x) = Ok tt) -> iterR f (map h xs) = Ok tt.
Proof.
  intros H. induction xs as [|x xs IH]; simpl; [reflexivity|].
  now rewrite H.
Qed.

Lemma methods_are_dicts (ms : list method_info) :
  forallb is_dict (map of_method ms) = true.
Proof. induction ms as [|m ms IH]; simpl; [reflexivity|assumption]. Qed.

Lemma validate_of_registry (registry : dict class_info)
  (json_path encoding : string) :
  registry <> [] ->
  JSONSaver._validate_classes_info
    (JSONSaver.__init__ (of_registry registry) json_path encoding)
  = Ok true.
Proof.
  intros Hne. unfold JSONSaver._validate_classes_info, JSONSaver.__init__.
  cbn [JSONSaver.classes_info].
  destruct registry as [|ci registry]; [contradiction|].
  unfold of_registry.
  cbn [map truthy negb is_dict py_items bindR]. unfold dict_items.
  change ((fst ci, of_class (snd ci))
            :: map (fun kv => (fst kv, of_class (snd kv))) registry)
    with (map (fun kv : string * class_info => (fst kv, of_class (snd kv)))
              (ci :: registry)).
  rewrite iterR_map_ok; [reflexivity|].
  intros [cls info]. cbn [fst snd]. unfold of_class.
  cbn [py_keys bindR]. cbn.
  now rewrite methods_are_dicts.
Qed.

Variable codec_installed : string -> bool.

(** [save_to_json] on a model that passes validation is the write of the
    file. *)
Lemma save_to_json_run (self : JSONSaver.t) (fs : filesystem) :
  JSONSaver._validate_classes_info self = Ok true ->
  JSONSaver.save_to_json codec_installed self fs
  = write_file codec_installed (JSONSaver.json_path self)
      (JSONSaver.VALID_ENCODING self)
      (JsonText (JSONSaver.VALID_ENCODING self) (JSONSaver.classes_info self))
      fs.
Proof.
  intros H. unfold JSONSaver.save_to_json, bind, lift. now rewrite H.
Qed.


Lemma uml_validate_of_registry (encoding uml_path template : string)
  (registry : dict class_info) :
  UMLCreator._validate_classes_info
    (UMLCreator.mk encoding uml_path template (Some (of_registry registry)))
  = Ok tt.
Proof.
  unfold UMLCreator._validate_classes_info, UMLCreator.get_classes_info.
  cbn [UMLCreator.classes_info bindR of_registry is_dict negb py_items].
  unfold dict_items. apply iterR_map_ok. intros [cls info]. reflexivity.
Qed.

(** The constructor of [UMLCreator] accepts every non-empty registry of the
    extractor given in memory and keeps it as it is. *)
Theorem init_accepts_registry
  (json_load_other : string -> content -> result pyval)
  (registry : dict class_info)
  (encoding uml_path : string) (fs : filesystem) :
  registry <> [] ->
  UMLCreator.__init__ codec_installed json_load_other (of_registry registry)
    None encoding uml_path fs
  = Ok (UMLCreator.mk encoding uml_path UMLCreator.template
                      (Some (of_registry registry))).
Proof.
  intros Hne. unfold UMLCreator.__init__.
  destruct registry as [|ci registry]; [contradiction|].
  cbn [of_registry map truthy UMLCreator.path_given andb].
  unfold UMLCreator.with_classes_info, py_or.
  cbn [truthy UMLCreator.VALID_ENCODING UMLCreator.uml_path
       UMLCreator.class_template].
  change (PDict ((fst ci, of_class (snd ci))
                   :: map (fun kv => (fst kv, of_class (snd kv))) registry))
    with (of_registry (ci :: registry)).
  change (truthy (of_registry (ci :: registry))) with true. cbv iota.
  now rewrite uml_validate_of_registry.
Qed.

End ValidRegistries.


Lemma init_accepts_registry_witness :
  UMLCreator.__init__ Examples.standard_codecs Examples.undecodable
    (of_registry Examples.animals) None "utf-8" "UML_Diagram2.png" []
  = Ok (UMLCreator.mk "utf-8" "UML_Diagram2.png" UMLCreator.template
                      (Some (of_registry Examples.animals))).
Proof.
  apply (init_accepts_registry Examples.standard_codecs Examples.undecodable
           Examples.animals).
  discriminate.
Defined.

(** ** Models that are refused *)

(** A model that is no non-empty dictionary is refused before anything is
    written: [ValueError] for a false value ([None], [{}], [[]], [""], 0),
    [TypeError] for any other value that is no dictionary. *)
Theorem save_to_json_rejects_non_registry
  (codec_installed : string -> bool) (self : JSONSaver.t)
  (fs : filesystem) :
  truthy (JSONSaver.classes_info self)
  && is_dict (JSONSaver.classes_info self) = false ->
  JSONSaver.save_to_json codec_installed self fs
  = (Raise (if truthy (JSONSaver.classes_info self)
            then TypeError "classes_info must be a dict."
            else ValueError "classes_info is empty."),
     fs).
Proof.
  intros H. unfold JSONSaver.save_to_json, bind, lift,
    JSONSaver._validate_classes_info.
  destruct (truthy (JSONSaver.classes_info self)); [|reflexivity].
  simpl in H. now rewrite H.
Qed.

Lemma save_to_json_rejects_non_registry_witness :
  JSONSaver.save_to_json Examples.standard_codecs
    (JSONSaver.__init__ (PList [PStr "A"]) "classes_info.json" "utf-8") []
  = (Raise (TypeError "classes_info must be a dict."), []).
Proof.
  apply (save_to_json_rejects_non_registry Examples.standard_codecs
           (JSONSaver.__init__ (PList [PStr "A"]) "classes_info.json"
                               "utf-8")).
  reflexivity.
Defined.

(** [save_to_json] called on a [UMLCreator] never writes a file: the
    overriding validator returns [None], which the inherited method takes
    for a failed validation.  When the validator raises nothing the error
    is [ValueError("classes_info is not valid.")]. *)
Theorem uml_creator_cannot_save (self : UMLCreator.t) (fs : filesystem) :
  exists e,
    UMLCreator.save_to_json self fs = (Raise e, fs)
    /\ (UMLCreator._validate_classes_info self = Ok tt ->
        e = ValueError "classes_info is not valid.").
Proof.
  unfold UMLCreator.save_to_json, bind, lift.
  destruct (UMLCreator._validate_classes_info self) as [[]|e]; simpl.
  - eexists. split; [reflexivity|reflexivity].
  - exists e. split; [reflexivity|discriminate].
Qed.

(** ** Defective entries and the diagram *)

Section DiagramDefects.

Variable codec_installed : string -> bool.
Variable json_load_other : string -> content -> result pyval.
Variable py_repr : pyval -> string.
Variable run_dot : string -> result string.

Lemma mapR_raises {X Y} (f : X -> result Y) (xs : list X) (x : X) :
  In x xs -> (exists e, f x = Raise e) -> exists e, mapR f xs = Raise e.
Proof.
  intros Hin [e He].
  induction xs as [|y xs IH]; simpl; [contradiction|].
  destruct (f y) as [b|e'] eqn:Ey; simpl.
  - destruct Hin as [->|Hin]; [congruence|].
    destruct (IH Hin) as [e'' ->]. now exists e''.
  - now exists e'.
Qed.

Lemma mapR_ok_each {X Y} (f : X -> result Y) (xs : list X) (ys : list Y)
  (x : X) :
  mapR f xs = Ok ys -> In x xs -> exists y, f x = Ok y.
Proof.
  revert ys. induction xs as [|z xs IH]; intros ys H Hin; [contradiction|].
  simpl in H. destruct (f z) as [b|e] eqn:Ez; [|discriminate].
  simpl in H. destruct (mapR f xs) as [bs|e]; [|discriminate].
  destruct Hin as [->|Hin]; [now exists b|]. now apply (IH bs).
Qed.

Lemma key_absent (k : string) (entries : list (string * pyval)) :
  existsb (String.eqb k) (dict_keys entries) = false ->
  dict_get k entries = None.
Proof.
  unfold dict_keys. induction entries as [|[k' v] entries IH]; simpl.
  - reflexivity.
  - rewrite (String.eqb_sym k' k).
    destruct (String.eqb k k'); simpl; [discriminate|assumption].
Qed.

Lemma lacks_one_key (entries : list (string * pyval)) :
  JSONSaver.issubset UMLCreator.required_keys (dict_keys entries) = false ->
  dict_get "attributes" entries = None
  \/ dict_get "methods" entries = None
  \/ dict_get "parent_classes" entries = None.
Proof.
  unfold JSONSaver.issubset, UMLCreator.required_keys. cbn [forallb].
  intros H.
  destruct (existsb (String.eqb "attributes") (dict_keys entries)) eqn:Ea;
    [|left; now apply key_absent].
  destruct (existsb (String.eqb "methods") (dict_keys entries)) eqn:Em;
    [|right; left; now apply key_absent].
  destruct (existsb (String.eqb "parent_classes") (dict_keys entries)) eqn:Ep;
    [discriminate|right; right; now apply key_absent].
Qed.

Lemma generate_dot_rejects_defect (self : UMLCreator.t)
  (entries : list (string * pyval)) (cls : string) (info : pyval) :
  UMLCreator.classes_info self = Some (PDict entries) ->
  In (cls, info) entries ->
  Reference.lacks_required_keys info = true ->
  exists e, UMLCreator.generate_dot py_repr self = Raise e.
Proof.
  intros Hci Hin Hdefect.
  unfold UMLCreator.generate_dot, UMLCreator.get_classes_info.
  rewrite Hci. cbn [bindR py_items]. unfold dict_items.
  destruct (mapR (fun ci => UMLCreator.class_node py_repr self (fst ci) (snd ci))
                 entries) as [nodes|e] eqn:Enodes;
    [|now exists e].
  cbn [bindR].
  destruct (mapR_raises
              (fun ci => UMLCreator.class_edges py_repr (fst ci) (snd ci))
              entries (cls, info) Hin) as [e He];
    [|exists e; now rewrite He].
  destruct (mapR_ok_each _ _ _ _ Enodes Hin) as [block Hblock].
  cbn [fst snd] in *. unfold UMLCreator.class_node in Hblock.
  unfold UMLCreator.class_edges.
  destruct info as [| | | | |info_entries]; try discriminate.
  unfold Reference.lacks_required_keys in Hdefect.
  apply negb_true_iff in Hdefect.
  destruct (lacks_one_key info_entries Hdefect) as [Ha|[Hm|Hp]].
  - cbn [py_getitem] in Hblock. rewrite Ha in Hblock. discriminate.
  - cbn [py_getitem] in Hblock.
    destruct (dict_get "attributes" info_entries) as [a|]; [|discriminate].
    cbn [bindR] in Hblock.
    destruct (py_items a) as [items|e]; [|discriminate].
    cbn [bindR] in Hblock. rewrite Hm in Hblock. discriminate.
  - cbn [py_getitem]. rewrite Hp. eexists; reflexivity.
Qed.

(** A registry with an entry that is no dictionary or lacks one of the
    keys ["attributes"], ["methods"], ["parent_classes"] makes
    [create_uml] raise before any file is written, also when the registry
    came from a JSON file and was never validated. *)
Theorem create_uml_rejects_defect (self : UMLCreator.t)
  (entries : list (string * pyval)) (cls : string) (info : pyval)
  (fs : filesystem) :
  UMLCreator.classes_info self = Some (PDict entries) ->
  In (cls, info) entries ->
  Reference.lacks_required_keys info = true ->
  exists e,
    UMLCreator.create_uml codec_installed py_repr run_dot self fs
    = (Raise e, fs).
Proof.
  intros Hci Hin Hdefect.
  destruct (generate_dot_rejects_defect self entries cls info Hci Hin Hdefect)
    as [e He].
  exists e. unfold UMLCreator.create_uml, bind, lift, raise,
    UMLCreator.get_classes_info.
  rewrite Hci. destruct entries as [|entry entries]; [contradiction|].
  cbn [truthy negb]. now rewrite He.
Qed.

(** The constructor given a path to a JSON file that was written under
    the encoding of the creator and holds a dictionary. *)
Lemma init_from_json_run (classes_info data : pyval)
  (json_path encoding uml_path : string) (fs : filesystem) :
  json_path <> "" ->
  truthy classes_info = false ->
  known_encoding codec_installed encoding = true ->
  dict_get json_path fs = Some (JsonText encoding data) ->
  is_dict data = true ->
  UMLCreator.__init__ codec_installed json_load_other classes_info
    (Some json_path) encoding uml_path fs
  = Ok (UMLCreator.mk encoding uml_path UMLCreator.template (Some data)).
Proof.
  intros Hpath Hfalse Hknown Hfile Hdict. unfold UMLCreator.__init__.
  apply String.eqb_neq in Hpath. rewrite Hfalse.
  cbn [andb UMLCreator.path_given]. rewrite Hpath. cbn [negb].
  unfold UMLCreator.load_from_json, UMLCreator.open_for_reading.
  rewrite Hpath, Hfile. cbn [UMLCreator.VALID_ENCODING]. rewrite Hknown.
  cbn [bindR UMLCreator.json_load]. rewrite String.eqb_refl.
  cbn [bindR]. now rewrite Hdict.
Qed.

(** The constructor validates a mapping given in memory and does not
    validate a dictionary read from a file: the same registry with a
    defective entry is refused in memory and accepted from a JSON file
    (one written under the encoding of the creator, whose codec is
    found). *)
Theorem json_path_skips_validation (entries : list (string * pyval))
  (cls : string) (info : pyval) (json_path encoding uml_path : string)
  (fs : filesystem) :
  In (cls, info) entries ->
  Reference.lacks_required_keys info = true ->
  json_path <> "" ->
  known_encoding codec_installed encoding = true ->
  dict_get json_path fs = Some (JsonText encoding (PDict entries)) ->
  (exists e,
     UMLCreator.__init__ codec_installed json_load_other (PDict entries)
       None encoding uml_path fs
     = Raise e)
  /\ UMLCreator.__init__ codec_installed json_load_other PNone
       (Some json_path) encoding uml_path fs
     = Ok (UMLCreator.mk encoding uml_path UMLCreator.template
                         (Some (PDict entries))).
Proof.
  intros Hin Hdefect Hpath Hknown Hfile. split.
  - unfold UMLCreator.__init__.
    destruct entries as [|entry entries]; [contradiction|].
    cbn [truthy UMLCreator.path_given andb].
    unfold UMLCreator.with_classes_info, py_or. cbn [truthy].
    unfold UMLCreator._validate_classes_info, UMLCreator.get_classes_info.
    cbn [UMLCreator.classes_info bindR is_dict negb py_items].
    unfold dict_items.
    match goal with
    | |- context [iterR ?f ?xs] =>
        destruct (iterR_raises f xs (cls, info) Hin) as [e He]
    end.
    + cbn [fst snd]. unfold Reference.lacks_required_keys in Hdefect.
      destruct info as [| | | | |info_entries]; try (eexists; reflexivity).
      cbn [py_keys bindR]. rewrite Hdefect. eexists; reflexivity.
    + exists e. now rewrite He.
  - now apply init_from_json_run.
Qed.

(** When the renderer fails on a non-empty registry of the extractor,
    [create_uml] (under the encoding UTF-8) raises the renderer's error
    after the description has been written to [temp.dot], which is left
    behind. *)
Theorem create_uml_renderer_fails (uml_path : string)
  (registry : dict CodeReadParser.class_info) (fs : filesystem) (e : exn) :
  registry <> [] ->
  run_dot (join UMLCreator.nl (Reference.description_parts registry))
  = Raise e ->
  let outcome :=
    UMLCreator.create_uml codec_installed py_repr run_dot
      (UMLCreator.mk "utf-8" uml_path UMLCreator.template
                     (Some (of_registry registry))) fs in
  fst outcome = Raise e
  /\ dict_get "temp.dot" (snd outcome)
     = Some (PlainText "utf-8"
               (join UMLCreator.nl (Reference.description_parts registry))).
Proof.
  intros Hne Hrun outcome. subst outcome.
  rewrite create_uml_of_registry by (assumption || reflexivity).
  rewrite Hrun. cbn [fst snd]. split; [reflexivity|].
  apply dict_get_set_same.
Qed.

End DiagramDefects.

Lemma create_uml_rejects_defect_witness :
  exists e,
    UMLCreator.create_uml Examples.standard_codecs Examples.repr_of
      Examples.dot_ok
      (UMLCreator.mk "utf-8" "UML_test.png" UMLCreator.template
                     (Some (PDict Examples.missing_parents)))
      [("notes.txt", PlainText "utf-8" "keep")]
    = (Raise e, [("notes.txt", PlainText "utf-8" "keep")]).
Proof.
  apply (create_uml_rejects_defect Examples.standard_codecs Examples.repr_of
           Examples.dot_ok _ Examples.missing_parents "A"
           (PDict [("attributes", PDict []); ("methods", PList [])])).
  - reflexivity.
  - left. reflexivity.
  - reflexivity.
Defined.

Lemma json_path_skips_validation_witness :
  (exists e,
     UMLCreator.__init__ Examples.standard_codecs Examples.undecodable
       (PDict Examples.missing_parents) None "utf-8" "UML_test.png"
       [("classes_info.json",
         JsonText "utf-8" (PDict Examples.missing_parents))]
     = Raise e)
  /\ UMLCreator.__init__ Examples.standard_codecs Examples.undecodable PNone
       (Some "classes_info.json") "utf-8" "UML_test.png"
       [("classes_info.json",
         JsonText "utf-8" (PDict Examples.missing_parents))]
     = Ok (UMLCreator.mk "utf-8" "UML_test.png" UMLCreator.template
                         (Some (PDict Examples.missing_parents))).
Proof.
  apply (json_path_skips_validation Examples.standard_codecs
           Examples.undecodable Examples.missing_parents "A"
           (PDict [("attributes", PDict []); ("methods", PList [])])).
  - left. reflexivity.
  - reflexivity.
  - discriminate.
  - reflexivity.
  - reflexivity.
Defined.

Lemma create_uml_renderer_fails_witness :
  let outcome :=
    UMLCreator.create_uml Examples.standard_codecs Examples.repr_of
      Examples.dot_fails
      (UMLCreator.mk "utf-8" "UML_Diagram.png" UMLCreator.template
                     (Some (of_registry Examples.animals))) [] in
  fst outcome
  = Raise (CalledProcessError "dot returned non-zero exit status 1")
  /\ dict_get "temp.dot" (snd outcome)
     = Some (PlainText "utf-8"
               (join UMLCreator.nl
                     (Reference.description_parts Examples.animals))).
Proof.
  apply (create_uml_renderer_fails Examples.standard_codecs Examples.repr_of
           Examples.dot_fails "UML_Diagram.png" Examples.animals []).
  - discriminate.
  - reflexivity.
Defined.

(** ** Invariants of the registry *)

Section RegistryInvariants.

Import CodeReadParser Reference Entry.

Variable unparse : expr -> string.

Lemma dict_contains_keys {V} (k : string) (d : dict V) :
  dict_contains k d = existsb (fun k' => String.eqb k' k) (dict_keys d).
Proof.
  unfold dict_contains, dict_keys.
  induction d as [|[k' v] d IH]; simpl; [reflexivity|].
  destruct (String.eqb k' k); [reflexivity|exact IH].
Qed.

Lemma dict_contains_In {V} (k : string) (d : dict V) :
  dict_contains k d = true <-> In k (dict_keys d).
Proof.
  unfold dict_contains. split.
  - destruct (dict_get k d) eqn:E; [|discriminate].
    intros _. eapply dict_get_Some_keys. exact E.
  - intros Hin. destruct (dict_get k d) eqn:E; [reflexivity|].
    exfalso. revert Hin. now apply dict_get_None_keys.
Qed.

Lemma in_keys_set {V} (k k' : string) (v : V) (d : dict V) :
  In k' (dict_keys (dict_set k v d)) <-> In k' (dict_keys d) \/ k' = k.
Proof.
  rewrite dict_keys_set. destruct (dict_contains k d) eqn:E.
  - apply dict_contains_In in E. split; [tauto|].
    intros [H| ->]; assumption.
  - rewrite in_app_iff. simpl. split.
    + intros [H|[H|[]]]; [now left|right; now symmetry].
    + intros [H|H]; [now left|right; left; now symmetry].
Qed.

Lemma dict_get_In {V} (k : string) (v : V) (d : dict V) :
  dict_get k d = Some v -> In (k, v) d.
Proof.
  induction d as [|[k' v'] d IH]; simpl; [discriminate|].
  destruct (String.eqb k' k) eqn:E.
  - apply String.eqb_eq in E. intros [= ->]. subst. now left.
  - intros H. right. now apply IH.
Qed.

Lemma Forall_dict_set {V} (P : V -> Prop) (k : string) (v : V) (d : dict V) :
  P v -> Forall (fun kv => P (snd kv)) d ->
  Forall (fun kv => P (snd kv)) (dict_set k v d).
Proof.
  intros Hv. induction d as [|[k' v'] d IH]; intros Hd; simpl.
  - repeat constructor. exact Hv.
  - inversion Hd as [|? ? Hhead Htail]; subst.
    destruct (String.eqb k' k); constructor; auto.
Qed.

(** A property of entries that every step of the extraction keeps holds of
    the entry of a class definition. *)
Lemma fold_left_keeps {X} (P : class_info -> Prop)
  (G : X -> class_info -> class_info) (xs : list X) (info : class_info) :
  (forall x i, P i -> P (G x i)) -> P info ->
  P (fold_left (fun i x => G x i) xs info).
Proof.
  intros HG. revert info.
  induction xs as [|x xs IH]; intros info H; simpl; [assumption|].
  apply IH. now apply HG.
Qed.

Lemma body_effect_keeps (P : class_info -> Prop) (body : list stmt)
  (info : class_info) :
  (forall a ty i, P i -> P (set_attr a ty i)) ->
  (forall m i, P i -> P (add_method m i)) ->
  P info -> P (body_effect unparse body info).
Proof.
  intros Hattr Hmeth. unfold body_effect. apply fold_left_keeps.
  intros item i Hi. unfold item_effect.
  destruct item as [fname fargs fbody fdecorators freturns| | targets value
                   | target ann value |];
    try assumption.
  - unfold method_effect.
    destruct (String.eqb (node_name (FunctionDef fname fargs fbody
                                       fdecorators freturns)) "__init__");
      [|now apply Hmeth].
    unfold init_effect. apply fold_left_keeps; [|assumption].
    intros stmt j Hj. unfold init_stmt_effect.
    destruct stmt; try assumption.
    apply fold_left_keeps; [|assumption].
    intros t0 j' Hj'. unfold init_target_effect.
    destruct t0 as [| receiver attr | | | |]; try assumption.
    destruct receiver; try assumption.
    destruct (String.eqb id "self"); [now apply Hattr|assumption].
  - unfold class_attribute_effect. apply fold_left_keeps; [|assumption].
    intros t0 j Hj. unfold class_attribute_target_effect.
    destruct t0; try assumption. now apply Hattr.
  - unfold annotated_effect.
    destruct target; try assumption. now apply Hattr.
Qed.

Lemma simple_names_flat_map (bases : list expr) :
  flat_map (fun base => match base with Name id => [id] | _ => [] end) bases
  = simple_names bases.
Proof.
  induction bases as [|base bases IH]; simpl; [reflexivity|].
  destruct base; simpl; now rewrite IH.
Qed.

Variable relpath : string -> string -> string.

(** The parents recorded for a class are the bases written as simple
    names, in order; any other base expression is dropped, and nothing in
    the class body changes the list. *)
Theorem parents_are_simple_bases (file_path class_name : string)
  (bases decorator_list : list expr) (body : list stmt) (self : t) :
  exists info,
    dict_get class_name
      (classes_info
         (snd (register_node unparse relpath file_path
                 (ClassDef class_name bases body decorator_list) self)))
    = Some info
    /\ parent_classes info = simple_names bases.
Proof.
  rewrite register_node_run. unfold register_effect.
  cbn [is_ClassDef node_name snd classes_info].
  eexists. split; [apply dict_get_set_same|].
  unfold class_model. cbn [node_body node_bases].
  apply (body_effect_keeps (fun i => parent_classes i = simple_names bases));
    try (intros; assumption).
  apply simple_names_flat_map.
Qed.

(** The initializer is never listed among the methods of a class. *)
Theorem initializer_is_no_method (file_path class_name : string)
  (bases decorator_list : list expr) (body : list stmt) (self : t) :
  ~ In "__init__"
      (method_names_of class_name
         (snd (register_node unparse relpath file_path
                 (ClassDef class_name bases body decorator_list) self))).
Proof.
  rewrite register_node_run. unfold method_names_of, register_effect.
  cbn [snd is_ClassDef node_name classes_info].
  rewrite dict_get_set_same. unfold class_model.
  rewrite methods_body_effect. cbn [methods app node_body].
  rewrite map_map. intros Hin. apply in_map_iff in Hin as (node & Hname & Hin).
  apply filter_In in Hin as [_ Hplain]. unfold is_plain_method in Hplain.
  apply andb_prop in Hplain as [_ Hplain].
  cbn [name method_info_of] in Hname. rewrite Hname in Hplain. discriminate.
Qed.

Variable abspath : string -> string.
Variable parse_file : string -> result module_node.

Lemma registered_keeps (P : class_info -> Prop) (nodes : list stmt)
  (registry : dict class_info) :
  (forall node, P (class_model unparse node)) ->
  Forall (fun kv => P (snd kv)) registry ->
  Forall (fun kv => P (snd kv))
         (fold_left (registered unparse) nodes registry).
Proof.
  intros Hmodel. revert registry.
  induction nodes as [|node nodes IH]; intros registry H; simpl.
  - assumption.
  - apply IH. unfold registered.
    destruct (is_ClassDef node); [|assumption].
    apply Forall_dict_set; [apply Hmodel|assumption].
Qed.

Lemma register_effect_same_keys (file_path : string) (nodes : list stmt)
  (self : t) :
  dict_keys (classes_path self) = dict_keys (classes_info self) ->
  dict_keys (classes_path
               (fold_left (register_effect unparse relpath file_path) nodes
                          self))
  = dict_keys (classes_info
                 (fold_left (register_effect unparse relpath file_path) nodes
                            self)).
Proof.
  revert self. induction nodes as [|node nodes IH]; intros self H; simpl.
  - assumption.
  - apply IH. unfold register_effect.
    destruct (is_ClassDef node); [|assumption].
    cbn [classes_path classes_info]. rewrite !dict_keys_set.
    rewrite !dict_contains_keys, H. reflexivity.
Qed.

Lemma files_effect_same_keys (py_files : list string) (self : t) :
  dict_keys (classes_path self) = dict_keys (classes_info self) ->
  dict_keys (classes_path
               (fold_left (file_effect unparse relpath parse_file) py_files
                          self))
  = dict_keys (classes_info
                 (fold_left (file_effect unparse relpath parse_file) py_files
                            self)).
Proof.
  revert self.
  induction py_files as [|file_path py_files IH]; intros self H; simpl.
  - assumption.
  - apply IH. unfold file_effect. now apply register_effect_same_keys.
Qed.

(** The attribute names of the entry of a class definition are distinct. *)
Lemma class_model_attributes_NoDup (node : stmt) :
  NoDup (dict_keys (attributes (class_model unparse node))).
Proof.
  unfold class_model.
  apply (body_effect_keeps (fun i => NoDup (dict_keys (attributes i)))).
  - intros a ty i Hi. cbn [set_attr attributes]. now apply dict_set_NoDup.
  - intros m i Hi. exact Hi.
  - constructor.
Qed.

End RegistryInvariants.

(** ** Which classes are registered *)

Section Discovery.

Import CodeReadParser Reference Entry.

Variable unparse : expr -> string.

Lemma walk_queue_reaches (fuel : nat) (todo : list stmt) (m : stmt) :
  nodes_count todo <= fuel ->
  In m (walk_queue fuel todo) <-> exists n, In n todo /\ within n m.
Proof.
  revert todo. induction fuel as [|fuel IH]; intros todo H.
  - destruct todo as [|node rest].
    + simpl. split; [contradiction|]. now intros (n & [] & _).
    + unfold nodes_count in H. simpl in H.
      rewrite node_count_children in H. lia.
  - destruct todo as [|node rest].
    + simpl. split; [contradiction|]. now intros (n & [] & _).
    + assert (Hcount : nodes_count (node :: rest)
                       = S (nodes_count (rest ++ iter_child_nodes node))).
      { rewrite nodes_count_app. unfold nodes_count at 1. simpl.
        rewrite node_count_children. unfold nodes_count. lia. }
      cbn [walk_queue]. simpl In. rewrite IH by lia. split.
      * intros [<-|(n & Hn & Hw)].
        -- exists node. split; [now left|constructor].
        -- apply in_app_iff in Hn as [Hn|Hn].
           ++ exists n. split; [now right|assumption].
           ++ exists node. split; [now left|].
              now apply within_child with (child := n).
      * intros (n & [<-|Hn] & Hw).
        -- inversion Hw as [|? child ? Hchild Hinner]; subst.
           ++ now left.
           ++ right. exists child. split; [|assumption].
              apply in_app_iff. now right.
        -- right. exists n. split; [|assumption].
           apply in_app_iff. now left.
Qed.

(** The walk meets exactly the nodes that stand in the module at any
    depth. *)
Lemma walk_reaches (body : list stmt) (m : stmt) :
  In m (walk (Module body)) <-> exists top, In top body /\ within top m.
Proof. unfold walk. now apply walk_queue_reaches. Qed.

Lemma keys_fold_registered (nodes : list stmt) (registry : dict class_info)
  (class_name : string) :
  In class_name (dict_keys (fold_left (registered unparse) nodes registry))
  <-> In class_name (dict_keys registry)
      \/ exists c, In c nodes /\ is_ClassDef c = true
                   /\ node_name c = class_name.
Proof.
  revert registry.
  induction nodes as [|node nodes IH]; intros registry; simpl.
  - split; [now left|]. intros [H|(c & [] & _)]. exact H.
  - rewrite IH. unfold registered at 1. split.
    + intros [H|(c & Hc & Hclass & Hname)].
      * destruct (is_ClassDef node) eqn:E; [|now left].
        apply in_keys_set in H as [H| ->]; [now left|].
        right. exists node. repeat split; [now left|assumption].
      * right. exists c. repeat split; [now right|assumption|assumption].
    + intros [H|(c & [<-|Hc] & Hclass & Hname)].
      * left. destruct (is_ClassDef node); [|assumption].
        apply in_keys_set. now left.
      * left. rewrite Hclass. apply in_keys_set. right. now symmetry.
      * right. now exists c.
Qed.

Variable abspath : string -> string.
Variable relpath : string -> string -> string.
Variable parse_file : string -> result module_node.

(** *** Registering the same nodes again *)

Lemma dict_get_absent {V} (k : string) (d : dict V) :
  ~ In k (dict_keys d) -> dict_get k d = None.
Proof.
  intros H. destruct (dict_get k d) eqn:E; [|reflexivity].
  exfalso. apply H. eapply dict_get_Some_keys. exact E.
Qed.

(** Two dictionaries with the same keys in the same order, each key once,
    and the same value under every key are equal. *)
Lemma dict_ext {V} (d d' : dict V) :
  NoDup (dict_keys d) ->
  dict_keys d = dict_keys d' ->
  (forall k, dict_get k d = dict_get k d') ->
  d = d'.
Proof.
  revert d'. induction d as [|[k v] d IH]; intros d' Hnd Hkeys Hget.
  - destruct d'; [reflexivity|discriminate].
  - destruct d' as [|[k' v'] d']; [discriminate|].
    simpl in Hkeys. injection Hkeys as <- Hkeys.
    inversion Hnd as [|? ? Hnotin Hnd']; subst.
    assert (Hv := Hget k). simpl in Hv. rewrite String.eqb_refl in Hv.
    injection Hv as <-. f_equal. apply IH; try assumption.
    intros k0. destruct (String.eqb k k0) eqn:E.
    + apply String.eqb_eq in E. subst k0.
      rewrite !dict_get_absent; [reflexivity| |assumption].
      unfold dict_keys in *. now rewrite <- Hkeys.
    + specialize (Hget k0). simpl in Hget. now rewrite E in Hget.
Qed.

Lemma keys_fold_registered_present (nodes : list stmt)
  (registry : dict class_info) :
  (forall c, In c nodes -> is_ClassDef c = true ->
             In (node_name c) (dict_keys registry)) ->
  dict_keys (fold_left (registered unparse) nodes registry)
  = dict_keys registry.
Proof.
  revert registry.
  induction nodes as [|node nodes IH]; intros registry H; simpl.
  - reflexivity.
  - assert (Hstep : dict_keys (registered unparse registry node)
                    = dict_keys registry).
    { unfold registered. destruct (is_ClassDef node) eqn:E; [|reflexivity].
      rewrite dict_keys_set.
      assert (Hin : dict_contains (node_name node) registry = true).
      { apply dict_contains_In. apply H; [now left|assumption]. }
      now rewrite Hin. }
    rewrite IH; [assumption|].
    intros c Hc Hclass. rewrite Hstep. apply H; [now right|assumption].
Qed.

(** The entry under a name is the model of the last class definition of
    that name among the nodes. *)
Lemma registered_last (nodes earlier : list stmt) (c : stmt)
  (class_name : string) (registry : dict class_info) :
  classes_named class_name nodes = earlier ++ [c] ->
  dict_get class_name (fold_left (registered unparse) nodes registry)
  = Some (class_model unparse c).
Proof.
  intros Hlast.
  destruct (filter_ends _ _ _ _ Hlast) as (l1 & l3 & -> & Hc & Hl3).
  apply andb_prop in Hc as [Hclass Hname]. apply String.eqb_eq in Hname.
  rewrite fold_left_app. cbn [fold_left].
  rewrite registered_untouched by exact Hl3.
  unfold registered at 1. rewrite Hclass, Hname. apply dict_get_set_same.
Qed.

Lemma registered_twice (nodes : list stmt) (registry : dict class_info) :
  NoDup (dict_keys registry) ->
  fold_left (registered unparse) nodes
    (fold_left (registered unparse) nodes registry)
  = fold_left (registered unparse) nodes registry.
Proof.
  intros Hnd. symmetry. apply dict_ext.
  - now apply registered_NoDup.
  - symmetry. apply keys_fold_registered_present.
    intros c Hc Hclass. apply keys_fold_registered. right. now exists c.
  - intros k.
    destruct (classes_named k nodes) as [|x xs] eqn:E.
    + now rewrite (registered_untouched unparse k nodes
                     (fold_left (registered unparse) nodes registry)).
    + assert (Hne : x :: xs <> []) by discriminate.
      destruct (exists_last Hne) as (earlier & c & Hlast).
      rewrite Hlast in E.
      now rewrite !(registered_last nodes earlier c k).
Qed.

End Discovery.

(** ** The statement that assigns an attribute last sets its label *)

Section LastAssignment.

Import CodeReadParser Reference Entry.

Variable unparse : expr -> string.

Lemma assign_all_app (w1 w2 : list (string * string)) (d : dict string) :
  assign_all (w1 ++ w2) d = assign_all w2 (assign_all w1 d).
Proof. unfold assign_all. apply fold_left_app. Qed.

Lemma assign_all_other (writes : list (string * string)) (k : string)
  (d : dict string) :
  ~ In k (map fst writes) ->
  dict_get k (assign_all writes d) = dict_get k d.
Proof.
  unfold assign_all. revert d.
  induction writes as [|[k' v'] writes IH]; intros d H; simpl.
  - reflexivity.
  - rewrite IH by (intros Hin; apply H; now right).
    apply dict_get_set_other. intros ->. apply H. now left.
Qed.

Lemma attributes_class_attribute_targets (value : expr)
  (targets : list expr) (info : class_info) :
  attributes
    (fold_left (fun i target => class_attribute_target_effect value target i)
               targets info)
  = assign_all (attribute_writes unparse (Assign targets value))
               (attributes info).
Proof.
  cbn [attribute_writes]. revert info.
  induction targets as [|target targets IH]; intros info;
    cbn [fold_left flat_map].
  - reflexivity.
  - rewrite assign_all_app, IH. f_equal. now destruct target.
Qed.

Lemma attributes_item_effect (item : stmt) (info : class_info) :
  attributes (item_effect unparse item info)
  = assign_all (attribute_writes unparse item) (attributes info).
Proof.
  destruct item as [fname fargs fbody fdecorators freturns| | targets value
                   | target ann value |]; cbn [item_effect].
  - unfold method_effect. cbn [node_name attribute_writes].
    destruct (String.eqb fname "__init__"); [|reflexivity].
    rewrite attributes_init_effect. unfold assign_all.
    generalize (init_assigned_names
                  (FunctionDef fname fargs fbody fdecorators freturns))
      as names.
    generalize (attributes info) as d.
    intros d names. revert d.
    induction names as [|a names IH]; intros d; simpl; [reflexivity|].
    apply IH.
  - reflexivity.
  - apply attributes_class_attribute_targets.
  - now destruct target.
  - reflexivity.
Qed.

Lemma attributes_body_effect (body : list stmt) (info : class_info) :
  attributes (body_effect unparse body info)
  = assign_all (flat_map (attribute_writes unparse) body) (attributes info).
Proof.
  unfold body_effect. revert info.
  induction body as [|item body IH]; intros info; simpl.
  - reflexivity.
  - now rewrite assign_all_app, IH, attributes_item_effect.
Qed.

(** The label an attribute ends with is the one of the last assignment to
    it in the class body: if a body item assigns [attr_name] the label
    [label] as its last assignment to that name, and no later item of the
    body assigns the name, the attributes of the class hold [label] under
    [attr_name], whatever kind of statement the item is and whatever stood
    before it. *)
Theorem last_assignment_sets_label (class_name : string) (class_node : stmt)
  (self : t) (info : class_info) (before after : list stmt) (item : stmt)
  (writes_before writes_after : list (string * string))
  (attr_name label : string) :
  dict_get class_name (classes_info self) = Some info ->
  node_body class_node = before ++ item :: after ->
  attribute_writes unparse item
  = writes_before ++ (attr_name, label) :: writes_after ->
  ~ In attr_name (map fst writes_after) ->
  (forall later, In later after ->
                 ~ In attr_name (map fst (attribute_writes unparse later))) ->
  dict_get attr_name
    (attributes_of class_name
       (snd (_extract_class_details unparse class_name class_node self)))
  = Some label.
Proof.
  intros Hreg Hbody Hitem Hafter Hlater.
  rewrite (acts_extract_class_details unparse class_name class_node self info
             Hreg).
  unfold attributes_of. cbn [snd]. rewrite get_with_entry.
  rewrite attributes_body_effect, Hbody, flat_map_app. cbn [flat_map].
  rewrite Hitem, !assign_all_app. cbn [app].
  rewrite assign_all_other.
  - unfold assign_all at 1. cbn [fold_left fst snd].
    match goal with
    | |- dict_get _ (fold_left ?f writes_after ?d) = _ =>
        change (fold_left f writes_after d) with (assign_all writes_after d)
    end.
    rewrite assign_all_other by assumption.
    apply dict_get_set_same.
  - intros Hin. apply in_map_iff in Hin as ([k v] & Hk & Hin).
    apply in_flat_map in Hin as (later & Hlat & Hin). cbn [fst] in Hk. subst k.
    apply (Hlater later Hlat). apply in_map_iff. now exists (attr_name, v).
Qed.

End LastAssignment.

(** [x: int] followed by [x = 'a']: the plain assignment is last. *)
Lemma last_assignment_sets_label_witness :
  dict_get "x"
    (Reference.attributes_of "A"
       (snd (CodeReadParser._extract_class_details Examples.render "A"
               Examples.annotated_then_plain Examples.parser_with_A)))
  = Some "str".
Proof.
  apply (last_assignment_sets_label Examples.render "A"
           Examples.annotated_then_plain Examples.parser_with_A
           (CodeReadParser.mk_class_info [] [] [])
           [AnnAssign (Name "x") (Name "int") None] []
           (Assign [Name "x"] (Constant (CStr "a"))) [] []).
  - reflexivity.
  - reflexivity.
  - reflexivity.
  - intros [].
  - intros later [].
Defined.

(** ** Attribute sources and their order (C1) *)

Section LayeredMerge.

Import CodeReadParser Reference Entry.

Variable unparse : expr -> string.

Lemma last_label_app (attr_name : string) (xs ys : list (string * string)) :
  last_label attr_name (xs ++ ys)
  = match last_label attr_name ys with
    | Some label => Some label
    | None => last_label attr_name xs
    end.
Proof.
  induction xs as [|[k v] xs IH]; simpl.
  - now destruct (last_label attr_name ys).
  - rewrite IH. now destruct (last_label attr_name ys).
Qed.

Lemma last_label_unnamed (attr_name : string) (pairs : list (string * string)) :
  names attr_name pairs = false -> last_label attr_name pairs = None.
Proof.
  unfold names. induction pairs as [|[k v] pairs IH]; simpl; [reflexivity|].
  intros H. apply orb_false_iff in H as [Hk H].
  now rewrite IH, Hk.
Qed.

Lemma last_label_named (attr_name : string) (pairs : list (string * string)) :
  names attr_name pairs = true ->
  exists label, last_label attr_name pairs = Some label.
Proof.
  unfold names. induction pairs as [|[k v] pairs IH]; simpl; [discriminate|].
  intros H. destruct (last_label attr_name pairs) as [label|].
  - now exists label.
  - apply orb_true_iff in H as [Hk|H].
    + rewrite Hk. now exists v.
    + destruct (IH H) as [label Hlabel]. discriminate.
Qed.

(** In a dictionary written pair by pair, a name has the label of the
    last pair that names it. *)
Lemma dict_get_assign_all (attr_name : string)
  (writes : list (string * string)) (d : dict string) :
  dict_get attr_name (assign_all writes d)
  = match last_label attr_name writes with
    | Some label => Some label
    | None => dict_get attr_name d
    end.
Proof.
  unfold assign_all. revert d.
  induction writes as [|[k v] writes IH]; intros d; simpl; [reflexivity|].
  rewrite IH. destruct (last_label attr_name writes); [reflexivity|].
  destruct (String.eqb k attr_name) eqn:E.
  - apply String.eqb_eq in E. subst. apply dict_get_set_same.
  - apply String.eqb_neq in E. now apply dict_get_set_other.
Qed.

Lemma last_label_flat_map {X} (attr_name : string)
  (f g : X -> list (string * string)) (xs : list X) :
  (forall x, In x xs ->
             last_label attr_name (f x) = last_label attr_name (g x)) ->
  last_label attr_name (flat_map f xs) = last_label attr_name (flat_map g xs).
Proof.
  induction xs as [|x xs IH]; intros H; [reflexivity|].
  cbn [flat_map]. rewrite !last_label_app.
  rewrite IH by (intros y Hy; apply H; now right).
  now rewrite (H x (or_introl eq_refl)).
Qed.

(** Without an annotated assignment to [self.attr_name], the scan of the
    initializer gives the name the label the third source gives it. *)
Lemma initializer_statements_label (attr_name : string)
  (statements : list stmt) :
  forallb (unannotated attr_name) statements = true ->
  last_label attr_name
    (map (fun attr => (attr, "Any"))
       (flat_map
          (fun stmt =>
             match stmt with
             | Assign targets _ =>
                 flat_map
                   (fun target =>
                      match target with
                      | Attribute (Name id) attr =>
                          if String.eqb id "self" then [attr] else []
                      | _ => []
                      end)
                   targets
             | _ => []
             end)
          statements))
  = last_label attr_name
      (flat_map (initializer_statement_pairs unparse) statements).
Proof.
  induction statements as [|statement statements IH]; [reflexivity|].
  cbn [forallb flat_map]. intros H. apply andb_prop in H as [Hhead Htail].
  rewrite map_app, !last_label_app, IH by assumption.
  destruct (last_label attr_name
              (flat_map (initializer_statement_pairs unparse) statements));
    [reflexivity|].
  destruct statement as [| |targets value|target ann value|];
    try reflexivity.
  - f_equal. cbn [initializer_statement_pairs]. clear.
    induction targets as [|target targets IHt]; [reflexivity|].
    cbn [flat_map]. rewrite map_app, IHt. f_equal.
    destruct target as [|receiver attr| | | |]; try reflexivity.
    destruct receiver; try reflexivity.
    cbn [receiver_attribute]. now destruct (String.eqb id "self").
  - cbn [initializer_statement_pairs unannotated map last_label] in *.
    destruct (receiver_attribute target) as [attr|]; [|reflexivity].
    cbn [last_label]. apply negb_true_iff in Hhead. now rewrite Hhead.
Qed.

(** What a body item writes under a name, by source. *)
Lemma writes_by_source (body_item : stmt) (attr_name : string) :
  initializer_unannotated [body_item] attr_name = true ->
  last_label attr_name (attribute_writes unparse body_item)
  = last_label attr_name
      (plain_pairs body_item ++ annotated_pairs unparse body_item
       ++ initializer_pairs unparse body_item).
Proof.
  unfold initializer_unannotated. cbn [forallb]. rewrite andb_true_r.
  destruct body_item as [fname fargs fbody fdecorators freturns| |targets value
                        |target ann value|]; try reflexivity.
  - cbn [attribute_writes plain_pairs annotated_pairs initializer_pairs app].
    destruct (String.eqb fname "__init__"); [|reflexivity].
    cbn [negb orb]. intros H. unfold init_assigned_names. cbn [node_body].
    now apply initializer_statements_label.
  - intros _. cbn [attribute_writes plain_pairs annotated_pairs
                   initializer_pairs]. now rewrite !app_nil_r.
  - intros _. cbn [attribute_writes plain_pairs annotated_pairs
                   initializer_pairs app]. now rewrite app_nil_r.
Qed.

Lemma writes_by_source_body (body : list stmt) (attr_name : string) :
  initializer_unannotated body attr_name = true ->
  last_label attr_name (flat_map (attribute_writes unparse) body)
  = last_label attr_name
      (flat_map
         (fun body_item =>
            plain_pairs body_item ++ annotated_pairs unparse body_item
            ++ initializer_pairs unparse body_item)
         body).
Proof.
  intros H. apply last_label_flat_map. intros body_item Hin.
  apply writes_by_source. unfold initializer_unannotated in *.
  cbn [forallb]. rewrite andb_true_r.
  rewrite forallb_forall in H. now apply H.
Qed.

(** A body item writes through one source only. *)
Lemma source_of_named (body_item : stmt) (attr_name : string)
  (source : nat) :
  names attr_name (pairs_of unparse source body_item) = true ->
  source_of unparse body_item attr_name = Some source.
Proof.
  unfold source_of.
  destruct source as [|[|[|source]]]; cbn [pairs_of];
    destruct body_item as [fname fargs fbody fdecorators freturns| |targets
                             value|target ann value|];
    try discriminate; intros H;
    cbn [plain_pairs annotated_pairs initializer_pairs names existsb] in *;
    rewrite ?H; reflexivity.
Qed.

Lemma source_of_pairs (body_item : stmt) (attr_name : string)
  (source : nat) :
  source_of unparse body_item attr_name = Some source ->
  names attr_name (pairs_of unparse source body_item) = true.
Proof.
  unfold source_of.
  destruct (names attr_name (plain_pairs body_item)) eqn:E0;
    [now intros [= <-]|].
  destruct (names attr_name (annotated_pairs unparse body_item)) eqn:E1;
    [now intros [= <-]|].
  destruct (names attr_name (initializer_pairs unparse body_item)) eqn:E2;
    [now intros [= <-]|discriminate].
Qed.

(** A source above every source that assigns the name does not name it. *)
Lemma source_above_unnamed (body : list stmt) (attr_name : string)
  (top source : nat) :
  (forall s, In s (assigning_sources unparse body attr_name) -> s <= top) ->
  top < source ->
  last_label attr_name (flat_map (pairs_of unparse source) body) = None.
Proof.
  intros Hbelow Habove.
  induction body as [|body_item body IH]; [reflexivity|].
  cbn [flat_map]. rewrite last_label_app, IH.
  - apply last_label_unnamed.
    destruct (names attr_name (pairs_of unparse source body_item)) eqn:E;
      [|reflexivity].
    apply source_of_named in E.
    assert (Hs : source <= top).
    { apply Hbelow. unfold assigning_sources. cbn [flat_map].
      rewrite E. now left. }
    lia.
  - intros s Hs. apply Hbelow. unfold assigning_sources. cbn [flat_map].
    apply in_app_iff. now right.
Qed.

(** The label of the layered merge, source by source. *)
Lemma layered_label_sources (body : list stmt) (attr_name : string) :
  layered_label unparse body attr_name
  = match last_label attr_name (flat_map (pairs_of unparse 2) body) with
    | Some label => Some label
    | None =>
        match last_label attr_name (flat_map (pairs_of unparse 1) body) with
        | Some label => Some label
        | None => last_label attr_name (flat_map (pairs_of unparse 0) body)
        end
    end.
Proof.
  unfold layered_label, plain_source, annotated_source, initializer_source.
  rewrite !last_label_app.
  change (pairs_of unparse 2) with (initializer_pairs unparse).
  change (pairs_of unparse 1) with (annotated_pairs unparse).
  change (pairs_of unparse 0) with plain_pairs.
  now destruct (last_label attr_name
                  (flat_map (initializer_pairs unparse) body)).
Qed.

Lemma last_label_item (body_item : stmt) (attr_name : string) :
  last_label attr_name
    (plain_pairs body_item ++ annotated_pairs unparse body_item
     ++ initializer_pairs unparse body_item)
  = match source_of unparse body_item attr_name with
    | Some source =>
        last_label attr_name (pairs_of unparse source body_item)
    | None => None
    end.
Proof.
  rewrite !last_label_app. unfold source_of.
  destruct (names attr_name (plain_pairs body_item)) eqn:E0.
  - apply (source_of_named body_item attr_name 0) in E0 as Hsource.
    assert (H1 : names attr_name (annotated_pairs unparse body_item) = false).
    { destruct (names _ (annotated_pairs _ _)) eqn:E; [|reflexivity].
      apply (source_of_named body_item attr_name 1) in E. congruence. }
    assert (H2 : names attr_name (initializer_pairs unparse body_item)
                 = false).
    { destruct (names _ (initializer_pairs _ _)) eqn:E; [|reflexivity].
      apply (source_of_named body_item attr_name 2) in E. congruence. }
    now rewrite (last_label_unnamed _ _ H1), (last_label_unnamed _ _ H2).
  - rewrite (last_label_unnamed _ _ E0).
    destruct (names attr_name (annotated_pairs unparse body_item)) eqn:E1.
    + assert (H2 : names attr_name (initializer_pairs unparse body_item)
                   = false).
      { destruct (names _ (initializer_pairs _ _)) eqn:E; [|reflexivity].
        apply (source_of_named body_item attr_name 1) in E1.
        apply (source_of_named body_item attr_name 2) in E. congruence. }
      rewrite (last_label_unnamed _ _ H2). cbn [pairs_of].
      now destruct (last_label attr_name (annotated_pairs unparse body_item)).
    + rewrite (last_label_unnamed _ _ E1).
      destruct (names attr_name (initializer_pairs unparse body_item)) eqn:E2.
      * cbn [pairs_of].
        now destruct (last_label attr_name
                        (initializer_pairs unparse body_item)).
      * now rewrite (last_label_unnamed _ _ E2).
Qed.

(** The one pass in body order against the three passes in source
    order. *)
Lemma one_pass_label (body : list stmt) (attr_name : string) :
  top_source_last unparse body attr_name = true ->
  last_label attr_name
    (flat_map
       (fun body_item =>
          plain_pairs body_item ++ annotated_pairs unparse body_item
          ++ initializer_pairs unparse body_item)
       body)
  = layered_label unparse body attr_name.
Proof.
  unfold top_source_last.
  induction body as [|body_item body IH] using rev_ind; [reflexivity|].
  rewrite layered_label_sources, !flat_map_app. cbn [flat_map].
  rewrite !app_nil_r, !(last_label_app attr_name (flat_map _ body)).
  rewrite last_label_item.
  unfold assigning_sources. rewrite flat_map_app. cbn [flat_map].
  rewrite app_nil_r.
  fold (assigning_sources unparse body attr_name).
  destruct (source_of unparse body_item attr_name) as [source|] eqn:Es.
  - rewrite last_last. intros H. rewrite forallb_app in H.
    apply andb_prop in H as [Hbelow _].
    rewrite forallb_forall in Hbelow.
    assert (Hle : forall s,
               In s (assigning_sources unparse body attr_name) ->
               s <= source).
    { intros s Hs. apply Nat.leb_le. now apply Hbelow. }
    apply source_of_pairs in Es as Hnamed.
    destruct (last_label_named _ _ Hnamed) as [label Hlabel].
    rewrite Hlabel.
    assert (Hother : forall s,
               s <> source ->
               last_label attr_name (pairs_of unparse s body_item) = None).
    { intros s Hs. apply last_label_unnamed.
      destruct (names attr_name (pairs_of unparse s body_item)) eqn:E;
        [|reflexivity].
      apply source_of_named in E. congruence. }
    destruct source as [|[|[|source]]].
    + rewrite (Hother 2), (Hother 1) by discriminate.
      rewrite (source_above_unnamed body attr_name 0 2),
              (source_above_unnamed body attr_name 0 1) by (assumption || lia).
      now rewrite Hlabel.
    + rewrite (Hother 2) by discriminate.
      rewrite (source_above_unnamed body attr_name 1 2)
        by (assumption || lia).
      now rewrite Hlabel.
    + now rewrite Hlabel.
    + cbn [pairs_of] in Hnamed. discriminate.
  - rewrite app_nil_r. intros H.
    assert (Hother : forall s,
               last_label attr_name (pairs_of unparse s body_item) = None).
    { intros s. apply last_label_unnamed.
      destruct (names attr_name (pairs_of unparse s body_item)) eqn:E;
        [|reflexivity].
      apply source_of_named in E. congruence. }
    rewrite !Hother, IH by assumption.
    now rewrite layered_label_sources.
Qed.


End LayeredMerge.



(** ** Finding the files and running the parser *)

Section FindingFiles.

Import CodeReadParser Reference Entry.

Variable os_walk : string -> list (string * list string * list string).
Variable path_join : string -> string -> string.

Lemma collect_files (root : string) (files acc : list string) :
  fold_left
    (fun py_files file =>
       if endswith file ".py" then py_files ++ [path_join root file]
       else py_files)
    files acc
  = acc ++ map (path_join root)
             (filter (fun file => endswith file ".py") files).
Proof.
  revert acc. induction files as [|file files IH]; intros acc; simpl.
  - now rewrite app_nil_r.
  - rewrite IH. destruct (endswith file ".py"); simpl.
    + now rewrite <- app_assoc.
    + reflexivity.
Qed.

Lemma collect_triples
  (triples : list (string * list string * list string)) (acc : list string) :
  fold_left
    (fun py_files triple =>
       fold_left
         (fun py_files file =>
            if endswith file ".py"
            then py_files ++ [path_join (fst (fst triple)) file]
            else py_files)
         (snd triple) py_files)
    triples acc
  = acc ++ flat_map
             (fun triple =>
                map (path_join (fst (fst triple)))
                    (filter (fun file => endswith file ".py") (snd triple)))
             triples.
Proof.
  revert acc. induction triples as [|triple triples IH]; intros acc; simpl.
  - now rewrite app_nil_r.
  - now rewrite IH, collect_files, <- app_assoc.
Qed.

Lemma in_collected (triples : list (string * list string * list string))
  (p : string) :
  In p (flat_map
          (fun triple =>
             map (path_join (fst (fst triple)))
                 (filter (fun file => endswith file ".py") (snd triple)))
          triples)
  <-> exists root dirs files file,
        In (root, dirs, files) triples /\ In file files
        /\ endswith file ".py" = true /\ p = path_join root file.
Proof.
  rewrite in_flat_map. split.
  - intros ([[root dirs] files] & Htriple & Hp). cbn [fst snd] in Hp.
    apply in_map_iff in Hp as (file & <- & Hfile).
    apply filter_In in Hfile as [Hfile Hpy].
    now exists root, dirs, files, file.
  - intros (root & dirs & files & file & Htriple & Hfile & Hpy & ->).
    exists (root, dirs, files). split; [assumption|]. cbn [fst snd].
    apply in_map. apply filter_In. now split.
Qed.

Lemma get_py_files_run (self : t) :
  _get_py_files os_walk path_join self
  = match flat_map
            (fun triple =>
               map (path_join (fst (fst triple)))
                   (filter (fun file => endswith file ".py") (snd triple)))
            (os_walk (project_path self)) with
    | [] => Raise (IndexError "No python files found")
    | found => Ok found
    end.
Proof.
  unfold _get_py_files. rewrite collect_triples. cbn [app].
  now destruct (flat_map _ (os_walk (project_path self))).
Qed.

Lemma get_py_files_none (self : t) :
  (forall root dirs files file,
     In (root, dirs, files) (os_walk (project_path self)) ->
     In file files -> endswith file ".py" = false) ->
  _get_py_files os_walk path_join self
  = Raise (IndexError "No python files found").
Proof.
  intros Hnone. rewrite get_py_files_run.
  destruct (flat_map _ (os_walk (project_path self))) as [|p0 ps] eqn:E;
    [reflexivity|].
  assert (Hin : In p0 (p0 :: ps)) by now left.
  rewrite <- E in Hin.
  apply in_collected in Hin as (root & dirs & files & file & Ht & Hf
                                & Hpy & _).
  rewrite (Hnone root dirs files file Ht Hf) in Hpy. discriminate.
Qed.

Lemma get_py_files_not_empty (self : t) :
  _get_py_files os_walk path_join self <> Ok [].
Proof.
  rewrite get_py_files_run.
  now destruct (flat_map _ (os_walk (project_path self))).
Qed.

(** [_get_py_files] never returns an empty list, and what it returns are
    the joined paths of exactly the listed files whose name ends in
    [.py]. *)
Theorem get_py_files_lists_python_files (self : t) (py_files : list string) :
  _get_py_files os_walk path_join self = Ok py_files ->
  py_files <> []
  /\ forall p,
       In p py_files
       <-> exists root dirs files file,
             In (root, dirs, files) (os_walk (project_path self))
             /\ In file files /\ endswith file ".py" = true
             /\ p = path_join root file.
Proof.
  rewrite get_py_files_run.
  destruct (flat_map _ (os_walk (project_path self))) as [|p0 ps] eqn:E;
    [discriminate|].
  intros [= <-]. split; [discriminate|].
  intros p. rewrite <- E. apply in_collected.
Qed.

(** [_get_py_files] raises [IndexError] exactly when no listed file has a
    name that ends in [.py] (also when the directory cannot be listed). *)
Theorem get_py_files_raises_iff_none (self : t) :
  _get_py_files os_walk path_join self
  = Raise (IndexError "No python files found")
  <-> forall root dirs files file,
        In (root, dirs, files) (os_walk (project_path self)) ->
        In file files -> endswith file ".py" = false.
Proof.
  split; [|apply get_py_files_none].
  rewrite get_py_files_run.
  destruct (flat_map _ (os_walk (project_path self))) as [|p0 ps] eqn:E;
    [|discriminate].
  intros _ root dirs files file Htriple Hfile.
  destruct (endswith file ".py") eqn:Hpy; [|reflexivity].
  assert (Hin : In (path_join root file) []).
  { rewrite <- E. apply in_collected. now exists root, dirs, files, file. }
  destruct Hin.
Qed.

Variable codec_installed : string -> bool.
Variable open_error : string -> option exn.
Variable decodes : string -> string -> bool.
Variable unparse : expr -> string.
Variable abspath : string -> string.
Variable relpath : string -> string -> string.
Variable parse_file : string -> result module_node.

(** The encoding [_get_encoding] selects for a file that can be read. *)
Lemma get_encoding_run (file_path : string) (self : t) :
  open_error file_path = None ->
  _get_encoding open_error decodes file_path self
  = (Ok tt,
     {| project_path := project_path self;
        classes_path := classes_path self;
        VALID_ENCODING :=
          if decodes file_path "utf-8" then "utf-8"
          else if decodes file_path "gbk" then "gbk"
          else "latin-1";
        classes_info := classes_info self |}).
Proof.
  intros Hopen. unfold _get_encoding. cbn [try_encodings].
  unfold read_with. rewrite Hopen. cbn [String.eqb Ascii.eqb Bool.eqb].
  destruct (decodes file_path "utf-8"); [reflexivity|].
  destruct (decodes file_path "gbk"); reflexivity.
Qed.

(** Whatever its outcome, [_get_encoding] changes nothing but the
    encoding. *)
Lemma get_encoding_keeps_registry (file_path : string) (self : t) :
  classes_info (snd (_get_encoding open_error decodes file_path self))
  = classes_info self
  /\ classes_path (snd (_get_encoding open_error decodes file_path self))
     = classes_path self.
Proof.
  unfold _get_encoding. cbn [try_encodings]. unfold read_with.
  destruct (open_error file_path); [now split|].
  cbn [String.eqb Ascii.eqb Bool.eqb].
  destruct (decodes file_path "utf-8"); [now split|].
  destruct (decodes file_path "gbk"); now split.
Qed.

(** In a project without a file named [*.py], [__call__] raises
    [IndexError("No python files found")] and leaves the parser as it was:
    no encoding is selected and nothing is parsed. *)
Theorem call_without_python_files (self : t) :
  (forall root dirs files file,
     In (root, dirs, files) (os_walk (project_path self)) ->
     In file files -> endswith file ".py" = false) ->
  __call__ codec_installed os_walk path_join open_error decodes unparse
    relpath parse_file self
  = (Raise (IndexError "No python files found"), self).
Proof.
  intros Hnone. apply get_py_files_none in Hnone.
  unfold __call__, bind, get, lift. now rewrite Hnone.
Qed.

Lemma register_effect_keeps_encoding (file_path : string)
  (nodes : list stmt) (self : t) :
  VALID_ENCODING
    (fold_left (register_effect unparse relpath file_path) nodes self)
  = VALID_ENCODING self
  /\ project_path
       (fold_left (register_effect unparse relpath file_path) nodes self)
     = project_path self.
Proof.
  revert self. induction nodes as [|node nodes IH]; intros self;
    [now split|].
  cbn [fold_left]. destruct (IH (register_effect unparse relpath file_path
                                   self node)) as [-> ->].
  unfold register_effect. now destruct (is_ClassDef node).
Qed.

Lemma files_effect_keeps_encoding (py_files : list string) (self : t) :
  VALID_ENCODING
    (fold_left (file_effect unparse relpath parse_file) py_files self)
  = VALID_ENCODING self
  /\ project_path
       (fold_left (file_effect unparse relpath parse_file) py_files self)
     = project_path self.
Proof.
  revert self. induction py_files as [|u py_files IH]; intros self;
    [now split|].
  cbn [fold_left].
  destruct (IH (file_effect unparse relpath parse_file self u)) as [-> ->].
  apply register_effect_keeps_encoding.
Qed.

(** The registry after the files: the class definitions of all files that
    parse, in file order and walk order, each assigned under its name. *)
Lemma classes_info_files_effect (py_files : list string) (self : t) :
  classes_info
    (fold_left (file_effect unparse relpath parse_file) py_files self)
  = fold_left (registered unparse)
      (flat_map (nodes_of_file parse_file) py_files) (classes_info self).
Proof.
  revert self.
  induction py_files as [|file_path py_files IH]; intros self; simpl.
  - reflexivity.
  - rewrite fold_left_app, IH. f_equal.
    unfold file_effect. apply classes_info_register_effect.
Qed.

(** One round of the loop of [_parse_all_files]: an error of [open] leaves
    the parser as it is; a file that opens is registered when it parses and
    skipped when it does not. *)
Lemma parse_file_step (file_path : string) (self : t) :
  (open_for_reading codec_installed open_error file_path ;;
   try_except
     (tree <- lift (parse_file file_path) ;;
      _register_classes unparse relpath file_path tree)
     (fun e => ret tt)) self
  = match open_error file_path with
    | Some e => (Raise e, self)
    | None =>
        if known_encoding codec_installed (VALID_ENCODING self) then
          (Ok tt, file_effect unparse relpath parse_file self file_path)
        else
          (Raise (LookupError ("unknown encoding: " ++ VALID_ENCODING self)),
           self)
    end.
Proof.
  unfold open_for_reading, bind at 1, bind at 1, get, raise, ret.
  destruct (open_error file_path) as [e|]; [reflexivity|].
  destruct (known_encoding codec_installed (VALID_ENCODING self));
    [|reflexivity].
  unfold try_except, bind, lift, file_effect, nodes_of_file.
  destruct (parse_file file_path) as [tree|e].
  - now rewrite register_classes_run.
  - reflexivity.
Qed.

(** Under an encoding whose codec is found, and while every file opens,
    the loop raises nothing. *)
Lemma parse_all_files_run (py_files : list string) (self : t) :
  known_encoding codec_installed (VALID_ENCODING self) = true ->
  (forall u, In u py_files -> open_error u = None) ->
  _parse_all_files codec_installed open_error unparse relpath parse_file
    py_files self
  = (Ok tt, fold_left (file_effect unparse relpath parse_file) py_files self).
Proof.
  unfold _parse_all_files. revert self.
  induction py_files as [|u py_files IH]; intros self Hknown Hopen;
    [reflexivity|].
  cbn [for_each fold_left]. unfold bind at 1. rewrite parse_file_step.
  rewrite (Hopen u (or_introl eq_refl)), Hknown.
  apply IH.
  - unfold file_effect.
    now rewrite (proj1 (register_effect_keeps_encoding _ _ _)).
  - intros v Hv. apply Hopen. now right.
Qed.

(** The first file that does not open ends the loop. *)
Lemma parse_all_files_stops (before after : list string) (bad : string)
  (e : exn) (self : t) :
  known_encoding codec_installed (VALID_ENCODING self) = true ->
  (forall u, In u before -> open_error u = None) ->
  open_error bad = Some e ->
  _parse_all_files codec_installed open_error unparse relpath parse_file
    (before ++ bad :: after) self
  = (Raise e,
     fold_left (file_effect unparse relpath parse_file) before self).
Proof.
  unfold _parse_all_files. revert self.
  induction before as [|u before IH]; intros self Hknown Hopen Hbad.
  - cbn [app for_each fold_left]. unfold bind at 1.
    rewrite parse_file_step. now rewrite Hbad.
  - cbn [app for_each fold_left]. unfold bind at 1. rewrite parse_file_step.
    rewrite (Hopen u (or_introl eq_refl)), Hknown.
    apply IH; [|intros v Hv; apply Hopen; now right|assumption].
    unfold file_effect.
    now rewrite (proj1 (register_effect_keeps_encoding _ _ _)).
Qed.

(** Whatever the outcome of the loop, the parser it leaves is the one
    reached by registering the files of a prefix of the list. *)
Lemma parse_all_files_prefix (py_files : list string) (self : t) :
  exists done rest,
    py_files = done ++ rest
    /\ snd (_parse_all_files codec_installed open_error unparse relpath
              parse_file py_files self)
       = fold_left (file_effect unparse relpath parse_file) done self.
Proof.
  unfold _parse_all_files. revert self.
  induction py_files as [|u py_files IH]; intros self.
  - now exists [], [].
  - cbn [for_each]. unfold bind at 1. rewrite parse_file_step.
    destruct (open_error u) as [e|]; [now exists [], (u :: py_files)|].
    destruct (known_encoding codec_installed (VALID_ENCODING self));
      [|now exists [], (u :: py_files)].
    destruct (IH (file_effect unparse relpath parse_file self u))
      as (done & rest & -> & Hstate).
    exists (u :: done), rest. split; [reflexivity|exact Hstate].
Qed.

(** With the encoding of the parser naming a codec and every file opening,
    the pass over the files raises nothing, and the registry it leaves is
    the one obtained by assigning, in file order and walk order, every
    class definition of the files that parse under its name; a file that
    does not parse contributes nothing. *)
Theorem parse_all_files_skips_failures (py_files : list string) (self : t) :
  known_encoding codec_installed (VALID_ENCODING self) = true ->
  (forall u, In u py_files -> open_error u = None) ->
  let outcome :=
    _parse_all_files codec_installed open_error unparse relpath parse_file
      py_files self in
  fst outcome = Ok tt
  /\ classes_info (snd outcome)
     = fold_left (registered unparse)
         (flat_map (nodes_of_file parse_file) py_files) (classes_info self).
Proof.
  intros Hknown Hopen outcome. subst outcome.
  rewrite parse_all_files_run by assumption. cbn [fst snd].
  split; [reflexivity|apply classes_info_files_effect].
Qed.

(** On a parser as the constructor leaves it, with no encoding selected,
    [_parse_all_files] raises [LookupError] at the first file (which
    opens) and registers nothing: the method depends on [_get_encoding]
    having run. *)
Theorem parse_all_files_needs_encoding (project_path first : string)
  (others : list string) :
  open_error first = None ->
  _parse_all_files codec_installed open_error unparse relpath parse_file
    (first :: others) (__init__ abspath project_path)
  = (Raise (LookupError "unknown encoding: "),
     __init__ abspath project_path).
Proof.
  intros Hopen. unfold _parse_all_files. cbn [for_each].
  unfold bind at 1. rewrite parse_file_step. now rewrite Hopen.
Qed.

(** [__call__] when files are found and every one of them opens. *)
Lemma call_run (self : t) (py_files : list string) :
  _get_py_files os_walk path_join self = Ok py_files ->
  (forall u, In u py_files -> open_error u = None) ->
  __call__ codec_installed os_walk path_join open_error decodes unparse
    relpath parse_file self
  = (Ok tt,
     fold_left (file_effect unparse relpath parse_file) py_files
       {| project_path := project_path self;
          classes_path := classes_path self;
          VALID_ENCODING :=
            if decodes (hd "" py_files) "utf-8" then "utf-8"
            else if decodes (hd "" py_files) "gbk" then "gbk"
            else "latin-1";
          classes_info := classes_info self |}).
Proof.
  intros Hfiles Hopen.
  destruct py_files as [|first others].
  { now apply get_py_files_not_empty in Hfiles. }
  unfold __call__, bind, get, lift. rewrite Hfiles. cbn [first_file hd].
  rewrite get_encoding_run by (apply Hopen; now left).
  apply parse_all_files_run; [|assumption].
  cbn [VALID_ENCODING].
  destruct (decodes first "utf-8"); [reflexivity|].
  destruct (decodes first "gbk"); reflexivity.
Qed.

(** The registry that call leaves. *)
Lemma classes_info_call (self : t) (py_files : list string) :
  _get_py_files os_walk path_join self = Ok py_files ->
  (forall u, In u py_files -> open_error u = None) ->
  classes_info
    (snd (__call__ codec_installed os_walk path_join open_error decodes
            unparse relpath parse_file self))
  = fold_left (registered unparse)
      (flat_map (nodes_of_file parse_file) py_files) (classes_info self).
Proof.
  intros Hfiles Hopen. rewrite (call_run self py_files) by assumption.
  cbn [snd]. now rewrite classes_info_files_effect.
Qed.

(** Whatever the outcome of [__call__], the parser it leaves is reached by
    registering some of the files, from a parser with the registry and the
    origin index of the start. *)
Lemma call_reaches (self : t) :
  exists done start,
    classes_info start = classes_info self
    /\ classes_path start = classes_path self
    /\ snd (__call__ codec_installed os_walk path_join open_error decodes
              unparse relpath parse_file self)
       = fold_left (file_effect unparse relpath parse_file) done start.
Proof.
  unfold __call__, bind, get, lift.
  destruct (_get_py_files os_walk path_join self) as [py_files|e];
    [|now exists [], self].
  destruct (first_file py_files) as [first|e]; [|now exists [], self].
  destruct (get_encoding_keeps_registry first self) as [Hinfo Hpath].
  destruct (_get_encoding open_error decodes first self) as [[[]|e] start];
    cbn [snd] in *; [|now exists [], start].
  destruct (parse_all_files_prefix py_files start)
    as (done & rest & _ & Hstate).
  now exists done, start.
Qed.

(** When every file found can be opened, [__call__] raises nothing: it
    selects the first of UTF-8, GBK and Latin-1 that decodes the first
    file found (Latin-1 when neither of the others does; no other file is
    looked at for the encoding) and registers the class definitions of all
    files found that parse. *)
Theorem call_registers_classes (self : t) (py_files : list string) :
  _get_py_files os_walk path_join self = Ok py_files ->
  (forall u, In u py_files -> open_error u = None) ->
  let outcome :=
    __call__ codec_installed os_walk path_join open_error decodes unparse
      relpath parse_file self in
  fst outcome = Ok tt
  /\ VALID_ENCODING (snd outcome)
     = (if decodes (hd "" py_files) "utf-8" then "utf-8"
        else if decodes (hd "" py_files) "gbk" then "gbk"
        else "latin-1")
  /\ classes_info (snd outcome)
     = fold_left (registered unparse)
         (flat_map (nodes_of_file parse_file) py_files)
         (classes_info self).
Proof.
  intros Hfiles Hopen outcome. subst outcome.
  rewrite (call_run self py_files) by assumption.
  cbn [fst snd]. split; [reflexivity|]. split.
  - now rewrite (proj1 (files_effect_keeps_encoding _ _)).
  - now rewrite classes_info_files_effect.
Qed.

(** A file that cannot be opened ends the run with the error of [open]:
    the files found before it have been registered, the files after it
    are not looked at.  (A file that opens and does not parse is only
    skipped.) *)
Theorem call_stops_at_unopenable_file (self : t)
  (before after : list string) (bad : string) (e : exn) :
  _get_py_files os_walk path_join self = Ok (before ++ bad :: after) ->
  (forall u, In u before -> open_error u = None) ->
  open_error bad = Some e ->
  let outcome :=
    __call__ codec_installed os_walk path_join open_error decodes unparse
      relpath parse_file self in
  fst outcome = Raise e
  /\ classes_info (snd outcome)
     = fold_left (registered unparse)
         (flat_map (nodes_of_file parse_file) before) (classes_info self).
Proof.
  intros Hfiles Hopen Hbad outcome. subst outcome.
  unfold __call__, bind, get, lift. rewrite Hfiles.
  destruct before as [|first others].
  - cbn [app first_file]. unfold _get_encoding. cbn [try_encodings].
    unfold read_with. rewrite Hbad. split; reflexivity.
  - cbn [app first_file].
    rewrite get_encoding_run by (apply Hopen; now left).
    change (first :: others ++ bad :: after)
      with ((first :: others) ++ bad :: after).
    rewrite (parse_all_files_stops (first :: others) after bad e);
      try assumption.
    + cbn [fst snd]. split; [reflexivity|].
      now rewrite classes_info_files_effect.
    + cbn [VALID_ENCODING].
      destruct (decodes first "utf-8"); [reflexivity|].
      destruct (decodes first "gbk"); reflexivity.
Qed.


(** After the parser has been called on a new parser object, whatever the
    outcome of the call (also when it raised half way): no class name is
    registered twice, every registered class has its origin file recorded
    (the two dictionaries have the same keys in the same order), and the
    attribute names of every class are distinct. *)
Theorem registry_invariants (project_path : string) :
  let self :=
    snd (__call__ codec_installed os_walk path_join open_error decodes
           unparse relpath parse_file (__init__ abspath project_path)) in
  NoDup (dict_keys (classes_info self))
  /\ dict_keys (classes_path self) = dict_keys (classes_info self)
  /\ forall class_name info,
       dict_get class_name (classes_info self) = Some info ->
       NoDup (dict_keys (attributes info)).
Proof.
  intros self. subst self.
  destruct (call_reaches (__init__ abspath project_path))
    as (done & start & Hinfo & Hpath & ->).
  cbn [__init__ classes_info classes_path] in Hinfo, Hpath.
  split; [|split].
  - rewrite classes_info_files_effect, Hinfo.
    apply registered_NoDup. constructor.
  - apply files_effect_same_keys. now rewrite Hinfo, Hpath.
  - intros class_name info Hget. apply dict_get_In in Hget.
    rewrite classes_info_files_effect, Hinfo in Hget.
    assert (Hall :
      Forall (fun kv => NoDup (dict_keys (attributes (snd kv))))
        (fold_left (registered unparse)
           (flat_map (nodes_of_file parse_file) done) [])).
    { apply (registered_keeps unparse
               (fun i => NoDup (dict_keys (attributes i)))); [|constructor].
      apply class_model_attributes_NoDup. }
    rewrite Forall_forall in Hall. exact (Hall _ Hget).
Qed.

(** After the parser has been called on a new parser object in a project
    whose files all open, a name is a key of the registry exactly when one
    of the files found that parse holds a class definition of that name,
    at the top level or at any depth below it (in a function, in another
    class, in a branch). *)
Theorem class_registered_iff (project_path : string)
  (py_files : list string) (class_name : string) :
  _get_py_files os_walk path_join (__init__ abspath project_path)
  = Ok py_files ->
  (forall u, In u py_files -> open_error u = None) ->
  dict_contains class_name
    (classes_info
       (snd (__call__ codec_installed os_walk path_join open_error decodes
               unparse relpath parse_file (__init__ abspath project_path))))
  = true
  <-> exists file_path body top c,
        In file_path py_files
        /\ parse_file file_path = Ok (Module body)
        /\ In top body /\ within top c
        /\ is_ClassDef c = true /\ node_name c = class_name.
Proof.
  intros Hfiles Hopen.
  rewrite dict_contains_In, (classes_info_call _ _ Hfiles Hopen).
  rewrite keys_fold_registered. cbn [__init__ classes_info dict_keys map].
  split.
  - intros [[]|(c & Hc & Hclass & Hname)].
    apply in_flat_map in Hc as (file_path & Hfile & Hc).
    unfold nodes_of_file in Hc.
    destruct (parse_file file_path) as [[body]|e] eqn:E; [|contradiction].
    apply walk_reaches in Hc as (top & Htop & Hw).
    now exists file_path, body, top, c.
  - intros (file_path & body & top & c & Hfile & Hparse & Htop & Hw
            & Hclass & Hname).
    right. exists c. repeat split; try assumption.
    apply in_flat_map. exists file_path. split; [assumption|].
    unfold nodes_of_file. rewrite Hparse. apply walk_reaches.
    now exists top.
Qed.

(** Calling the parser a second time on the same project (the files found
    all open) raises nothing and leaves the registry as the first call
    left it: the same classes in the same order with the same entries, no
    method listed twice. *)
Theorem second_pass_same_registry (project_path : string)
  (py_files : list string) :
  _get_py_files os_walk path_join (__init__ abspath project_path)
  = Ok py_files ->
  (forall u, In u py_files -> open_error u = None) ->
  let first_call :=
    __call__ codec_installed os_walk path_join open_error decodes unparse
      relpath parse_file (__init__ abspath project_path) in
  let second_call :=
    __call__ codec_installed os_walk path_join open_error decodes unparse
      relpath parse_file (snd first_call) in
  fst second_call = Ok tt
  /\ classes_info (snd second_call) = classes_info (snd first_call).
Proof.
  intros Hfiles Hopen first_call second_call.
  assert (Hagain :
    _get_py_files os_walk path_join (snd first_call) = Ok py_files).
  { rewrite <- Hfiles. unfold _get_py_files. subst first_call.
    rewrite (call_run _ _ Hfiles Hopen). cbn [snd].
    now rewrite (proj2 (files_effect_keeps_encoding _ _)). }
  subst second_call. split.
  - now rewrite (call_run _ _ Hagain Hopen).
  - rewrite (classes_info_call _ _ Hagain Hopen).
    subst first_call. rewrite (classes_info_call _ _ Hfiles Hopen).
    apply registered_twice. constructor.
Qed.

End FindingFiles.

Lemma get_py_files_lists_python_files_witness :
  ["/p/a.py"; "/p/pkg/b.py"] <> []
  /\ forall p,
       In p ["/p/a.py"; "/p/pkg/b.py"]
       <-> exists root dirs files file,
             In (root, dirs, files)
                (Examples.walk_project
                   (CodeReadParser.project_path
                      (CodeReadParser.__init__ Examples.same_path "/p")))
             /\ In file files /\ endswith file ".py" = true
             /\ p = Examples.join_slash root file.
Proof.
  apply (get_py_files_lists_python_files Examples.walk_project
           Examples.join_slash
           (CodeReadParser.__init__ Examples.same_path "/p")).
  reflexivity.
Defined.

Lemma call_without_python_files_witness :
  CodeReadParser.__call__ Examples.standard_codecs Examples.walk_no_python
    Examples.join_slash Examples.all_readable Examples.utf8_only
    Examples.render Examples.path_from Examples.parse_project
    (CodeReadParser.__init__ Examples.same_path "/p")
  = (Raise (IndexError "No python files found"),
     CodeReadParser.__init__ Examples.same_path "/p").
Proof.
  apply call_without_python_files.
  intros root dirs files file [[= <- <- <-]|[]] [<-|[]]. reflexivity.
Defined.

(** A parser with UTF-8 selected, one file that parses and one that does
    not. *)
Lemma parse_all_files_skips_failures_witness :
  let outcome :=
    CodeReadParser._parse_all_files Examples.standard_codecs
      Examples.all_readable Examples.render Examples.path_from
      Examples.parse_project ["/p/a.py"; "/p/broken.py"]
      Examples.parser_with_A in
  fst outcome = Ok tt
  /\ CodeReadParser.classes_info (snd outcome)
     = fold_left (Entry.registered Examples.render)
         (flat_map (Entry.nodes_of_file Examples.parse_project)
                   ["/p/a.py"; "/p/broken.py"])
         (CodeReadParser.classes_info Examples.parser_with_A).
Proof.
  apply (parse_all_files_skips_failures Examples.standard_codecs
           Examples.all_readable Examples.render Examples.path_from
           Examples.parse_project ["/p/a.py"; "/p/broken.py"]
           Examples.parser_with_A).
  - reflexivity.
  - reflexivity.
Defined.

Lemma parse_all_files_needs_encoding_witness :
  CodeReadParser._parse_all_files Examples.standard_codecs
    Examples.all_readable Examples.render Examples.path_from
    Examples.parse_project ["/p/a.py"; "/p/pkg/b.py"]
    (CodeReadParser.__init__ Examples.same_path "/p")
  = (Raise (LookupError "unknown encoding: "),
     CodeReadParser.__init__ Examples.same_path "/p").
Proof.
  apply (parse_all_files_needs_encoding Examples.standard_codecs
           Examples.all_readable Examples.render Examples.same_path
           Examples.path_from Examples.parse_project "/p" "/p/a.py"
           ["/p/pkg/b.py"]).
  reflexivity.
Defined.

Lemma call_registers_classes_witness :
  let outcome :=
    CodeReadParser.__call__ Examples.standard_codecs Examples.walk_project
      Examples.join_slash Examples.all_readable Examples.utf8_only
      Examples.render Examples.path_from Examples.parse_project
      (CodeReadParser.__init__ Examples.same_path "/p") in
  fst outcome = Ok tt
  /\ CodeReadParser.VALID_ENCODING (snd outcome) = "utf-8"
  /\ CodeReadParser.classes_info (snd outcome)
     = fold_left (Entry.registered Examples.render)
         (flat_map (Entry.nodes_of_file Examples.parse_project)
                   ["/p/a.py"; "/p/pkg/b.py"])
         (CodeReadParser.classes_info
            (CodeReadParser.__init__ Examples.same_path "/p")).
Proof.
  apply (call_registers_classes Examples.walk_project Examples.join_slash
           Examples.standard_codecs Examples.all_readable Examples.utf8_only
           Examples.render Examples.path_from Examples.parse_project
           (CodeReadParser.__init__ Examples.same_path "/p")
           ["/p/a.py"; "/p/pkg/b.py"]).
  - reflexivity.
  - reflexivity.
Defined.

Lemma call_stops_at_unopenable_file_witness :
  let outcome :=
    CodeReadParser.__call__ Examples.standard_codecs Examples.walk_project
      Examples.join_slash Examples.second_unopenable Examples.utf8_only
      Examples.render Examples.path_from Examples.parse_project
      (CodeReadParser.__init__ Examples.same_path "/p") in
  fst outcome = Raise (FileNotFoundError "No such file or directory")
  /\ CodeReadParser.classes_info (snd outcome)
     = fold_left (Entry.registered Examples.render)
         (flat_map (Entry.nodes_of_file Examples.parse_project) ["/p/a.py"])
         (CodeReadParser.classes_info
            (CodeReadParser.__init__ Examples.same_path "/p")).
Proof.
  apply (call_stops_at_unopenable_file Examples.walk_project
           Examples.join_slash Examples.standard_codecs
           Examples.second_unopenable Examples.utf8_only
           Examples.render Examples.path_from Examples.parse_project
           (CodeReadParser.__init__ Examples.same_path "/p")
           ["/p/a.py"] [] "/p/pkg/b.py").
  - reflexivity.
  - intros u [<-|[]]. reflexivity.
  - reflexivity.
Defined.


Lemma class_registered_iff_witness :
  dict_contains "Shape"
    (CodeReadParser.classes_info
       (snd (CodeReadParser.__call__ Examples.standard_codecs
               Examples.walk_project Examples.join_slash
               Examples.all_readable Examples.utf8_only Examples.render
               Examples.path_from Examples.parse_project
               (CodeReadParser.__init__ Examples.same_path "/p"))))
  = true
  <-> exists file_path body top c,
        In file_path ["/p/a.py"; "/p/pkg/b.py"]
        /\ Examples.parse_project file_path = Ok (Module body)
        /\ In top body /\ Reference.within top c
        /\ is_ClassDef c = true /\ node_name c = "Shape".
Proof.
  apply (class_registered_iff Examples.walk_project Examples.join_slash
           Examples.standard_codecs Examples.all_readable
           Examples.utf8_only Examples.render Examples.same_path
           Examples.path_from Examples.parse_project "/p"
           ["/p/a.py"; "/p/pkg/b.py"] "Shape").
  - reflexivity.
  - reflexivity.
Defined.

Lemma second_pass_same_registry_witness :
  let first_call :=
    CodeReadParser.__call__ Examples.standard_codecs Examples.walk_project
      Examples.join_slash Examples.all_readable Examples.utf8_only
      Examples.render Examples.path_from Examples.parse_project
      (CodeReadParser.__init__ Examples.same_path "/p") in
  let second_call :=
    CodeReadParser.__call__ Examples.standard_codecs Examples.walk_project
      Examples.join_slash Examples.all_readable Examples.utf8_only
      Examples.render Examples.path_from Examples.parse_project
      (snd first_call) in
  fst second_call = Ok tt
  /\ CodeReadParser.classes_info (snd second_call)
     = CodeReadParser.classes_info (snd first_call).
Proof.
  apply (second_pass_same_registry Examples.walk_project Examples.join_slash
           Examples.standard_codecs Examples.all_readable
           Examples.utf8_only Examples.render Examples.same_path
           Examples.path_from Examples.parse_project "/p"
           ["/p/a.py"; "/p/pkg/b.py"]).
  - reflexivity.
  - reflexivity.
Defined.

(** ** The whole run *)

Section MainFacts.

Import CodeReadParser.

Variable codec_installed : string -> bool.
Variable json_load_other : string -> content -> result pyval.
Variable unparse : expr -> string.
Variable abspath : string -> string.
Variable relpath : string -> string -> string.
Variable parse_file : string -> result module_node.
Variable os_walk : string -> list (string * list string * list string).
Variable path_join : string -> string -> string.
Variable open_error : string -> option exn.
Variable decodes : string -> string -> bool.
Variable py_repr : pyval -> string.
Variable run_dot : string -> result string.

Lemma init_in_memory_run (classes_info : pyval)
  (encoding uml_path : string) (fs : filesystem) :
  truthy classes_info = true ->
  UMLCreator._validate_classes_info
    (UMLCreator.mk encoding uml_path UMLCreator.template (Some classes_info))
  = Ok tt ->
  UMLCreator.__init__ codec_installed json_load_other classes_info None
    encoding uml_path fs
  = Ok (UMLCreator.mk encoding uml_path UMLCreator.template
                      (Some classes_info)).
Proof.
  intros Htrue Hvalid. unfold UMLCreator.__init__.
  rewrite Htrue. cbn [andb UMLCreator.path_given].
  unfold UMLCreator.with_classes_info, py_or. rewrite Htrue.
  cbn [UMLCreator.VALID_ENCODING UMLCreator.uml_path
       UMLCreator.class_template].
  now rewrite Hvalid.
Qed.

(** A call of the parser that raises nothing has selected one of the three
    standard encodings. *)
Lemma call_selects_standard_encoding (self : t) :
  fst (__call__ codec_installed os_walk path_join open_error decodes unparse
         relpath parse_file self)
  = Ok tt ->
  In (VALID_ENCODING
        (snd (__call__ codec_installed os_walk path_join open_error decodes
                unparse relpath parse_file self)))
     standard_encodings.
Proof.
  unfold __call__, bind, get, lift.
  destruct (_get_py_files os_walk path_join self) as [py_files|e];
    [|discriminate].
  destruct (first_file py_files) as [first|e]; [|discriminate].
  unfold _get_encoding. cbn [try_encodings]. unfold read_with.
  destruct (open_error first); [discriminate|].
  cbn [String.eqb Ascii.eqb Bool.eqb].
  assert (Hkept : forall enc,
    In enc standard_encodings ->
    let start :=
      {| project_path := project_path self;
         classes_path := classes_path self;
         VALID_ENCODING := enc;
         classes_info := classes_info self |} in
    In (VALID_ENCODING
          (snd (_parse_all_files codec_installed open_error unparse relpath
                  parse_file py_files start)))
       standard_encodings).
  { intros enc Henc start.
    destruct (parse_all_files_prefix codec_installed open_error unparse
                relpath parse_file py_files start)
      as (done & rest & _ & ->).
    now rewrite (proj1 (files_effect_keeps_encoding _ _ _ _ _)). }
  intros _.
  destruct (decodes first "utf-8");
    [apply Hkept; now left|].
  destruct (decodes first "gbk");
    [apply Hkept; right; now left|apply Hkept; right; right; now left].
Qed.

(** In a project directory without a file named [*.py], [main] raises
    [IndexError("No python files found")] and writes no file. *)
Theorem main_without_python_files (fs : filesystem) :
  (forall root dirs files file,
     In (root, dirs, files) (os_walk (abspath "E:\BaiduSyncdisk\Py2UML")) ->
     In file files -> endswith file ".py" = false) ->
  Main.main codec_installed json_load_other unparse abspath relpath
    parse_file os_walk path_join open_error decodes py_repr run_dot fs
  = (Raise (IndexError "No python files found"), fs).
Proof.
  intros Hnone.
  apply (get_py_files_none os_walk path_join
           (__init__ abspath "E:\BaiduSyncdisk\Py2UML")) in Hnone.
  unfold Main.main, __call__, bind, get, lift. now rewrite Hnone.
Qed.

(** When the project holds Python files and no class definition, [main]
    raises [ValueError("classes_info is empty.")] at the JSON step and
    writes no file. *)
Theorem main_without_classes (fs : filesystem) :
  let outcome :=
    __call__ codec_installed os_walk path_join open_error decodes unparse
      relpath parse_file (__init__ abspath "E:\BaiduSyncdisk\Py2UML") in
  fst outcome = Ok tt ->
  classes_info (snd outcome) = [] ->
  Main.main codec_installed json_load_other unparse abspath relpath
    parse_file os_walk path_join open_error decodes py_repr run_dot fs
  = (Raise (ValueError "classes_info is empty."), fs).
Proof.
  unfold Main.main.
  destruct (__call__ _ _ _ _ _ _ _ _ _) as [[[]|e'] cparser];
    cbn [fst snd]; [|discriminate].
  intros _ Hempty. rewrite Hempty. reflexivity.
Qed.


End MainFacts.

Lemma main_without_python_files_witness :
  Main.main Examples.standard_codecs Examples.undecodable Examples.render
    Examples.same_path Examples.path_from Examples.parse_project
    Examples.walk_no_python Examples.join_slash Examples.all_readable
    Examples.utf8_only Examples.repr_of Examples.dot_ok []
  = (Raise (IndexError "No python files found"), []).
Proof.
  apply (main_without_python_files Examples.standard_codecs
           Examples.undecodable Examples.render Examples.same_path
           Examples.path_from Examples.parse_project Examples.walk_no_python
           Examples.join_slash Examples.all_readable Examples.utf8_only
           Examples.repr_of Examples.dot_ok []).
  intros root dirs files file [[= <- <- <-]|[]] [<-|[]]. reflexivity.
Defined.

Lemma main_without_classes_witness :
  Main.main Examples.standard_codecs Examples.undecodable Examples.render
    Examples.same_path Examples.path_from Examples.parse_units
    Examples.walk_project Examples.join_slash Examples.all_readable
    Examples.utf8_only Examples.repr_of Examples.dot_ok []
  = (Raise (ValueError "classes_info is empty."), []).
Proof.
  apply (main_without_classes Examples.standard_codecs Examples.undecodable
           Examples.render Examples.same_path Examples.path_from
           Examples.parse_units Examples.walk_project Examples.join_slash
           Examples.all_readable Examples.utf8_only Examples.repr_of
           Examples.dot_ok []).
  - reflexivity.
  - reflexivity.
Defined.


(** ** What a method entry records *)

Section MethodEntries.

Import CodeReadParser Reference Entry.

Variable unparse : expr -> string.
Variable relpath : string -> string -> string.

(** After a class definition is registered, its [methods] list holds, in
    body order, one record per function definition of the body other than
    [__init__]: the name, the parameters as [_extract_arguments] lists
    them, the decorators written as simple names (a decorator that is a
    call or a dotted name is dropped), and the rendering of the return
    annotation, or ["None"] without one.  What the registry held under the
    name before is gone. *)
Theorem methods_record_definitions (file_path class_name : string)
  (bases decorator_list : list expr) (body : list stmt) (self : t) :
  exists info,
    dict_get class_name
      (classes_info
         (snd (register_node unparse relpath file_path
                 (ClassDef class_name bases body decorator_list) self)))
    = Some info
    /\ methods info
       = map (fun node =>
                {| name := node_name node;
                   args := _extract_arguments unparse (node_args node);
                   decorators := simple_names (node_decorator_list node);
                   return_type :=
                     match node_returns node with
                     | Some annotation => unparse annotation
                     | None => "None"
                     end |})
             (filter is_plain_method body).
Proof.
  rewrite register_node_run. unfold register_effect.
  cbn [is_ClassDef node_name snd classes_info].
  eexists. split; [apply dict_get_set_same|].
  unfold class_model. rewrite methods_body_effect.
  cbn [methods app node_body]. apply map_ext. intros node.
  unfold method_info_of, _extract_return_type.
  now rewrite simple_names_flat_map.
Qed.

End MethodEntries.
